(** * mye-r: ranking engine, scraper, downloader and retry manager

    A shallow embedding of the Go sources of MYETRO/mye-r
    (internal/scraper/torrentio.go, internal/downloader/downloader.go,
    internal/manager/manager.go, the config and database packages and the
    BaseProcessor of package internal), with the properties of the design
    document stated over it.

    Conventions.
    - Go [string] is a byte string: Rocq's [string].
    - Go [int] is [Z] with the 64-bit wrap-around written out ([wrap64]);
      [int32(x)] is [wrap32].
    - Go [float64] is [Float64.t], a rational, an infinity or NaN, where
      the value is read from the configuration file or by
      [strconv.ParseFloat]; a comparison with NaN is false.  The sizes that
      [fmt.Sscanf] scans and the progress decoded from JSON are taken
      finite and are values of [Q]: a finite float64 is a rational and Go
      compares floats by value.  Where the code multiplies floats the
      product is rounded to float64 ([Float64.nearest]).
    - [sql.NullString], [sql.NullInt32], [sql.NullTime] are records with the
      fields [String]/[Int32]/[Time] and [Valid], as in database/sql.
    - [time.Time] is [Z] (an instant), [time.Now()] is an explicit argument.
    - The PostgreSQL store is a record of tables, each a list of rows in
      storage order; a statement that fails for reasons outside the data
      (connection loss) is not modelled: every statement runs. *)

From Stdlib Require Import ZArith QArith Qround Qabs String Ascii List Bool Lia.
From Stdlib Require Import Sorted Permutation.
From stdpp Require Import base option list gmap strings.

Local Open Scope string_scope.
Local Open Scope Z_scope.

(** ** Package strings (byte-exact functions) *)

Module GoStrings.

(** [s[n:]] *)
Fixpoint from (n : nat) (s : string) : string :=
  match n, s with
  | O, _ => s
  | S n', String _ s' => from n' s'
  | S _, EmptyString => EmptyString
  end.

(** [s[:n]] *)
Fixpoint upto (n : nat) (s : string) : string :=
  match n, s with
  | O, _ => EmptyString
  | S n', String c s' => String c (upto n' s')
  | S _, EmptyString => EmptyString
  end.

(** [strings.HasPrefix(s, prefix)] *)
Definition HasPrefix (s prefix : string) : bool := String.prefix prefix s.

(** [strings.Index(s, substr)]: the byte offset of the first occurrence,
    -1 when there is none. *)
Fixpoint IndexFrom (i : Z) (s substr : string) : Z :=
  if HasPrefix s substr then i
  else match s with
       | EmptyString => -1
       | String _ s' => IndexFrom (i + 1) s' substr
       end.

Definition Index (s substr : string) : Z := IndexFrom 0 s substr.

(** [strings.Contains(s, substr)] *)
Definition Contains (s substr : string) : bool := negb (Index s substr =? -1).

(** [strings.TrimPrefix(s, prefix)] *)
Definition TrimPrefix (s prefix : string) : string :=
  if HasPrefix s prefix then from (String.length prefix) s else s.

(** [strings.Split(s, sep)] for a non-empty separator.  [skip] counts the
    bytes of a separator still to be dropped, [cur] is the piece being
    read, in reverse. *)
Fixpoint SplitGo (sep : string) (skip : nat) (cur : string) (s : string)
  : list string :=
  match s with
  | EmptyString => [String.rev cur]
  | String c s' =>
      match skip with
      | S k => SplitGo sep k cur s'
      | O =>
          if HasPrefix s sep
          then String.rev cur :: SplitGo sep (String.length sep - 1)%nat EmptyString s'
          else SplitGo sep O (String c cur) s'
      end
  end.

Definition Split (s sep : string) : list string := SplitGo sep O EmptyString s.

(** The first piece of a split: [strings.Split(s, sep)[0]]. *)
Definition first (l : list string) : string := List.hd EmptyString l.

(** [strings.Split(s, sep)[1]]; the callers check [Contains] first. *)
Definition second (l : list string) : string := List.nth 1 l EmptyString.

(** Drop the bytes above 127: what
    [strings.Map(func(r) { if r > 127 { return -1 }; return r }, s)]
    leaves, since every byte above 127 belongs to a rune above 127 or
    decodes to U+FFFD. *)
Fixpoint dropNonASCII (s : string) : string :=
  match s with
  | EmptyString => EmptyString
  | String c s' =>
      if (Z.of_nat (nat_of_ascii c) >? 127) then dropNonASCII s'
      else String c (dropNonASCII s')
  end.

(** [strings.IndexFunc(s, func(r) bool { return r > 127 }) == 0] *)
Definition startsNonASCII (s : string) : bool :=
  match s with
  | EmptyString => false
  | String c _ => Z.of_nat (nat_of_ascii c) >? 127
  end.

End GoStrings.

(** ** Machine integers and runes *)

Definition wrap64 (x : Z) : Z := (x + 2 ^ 63) mod 2 ^ 64 - 2 ^ 63.

(** [int32(x)] *)
Definition wrap32 (x : Z) : Z := (x + 2 ^ 31) mod 2 ^ 32 - 2 ^ 31.

(** [a + b] on [int] *)
Definition addInt (a b : Z) : Z := wrap64 (a + b).

(** Round to the nearest integer, ties to even. *)
Definition roundHalfEven (q : Q) : Z :=
  let fl := Qfloor q in
  let twice := Qfloor (q * 2) in
  let halfUp := Qeq_bool (inject_Z twice) (q * 2) && (twice =? 2 * fl + 1) in
  if halfUp then (if Z.even fl then fl else fl + 1)
  else Qfloor (q + (1 # 2)).

Definition byteZ (c : ascii) : Z := Z.of_nat (nat_of_ascii c).

Definition byteOfZ (z : Z) : ascii := ascii_of_nat (Z.to_nat z).

Definition RuneError : Z := 0xFFFD.

Definition isCont (b : Z) : bool := (0x80 <=? b) && (b <=? 0xBF).

(** [utf8.DecodeRuneInString]: the rune at the head of [s] and its width;
    an ill-formed sequence is U+FFFD of width 1. *)
Definition DecodeRuneInString (s : string) : Z * nat :=
  match s with
  | EmptyString => (RuneError, O)
  | String c0 t =>
      let b0 := byteZ c0 in
      if b0 <? 0x80 then (b0, 1%nat)
      else if (0xC2 <=? b0) && (b0 <=? 0xDF) then
        match t with
        | String c1 _ =>
            let b1 := byteZ c1 in
            if isCont b1
            then (Z.lor (Z.shiftl (Z.land b0 0x1F) 6) (Z.land b1 0x3F), 2%nat)
            else (RuneError, 1%nat)
        | _ => (RuneError, 1%nat)
        end
      else if (0xE0 <=? b0) && (b0 <=? 0xEF) then
        match t with
        | String c1 (String c2 _) =>
            let b1 := byteZ c1 in
            let b2 := byteZ c2 in
            let lo := if b0 =? 0xE0 then 0xA0 else 0x80 in
            let hi := if b0 =? 0xED then 0x9F else 0xBF in
            if (lo <=? b1) && (b1 <=? hi) && isCont b2
            then (Z.lor (Z.shiftl (Z.land b0 0x0F) 12)
                    (Z.lor (Z.shiftl (Z.land b1 0x3F) 6) (Z.land b2 0x3F)), 3%nat)
            else (RuneError, 1%nat)
        | _ => (RuneError, 1%nat)
        end
      else if (0xF0 <=? b0) && (b0 <=? 0xF4) then
        match t with
        | String c1 (String c2 (String c3 _)) =>
            let b1 := byteZ c1 in
            let b2 := byteZ c2 in
            let b3 := byteZ c3 in
            let lo := if b0 =? 0xF0 then 0x90 else 0x80 in
            let hi := if b0 =? 0xF4 then 0x8F else 0xBF in
            if (lo <=? b1) && (b1 <=? hi) && isCont b2 && isCont b3
            then (Z.lor (Z.shiftl (Z.land b0 0x07) 18)
                    (Z.lor (Z.shiftl (Z.land b1 0x3F) 12)
                       (Z.lor (Z.shiftl (Z.land b2 0x3F) 6) (Z.land b3 0x3F))), 4%nat)
            else (RuneError, 1%nat)
        | _ => (RuneError, 1%nat)
        end
      else (RuneError, 1%nat)
  end.

(** [[]rune(s)] *)
Fixpoint runesGo (skip : nat) (s : string) : list Z :=
  match s with
  | EmptyString => []
  | String _ s' =>
      match skip with
      | S k => runesGo k s'
      | O => let '(r, w) := DecodeRuneInString s in r :: runesGo (w - 1)%nat s'
      end
  end.

Definition runes (s : string) : list Z := runesGo O s.

(** [strconv.Atoi(s)] with the error dropped, as every caller does
    ([n, _ = strconv.Atoi(s)]): 0 on a syntax error, the nearest int64 on a
    range error. *)
Definition isDigitByte (c : ascii) : bool :=
  (48 <=? byteZ c) && (byteZ c <=? 57).

Fixpoint digitsValue (acc : Z) (s : string) : option Z :=
  match s with
  | EmptyString => Some acc
  | String c s' =>
      if isDigitByte c then digitsValue (10 * acc + (byteZ c - 48)) s' else None
  end.

Definition clampInt64 (x : Z) : Z :=
  if x >? 2 ^ 63 - 1 then 2 ^ 63 - 1 else if x <? - 2 ^ 63 then - 2 ^ 63 else x.

Definition Atoi (s : string) : Z :=
  let '(neg, body) :=
    match s with
    | String "-" t => (true, t)
    | String "+" t => (false, t)
    | _ => (false, s)
    end in
  match body with
  | EmptyString => 0
  | _ => match digitsValue 0 body with
         | Some v => clampInt64 (if neg then - v else v)
         | None => 0
         end
  end.

(** ** float64 *)

Module Float64.

Inductive t :=
| Finite (q : Q)
| PosInf
| NegInf
| NaN.

(** [a <= b]: false when either side is NaN. *)
Definition le (a b : t) : bool :=
  match a, b with
  | NaN, _ | _, NaN => false
  | NegInf, _ | _, PosInf => true
  | Finite x, Finite y => Qle_bool x y
  | PosInf, _ | _, NegInf => false
  end.

(** [a < b]: false when either side is NaN. *)
Definition lt (a b : t) : bool :=
  match a, b with
  | NaN, _ | _, NaN => false
  | PosInf, _ | _, NegInf => false
  | Finite x, Finite y => negb (Qle_bool y x)
  | NegInf, _ | _, PosInf => true
  end.

Definition isNaN (a : t) : bool :=
  match a with
  | NaN => true
  | _ => false
  end.

(** [2 ^ e] for any integer [e]. *)
Definition pow2 (e : Z) : Q :=
  if 0 <=? e then inject_Z (2 ^ e) else 1 # Z.to_pos (2 ^ (- e)).

(** The float64 nearest to the rational [q], ties to even: a multiple
    [m * 2 ^ e] with [2 ^ 52 <= m <= 2 ^ 53].  The exponent is not bounded:
    the values rounded here are far from overflow and underflow. *)
Definition nearest (q : Q) : Q :=
  if Qeq_bool q 0 then 0%Q
  else
    let a := Qabs q in
    let e0 := Z.log2 (Qnum a) - Z.log2 (Z.pos (Qden a)) - 52 in
    let e := if Qle_bool (inject_Z (2 ^ 52)) (a * pow2 (- e0)) then e0 else e0 - 1 in
    let m := roundHalfEven (a * pow2 (- e)) in
    Qred ((if Qle_bool 0 q then inject_Z m else inject_Z (- m)) * pow2 e).

End Float64.

Arguments Float64.le : simpl never.
Arguments Float64.lt : simpl never.

(** [int(f)] for a finite float64 [f]: truncation toward zero. *)
Definition intOfFloat (f : Q) : Z := wrap64 (Z.quot (Qnum f) (Z.pos (Qden f))).

(** [float64(n)] *)
Definition floatOfInt (n : Z) : Q := Float64.nearest (inject_Z n).

(** ** The part of Go's standard library taken as given

    The functions below depend on Unicode tables or on float64 scanning
    and printing.  They belong to Go, not to this repository, and are
    parameters of the development.  [asciiLib] further down is an instance
    that agrees with Go on ASCII text and on decimal numerals in the
    range of float64; it is used to evaluate the code on concrete
    inputs. *)

Class GoLib := {
  (** [strings.ToLower] *)
  ToLower : string -> string;
  (** [strings.ToUpper] *)
  ToUpper : string -> string;
  (** [strings.TrimSpace] *)
  TrimSpace : string -> string;
  (** [strings.Fields] *)
  Fields : string -> list string;
  (** [strings.TrimFunc(s, func(r) bool { return !unicode.IsDigit(r) })] *)
  TrimNonDigits : string -> string;
  (** [strconv.ParseFloat(s, 64)]: [None] when [err != nil] *)
  ParseFloat : string -> option Float64.t;
  (** [fmt.Sprintf("%.2f", v)] *)
  Sprintf_2f : Float64.t -> string;
  (** [fmt.Sscanf(s, "%f %s", &value, &unit)]: [Some] when [n = 2] and
      [err = nil] *)
  Sscanf_f_s : string -> option (Q * string);
  (** [fmt.Sscanf(s, "%f%s", &value, &unit)], likewise *)
  Sscanf_fs : string -> option (Q * string)
}.

(** ** An instance of the library for ASCII text and decimal numerals *)

Module Ascii7.

Definition lowerByte (c : ascii) : ascii :=
  if (65 <=? byteZ c) && (byteZ c <=? 90) then byteOfZ (byteZ c + 32) else c.

Definition upperByte (c : ascii) : ascii :=
  if (97 <=? byteZ c) && (byteZ c <=? 122) then byteOfZ (byteZ c - 32) else c.

Fixpoint mapBytes (f : ascii -> ascii) (s : string) : string :=
  match s with
  | EmptyString => EmptyString
  | String c s' => String (f c) (mapBytes f s')
  end.

Definition isSpaceByte (c : ascii) : bool :=
  ((9 <=? byteZ c) && (byteZ c <=? 13)) || (byteZ c =? 32).

Fixpoint trimLeft (p : ascii -> bool) (s : string) : string :=
  match s with
  | EmptyString => EmptyString
  | String c s' => if p c then trimLeft p s' else s
  end.

Definition trimBoth (p : ascii -> bool) (s : string) : string :=
  String.rev (trimLeft p (String.rev (trimLeft p s))).

(** Pieces between runs of white space; [cur] is the piece being read, in
    reverse. *)
Fixpoint fieldsGo (cur : string) (s : string) : list string :=
  match s with
  | EmptyString =>
      match cur with EmptyString => [] | _ => [String.rev cur] end
  | String c s' =>
      if isSpaceByte c
      then match cur with
           | EmptyString => fieldsGo EmptyString s'
           | _ => String.rev cur :: fieldsGo EmptyString s'
           end
      else fieldsGo (String c cur) s'
  end.

(** The longest prefix of digits, as a number and a count, and the rest. *)
Fixpoint takeDigits (acc : Z) (n : nat) (s : string) : Z * nat * string :=
  match s with
  | String c s' =>
      if isDigitByte c then takeDigits (10 * acc + (byteZ c - 48)) (S n) s'
      else (acc, n, s)
  | EmptyString => (acc, n, s)
  end.

(** An optional sign at the head of [s]: whether it is [-], and the
    rest. *)
Definition takeSign (s : string) : bool * string :=
  match s with
  | String "-" t => (true, t)
  | String "+" t => (false, t)
  | _ => (false, s)
  end.

(** [10 ^ e] for any integer [e]. *)
Definition pow10 (e : Z) : Q :=
  if 0 <=? e then inject_Z (10 ^ e) else 1 # Z.to_pos (10 ^ (- e)).

(** A decimal numeral [[+-]ddd[.ddd][e[+-]dd]] at the head of [s]: its
    value and the rest of [s].  The scan takes an exponent mark ([e],
    [E], and [p], [P] of the hexadecimal form) with the sign and digits
    that follow; the numeral is refused when the mark is not [e] or [E]
    or no digit follows. *)
Definition scanDecimal (s : string) : option (Q * string) :=
  let '(neg, body) := takeSign s in
  let '(ip, ni, r1) := takeDigits 0 O body in
  let '(fp, nf, r2) :=
    match r1 with
    | String "." t => takeDigits 0 O t
    | _ => (0, O, r1)
    end in
  if (ni + nf =? 0)%nat then None
  else
    let den := Pos.pow 10 (Pos.of_nat (S nf)) in
    let num := (ip * 10 ^ Z.of_nat nf + fp) * 10 in
    let mantissa := (if neg then - num else num) # den in
    match r2 with
    | String c t =>
        if existsb (Ascii.eqb c) ["e"; "E"; "p"; "P"]%char
        then
          let '(eneg, ebody) := takeSign t in
          let '(ev, ne, r3) := takeDigits 0 O ebody in
          if (ne =? 0)%nat || existsb (Ascii.eqb c) ["p"; "P"]%char then None
          else Some ((mantissa * pow10 (if eneg then - ev else ev))%Q, r3)
        else Some (mantissa, r2)
    | EmptyString => Some (mantissa, r2)
    end.

Definition parseDecimal (s : string) : option Q :=
  match scanDecimal s with
  | Some (q, EmptyString) => Some q
  | _ => None
  end.

(** The first space-delimited token of [s]. *)
Fixpoint takeToken (cur : string) (s : string) : string :=
  match s with
  | EmptyString => String.rev cur
  | String c s' => if isSpaceByte c then String.rev cur else takeToken (String c cur) s'
  end.

Definition scanFloatUnit (s : string) : option (Q * string) :=
  match scanDecimal (trimLeft isSpaceByte s) with
  | Some (q, rest) =>
      match takeToken EmptyString (trimLeft isSpaceByte rest) with
      | EmptyString => None
      | u => Some (Float64.nearest q, u)
      end
  | None => None
  end.

Fixpoint showDigits (fuel : nat) (n : Z) (acc : string) : string :=
  match fuel with
  | O => acc
  | S fuel' =>
      let acc' := String (byteOfZ (48 + n mod 10)) acc in
      if n <? 10 then acc' else showDigits fuel' (n / 10) acc'
  end.

Definition showNat (n : Z) : string :=
  showDigits (S (Z.to_nat (Z.log2 n))) n EmptyString.

Definition show2f (q : Q) : string :=
  let n := roundHalfEven (q * 100) in
  let a := Z.abs n in
  let frac := a mod 100 in
  let sign := if n <? 0 then "-" else "" in
  let pad := if frac <? 10 then "0" else "" in
  sign +:+ showNat (a / 100) +:+ "." +:+ pad +:+ showNat frac.

(** [strconv.ParseFloat] on the special values ([Inf] and [Infinity],
    signed or not, and [NaN], in any case) and on decimal numerals. *)
Definition parseFloat (s : string) : option Float64.t :=
  let lower := mapBytes lowerByte s in
  if existsb (String.eqb lower) ["inf"; "+inf"; "infinity"; "+infinity"]
  then Some Float64.PosInf
  else if existsb (String.eqb lower) ["-inf"; "-infinity"] then Some Float64.NegInf
  else if String.eqb lower "nan" then Some Float64.NaN
  else option_map (fun q => Float64.Finite (Float64.nearest q)) (parseDecimal s).

(** [fmt.Sprintf("%.2f", v)]: an infinity is printed with its sign. *)
Definition showFloat2f (v : Float64.t) : string :=
  match v with
  | Float64.Finite q => show2f q
  | Float64.PosInf => "+Inf"
  | Float64.NegInf => "-Inf"
  | Float64.NaN => "NaN"
  end.

End Ascii7.

#[export] Instance asciiLib : GoLib := {|
  ToLower := Ascii7.mapBytes Ascii7.lowerByte;
  ToUpper := Ascii7.mapBytes Ascii7.upperByte;
  TrimSpace := Ascii7.trimBoth Ascii7.isSpaceByte;
  Fields := Ascii7.fieldsGo EmptyString;
  TrimNonDigits := Ascii7.trimBoth (fun c => negb (isDigitByte c));
  ParseFloat := Ascii7.parseFloat;
  Sprintf_2f := Ascii7.showFloat2f;
  Sscanf_f_s := Ascii7.scanFloatUnit;
  Sscanf_fs := Ascii7.scanFloatUnit
|}.

(** ** Package config *)

(** [m[k]] on a Go [map[string]int]: the zero value for an absent key. *)
Definition mapIndex (m : gmap string Z) (k : string) : Z := default 0 (m !! k).

Record ScoringConfig := {
  LanguageIncludeScore : Z;
  LanguageExcludePenalty : Z;
  ResolutionScores : gmap string Z;
  MaxSeederScore : Z;
  MaxSizeScore : Z;
  CodecScores : gmap string Z;
  PreferredUploaderScore : Z
}.

Record MediaFilesize := {
  SizeUnit : string;
  Min : Float64.t;
  Max : Float64.t
}.

Record FilesizeConfig := {
  Movie : MediaFilesize;
  Show : MediaFilesize
}.

Record LanguagesConfig := {
  Include : list string;
  Exclude : list string
}.

(** [config.ScrapingConfig], with [Ranking.Scoring] flattened to [Scoring]
    and the URL of the one scraper, [Scrapers["torrentio"].URL]. *)
Record ScrapingConfig := {
  TorrentioURL : string;
  Filesize : FilesizeConfig;
  PreferredUploaders : list string;
  Languages : LanguagesConfig;
  Scoring : ScoringConfig
}.

Record ProcessManagementConfig := {
  DefaultRetryWaitTime : Z;
  DefaultMaxRetries : Z
}.

Record Config := {
  Scraping : ScrapingConfig;
  ProcessManagement : ProcessManagementConfig
}.

Inductive FilesizeError :=
| MovieSizeUnitNotGB
| MovieMinNotPositive
| MovieMaxNotAboveMin
| ShowSizeUnitNotGB
| ShowMinNotPositive
| ShowMaxNotAboveMin.

(** [a <= b] and [a < b] on finite float64 values *)
Definition fle (a b : Q) : bool := Qle_bool a b.
Definition flt (a b : Q) : bool := negb (Qle_bool b a).

(** [Config.validateFilesizeConfig]: [None] is the [nil] error. *)
Definition validateFilesizeConfig (c : Config) : option FilesizeError :=
  let filesize := Filesize (Scraping c) in
  if negb (String.eqb (SizeUnit (Movie filesize)) "GB") then Some MovieSizeUnitNotGB
  else if Float64.le (Min (Movie filesize)) (Float64.Finite 0) then Some MovieMinNotPositive
  else if Float64.le (Max (Movie filesize)) (Min (Movie filesize))
  then Some MovieMaxNotAboveMin
  else if negb (String.eqb (SizeUnit (Show filesize)) "GB") then Some ShowSizeUnitNotGB
  else if Float64.le (Min (Show filesize)) (Float64.Finite 0) then Some ShowMinNotPositive
  else if Float64.le (Max (Show filesize)) (Min (Show filesize))
  then Some ShowMaxNotAboveMin
  else None.

(** ** Package database: rows *)

Module NullString.
Record t := { String : string; Valid : bool }.
Definition valid (s : string) : t := {| String := s; Valid := true |}.
Definition null : t := {| String := EmptyString; Valid := false |}.
End NullString.

Module NullInt32.
Record t := { Int32 : Z; Valid : bool }.
Definition valid (n : Z) : t := {| Int32 := n; Valid := true |}.
Definition null : t := {| Int32 := 0; Valid := false |}.
End NullInt32.

Module NullTime.
Record t := { Time : Z; Valid : bool }.
Definition valid (n : Z) : t := {| Time := n; Valid := true |}.
Definition null : t := {| Time := 0; Valid := false |}.
End NullTime.

(** The columns of [watchlistitem] that the modelled code reads or
    writes. *)
Module WatchlistItem.
Record t := {
  ID : Z;
  Title : string;
  ImdbID : NullString.t;
  TmdbID : NullString.t;
  Status : NullString.t;
  CurrentStep : NullString.t;
  LastScrapedDate : NullTime.t;
  MediaType : NullString.t;
  ShowStatus : NullString.t;
  UpdatedAt : Z
}.
End WatchlistItem.

Module Season.
Record t := {
  ID : Z;
  WatchlistItemID : Z;
  SeasonNumber : Z;
  EpisodeCount : NullInt32.t
}.
End Season.

Module TVEpisode.
Record t := {
  ID : Z;
  SeasonID : Z;
  EpisodeNumber : Z;
  AirDate : NullTime.t;
  Scraped : bool;
  ScrapeResultID : NullInt32.t
}.
End TVEpisode.

Module ScrapeResult.
Record t := {
  ID : Z;
  WatchlistItemID : Z;
  ScrapedFilename : NullString.t;
  ScrapedResolution : NullString.t;
  ScrapedDate : NullTime.t;
  InfoHash : NullString.t;
  ScrapedScore : NullInt32.t;
  ScrapedFileSize : NullString.t;
  ScrapedCodec : NullString.t;
  StatusResults : NullString.t;
  DebridID : NullString.t;
  DebridURI : NullString.t;
  CreatedAt : Z;
  UpdatedAt : Z
}.
End ScrapeResult.

Record DB := {
  watchlistitem : list WatchlistItem.t;
  seasons : list Season.t;
  tv_episodes : list TVEpisode.t;
  scrape_results : list ScrapeResult.t;
  (** the last value handed out by [scrape_results_id_seq] *)
  scrape_results_id_seq : Z
}.

(** ** Package sort

    [sort.Slice(x, less)] promises a permutation ordered by [less] and no
    stability.  The model is the insertion sort that Go runs on slices of
    at most 12 elements ([insertionSortLessFunc]): element [i] moves left
    while it is [less] than its left neighbour.  [insertBack x r] inserts
    [x] after the sorted prefix whose elements are listed in [r] from the
    last to the first. *)

Section Sort.
Context {A : Type} (less : A -> A -> bool).

Fixpoint insertBack (x : A) (r : list A) : list A :=
  match r with
  | [] => [x]
  | y :: r' => if less x y then y :: insertBack x r' else x :: r
  end.

Definition sortSlice (l : list A) : list A :=
  rev (fold_left (fun r x => insertBack x r) l []).

End Sort.

(** ** Package database: statements *)

Definition setEpisode (row e : TVEpisode.t) : TVEpisode.t :=
  {| TVEpisode.ID := TVEpisode.ID row;
     TVEpisode.SeasonID := TVEpisode.SeasonID row;
     TVEpisode.EpisodeNumber := TVEpisode.EpisodeNumber row;
     TVEpisode.AirDate := TVEpisode.AirDate e;
     TVEpisode.Scraped := TVEpisode.Scraped e;
     TVEpisode.ScrapeResultID := TVEpisode.ScrapeResultID e |}.

Definition withEpisodes (db : DB) (eps : list TVEpisode.t) : DB :=
  {| watchlistitem := watchlistitem db;
     seasons := seasons db;
     tv_episodes := eps;
     scrape_results := scrape_results db;
     scrape_results_id_seq := scrape_results_id_seq db |}.

Definition withResults (db : DB) (rs : list ScrapeResult.t) (seq : Z) : DB :=
  {| watchlistitem := watchlistitem db;
     seasons := seasons db;
     tv_episodes := tv_episodes db;
     scrape_results := rs;
     scrape_results_id_seq := seq |}.

Definition withItems (db : DB) (ws : list WatchlistItem.t) : DB :=
  {| watchlistitem := ws;
     seasons := seasons db;
     tv_episodes := tv_episodes db;
     scrape_results := scrape_results db;
     scrape_results_id_seq := scrape_results_id_seq db |}.

(** [SELECT ... FROM seasons WHERE watchlist_item_id = $1
    ORDER BY season_number ASC] *)
Definition GetSeasonsForItem (db : DB) (watchlistItemID : Z) : list Season.t :=
  sortSlice (fun a b => Season.SeasonNumber a <? Season.SeasonNumber b)
    (List.filter (fun s => Season.WatchlistItemID s =? watchlistItemID) (seasons db)).

(** [SELECT ... FROM tv_episodes WHERE season_id = $1
    ORDER BY episode_number ASC] *)
Definition GetEpisodesForSeason (db : DB) (seasonID : Z) : list TVEpisode.t :=
  sortSlice (fun a b => TVEpisode.EpisodeNumber a <? TVEpisode.EpisodeNumber b)
    (List.filter (fun e => TVEpisode.SeasonID e =? seasonID) (tv_episodes db)).

(** [UPDATE tv_episodes SET ..., air_date = $2, ..., scraped = $5,
    scrape_result_id = $6 WHERE id = $7] *)
Definition UpdateTVEpisode (db : DB) (episode : TVEpisode.t) : DB :=
  withEpisodes db
    (List.map (fun row => if TVEpisode.ID row =? TVEpisode.ID episode
                          then setEpisode row episode else row)
       (tv_episodes db)).

Definition setResult (now : Z) (row r : ScrapeResult.t) : ScrapeResult.t :=
  {| ScrapeResult.ID := ScrapeResult.ID row;
     ScrapeResult.WatchlistItemID := ScrapeResult.WatchlistItemID row;
     ScrapeResult.ScrapedFilename := ScrapeResult.ScrapedFilename r;
     ScrapeResult.ScrapedResolution := ScrapeResult.ScrapedResolution r;
     ScrapeResult.ScrapedDate := ScrapeResult.ScrapedDate r;
     ScrapeResult.InfoHash := ScrapeResult.InfoHash r;
     ScrapeResult.ScrapedScore := ScrapeResult.ScrapedScore r;
     ScrapeResult.ScrapedFileSize := ScrapeResult.ScrapedFileSize r;
     ScrapeResult.ScrapedCodec := ScrapeResult.ScrapedCodec r;
     ScrapeResult.StatusResults := ScrapeResult.StatusResults r;
     ScrapeResult.DebridID := ScrapeResult.DebridID r;
     ScrapeResult.DebridURI := ScrapeResult.DebridURI r;
     ScrapeResult.CreatedAt := ScrapeResult.CreatedAt row;
     ScrapeResult.UpdatedAt := now |}.

(** [UPDATE scrape_results SET scraped_filename = $2, ..., debrid_uri = $11,
    updated_at = $12 WHERE id = $1] *)
Definition UpdateScrapeResult (now : Z) (db : DB) (result : ScrapeResult.t) : DB :=
  withResults db
    (List.map (fun row => if ScrapeResult.ID row =? ScrapeResult.ID result
                          then setResult now row result else row)
       (scrape_results db))
    (scrape_results_id_seq db).

Definition withID (r : ScrapeResult.t) (id now : Z) : ScrapeResult.t :=
  {| ScrapeResult.ID := id;
     ScrapeResult.WatchlistItemID := ScrapeResult.WatchlistItemID r;
     ScrapeResult.ScrapedFilename := ScrapeResult.ScrapedFilename r;
     ScrapeResult.ScrapedResolution := ScrapeResult.ScrapedResolution r;
     ScrapeResult.ScrapedDate := ScrapeResult.ScrapedDate r;
     ScrapeResult.InfoHash := ScrapeResult.InfoHash r;
     ScrapeResult.ScrapedScore := ScrapeResult.ScrapedScore r;
     ScrapeResult.ScrapedFileSize := ScrapeResult.ScrapedFileSize r;
     ScrapeResult.ScrapedCodec := ScrapeResult.ScrapedCodec r;
     ScrapeResult.StatusResults := ScrapeResult.StatusResults r;
     ScrapeResult.DebridID := ScrapeResult.DebridID r;
     ScrapeResult.DebridURI := ScrapeResult.DebridURI r;
     ScrapeResult.CreatedAt := now;
     ScrapeResult.UpdatedAt := now |}.

(** [info_hash = $2] for a non-NULL parameter: a NULL column never
    matches. *)
Definition hashIs (h : string) (row : ScrapeResult.t) : bool :=
  NullString.Valid (ScrapeResult.InfoHash row) &&
  String.eqb (NullString.String (ScrapeResult.InfoHash row)) h.

(** [SaveScrapeResult]: a result of the same item with the same info hash
    is updated in place and its id returned; otherwise a row is inserted
    under the next id of the sequence. *)
Definition SaveScrapeResult (now : Z) (db : DB) (result : ScrapeResult.t) : Z * DB :=
  let existing :=
    if NullString.Valid (ScrapeResult.InfoHash result)
    then List.find (fun row =>
                 (ScrapeResult.WatchlistItemID row =? ScrapeResult.WatchlistItemID result)
                 && hashIs (NullString.String (ScrapeResult.InfoHash result)) row)
           (scrape_results db)
    else None in
  match existing with
  | Some row =>
      let existingID := ScrapeResult.ID row in
      (existingID, UpdateScrapeResult now db (withID result existingID now))
  | None =>
      let id := scrape_results_id_seq db + 1 in
      (id, withResults db (scrape_results db ++ [withID result id now]) id)
  end.

(** [SELECT info_hash FROM scrape_results WHERE watchlist_item_id = $1 AND
    info_hash IS NOT NULL LIMIT 1]; the empty string when there is no
    row.  The query has no [ORDER BY]: PostgreSQL may return any of the
    rows that qualify, and the first of the list stands for the one it
    returns. *)
Definition GetExistingHashForItem (db : DB) (itemID : Z) : string :=
  match List.find (fun row => (ScrapeResult.WatchlistItemID row =? itemID)
                           && NullString.Valid (ScrapeResult.InfoHash row))
          (scrape_results db) with
  | Some row => NullString.String (ScrapeResult.InfoHash row)
  | None => ""
  end.

Definition setStatus (now : Z) (status : string) (row : ScrapeResult.t) : ScrapeResult.t :=
  {| ScrapeResult.ID := ScrapeResult.ID row;
     ScrapeResult.WatchlistItemID := ScrapeResult.WatchlistItemID row;
     ScrapeResult.ScrapedFilename := ScrapeResult.ScrapedFilename row;
     ScrapeResult.ScrapedResolution := ScrapeResult.ScrapedResolution row;
     ScrapeResult.ScrapedDate := ScrapeResult.ScrapedDate row;
     ScrapeResult.InfoHash := ScrapeResult.InfoHash row;
     ScrapeResult.ScrapedScore := ScrapeResult.ScrapedScore row;
     ScrapeResult.ScrapedFileSize := ScrapeResult.ScrapedFileSize row;
     ScrapeResult.ScrapedCodec := ScrapeResult.ScrapedCodec row;
     ScrapeResult.StatusResults := NullString.valid status;
     ScrapeResult.DebridID := ScrapeResult.DebridID row;
     ScrapeResult.DebridURI := ScrapeResult.DebridURI row;
     ScrapeResult.CreatedAt := ScrapeResult.CreatedAt row;
     ScrapeResult.UpdatedAt := now |}.

(** [UPDATE scrape_results SET status_results = $2, updated_at = $3
    WHERE watchlist_item_id = $1] *)
Definition UpdateScrapeResultStatus (now : Z) (db : DB) (itemID : Z) (status : string) : DB :=
  withResults db
    (List.map (fun row => if ScrapeResult.WatchlistItemID row =? itemID
                          then setStatus now status row else row)
       (scrape_results db))
    (scrape_results_id_seq db).

(** [ORDER BY scraped_score DESC]: PostgreSQL puts NULL first. *)
Definition scoreBefore (a b : ScrapeResult.t) : bool :=
  match NullInt32.Valid (ScrapeResult.ScrapedScore a),
        NullInt32.Valid (ScrapeResult.ScrapedScore b) with
  | false, true => true
  | true, true =>
      NullInt32.Int32 (ScrapeResult.ScrapedScore a) >? NullInt32.Int32 (ScrapeResult.ScrapedScore b)
  | _, _ => false
  end.

(** [SELECT ... FROM scrape_results WHERE watchlist_item_id = $1
    ORDER BY scraped_score DESC] *)
Definition GetScrapeResultsForItem (db : DB) (itemID : Z) : list ScrapeResult.t :=
  sortSlice scoreBefore
    (List.filter (fun row => ScrapeResult.WatchlistItemID row =? itemID) (scrape_results db)).

(** [SELECT ... FROM watchlistitem WHERE id = $1] *)
Definition GetWatchlistItemByID (db : DB) (itemID : Z) : option WatchlistItem.t :=
  List.find (fun w => WatchlistItem.ID w =? itemID) (watchlistitem db).

(** [CASE WHEN $1 = '' THEN NULL ELSE $1 END] *)
Definition nullIfEmpty (s : string) : NullString.t :=
  if String.eqb s "" then NullString.null else NullString.valid s.

Definition setItem (now : Z) (row item : WatchlistItem.t) : WatchlistItem.t :=
  {| WatchlistItem.ID := WatchlistItem.ID row;
     WatchlistItem.Title := WatchlistItem.Title item;
     WatchlistItem.ImdbID := nullIfEmpty (NullString.String (WatchlistItem.ImdbID item));
     WatchlistItem.TmdbID := nullIfEmpty (NullString.String (WatchlistItem.TmdbID item));
     WatchlistItem.Status := NullString.valid (NullString.String (WatchlistItem.Status item));
     WatchlistItem.CurrentStep :=
       NullString.valid (NullString.String (WatchlistItem.CurrentStep item));
     WatchlistItem.LastScrapedDate := WatchlistItem.LastScrapedDate row;
     WatchlistItem.MediaType :=
       NullString.valid (NullString.String (WatchlistItem.MediaType item));
     WatchlistItem.ShowStatus :=
       NullString.valid (NullString.String (WatchlistItem.ShowStatus item));
     WatchlistItem.UpdatedAt := now |}.

(** [UPDATE watchlistitem SET tmdb_id = ..., title = $2, ..., media_type =
    $7, ..., show_status = $10, status = $11, current_step = $12, imdb_id =
    ..., updated_at = $15 WHERE id = $16].  The statement passes the
    [String] of each nullable field and does not write
    [last_scraped_date]. *)
Definition UpdateWatchlistItem (now : Z) (db : DB) (item : WatchlistItem.t) : DB :=
  withItems db
    (List.map (fun row => if WatchlistItem.ID row =? WatchlistItem.ID item
                          then setItem now row item else row)
       (watchlistitem db)).

Definition statusIs (s : string) (n : NullString.t) : bool :=
  NullString.Valid n && String.eqb (NullString.String n) s.

(** [e.air_date <= CURRENT_DATE AND e.scraped = false] *)
Definition airedUnscraped (today : Z) (e : TVEpisode.t) : bool :=
  NullTime.Valid (TVEpisode.AirDate e) && (NullTime.Time (TVEpisode.AirDate e) <=? today)
  && negb (TVEpisode.Scraped e).

Definition hasAiredUnscraped (db : DB) (today : Z) (w : WatchlistItem.t) : bool :=
  existsb (fun s => (Season.WatchlistItemID s =? WatchlistItem.ID w) &&
                    existsb (fun e => (TVEpisode.SeasonID e =? Season.ID s) &&
                                      airedUnscraped today e)
                      (tv_episodes db))
    (seasons db).

Definition asTV (w : WatchlistItem.t) : WatchlistItem.t :=
  {| WatchlistItem.ID := WatchlistItem.ID w;
     WatchlistItem.Title := WatchlistItem.Title w;
     WatchlistItem.ImdbID := WatchlistItem.ImdbID w;
     WatchlistItem.TmdbID := WatchlistItem.TmdbID w;
     WatchlistItem.Status := WatchlistItem.Status w;
     WatchlistItem.CurrentStep := WatchlistItem.CurrentStep w;
     WatchlistItem.LastScrapedDate := WatchlistItem.LastScrapedDate w;
     WatchlistItem.MediaType := NullString.valid "tv";
     WatchlistItem.ShowStatus := WatchlistItem.ShowStatus w;
     WatchlistItem.UpdatedAt := WatchlistItem.UpdatedAt w |}.

(** [SELECT DISTINCT w.* FROM watchlistitem w JOIN seasons s ON
    s.watchlist_item_id = w.id JOIN tv_episodes e ON e.season_id = s.id
    WHERE w.show_status = 'Returning Series' AND e.air_date <= CURRENT_DATE
    AND e.scraped = false ORDER BY w.id ASC]; each item is returned with
    [MediaType] set to ["tv"]. *)
Definition GetReturningSeriesWithUnscrapedEpisodes (db : DB) (today : Z)
  : list WatchlistItem.t :=
  List.map asTV
    (sortSlice (fun a b => WatchlistItem.ID a <? WatchlistItem.ID b)
       (List.filter (fun w => statusIs "Returning Series" (WatchlistItem.ShowStatus w)
                              && hasAiredUnscraped db today w)
          (watchlistitem db))).

(** ** Package scraper: data *)

Module BehaviorHints.
Record t := { BingeGroup : string; Filename : string }.
End BehaviorHints.

Module ParsedInfo.
Record t := {
  Resolution : string;
  Codec : string;
  FileSize : string;
  Seeds : Z;
  Source : string;
  Title : string;
  Languages : list string;
  DistanceFromMax : Q;
  SizeScore : Z;
  Season : Z;
  EpisodeCount : Z
}.

(** [ParsedInfo{}] *)
Definition zero : t :=
  {| Resolution := ""; Codec := ""; FileSize := ""; Seeds := 0; Source := "";
     Title := ""; Languages := []; DistanceFromMax := 0%Q; SizeScore := 0;
     Season := 0; EpisodeCount := 0 |}.

Definition withSizeScore (v : Z) (p : t) : t :=
  {| Resolution := Resolution p; Codec := Codec p; FileSize := FileSize p;
     Seeds := Seeds p; Source := Source p; Title := Title p;
     Languages := Languages p; DistanceFromMax := DistanceFromMax p;
     SizeScore := v; Season := Season p; EpisodeCount := EpisodeCount p |}.
End ParsedInfo.

Module Stream.
Record t := {
  Name : string;
  Title : string;
  InfoHash : string;
  FileIdx : Z;
  BehaviorHints : BehaviorHints.t;
  ParsedInfo : ParsedInfo.t;
  Score : Z
}.

Definition withParsedInfo (p : ParsedInfo.t) (s : t) : t :=
  {| Name := Name s; Title := Title s; InfoHash := InfoHash s; FileIdx := FileIdx s;
     BehaviorHints := BehaviorHints s; ParsedInfo := p; Score := Score s |}.

Definition withScore (v : Z) (s : t) : t :=
  {| Name := Name s; Title := Title s; InfoHash := InfoHash s; FileIdx := FileIdx s;
     BehaviorHints := BehaviorHints s; ParsedInfo := ParsedInfo s; Score := v |}.

Definition withSizeScore (v : Z) (s : t) : t :=
  withParsedInfo (ParsedInfo.withSizeScore v (ParsedInfo s)) s.

(** A stream as the JSON decoder yields it: [ParsedInfo] and [Score] are
    not part of the payload. *)
Definition decoded (name title infoHash : string) (fileIdx : Z) (hints : BehaviorHints.t) : t :=
  {| Name := name; Title := title; InfoHash := infoHash; FileIdx := fileIdx;
     BehaviorHints := hints; ParsedInfo := ParsedInfo.zero; Score := 0 |}.
(** The payload of [s]: [s] with [ParsedInfo] and [Score] cleared. *)
Definition reset (s : t) : t :=
  decoded (Name s) (Title s) (InfoHash s) (FileIdx s) (BehaviorHints s).
End Stream.

Definition bytes (l : list Z) : string :=
  List.fold_right (fun b s => String (byteOfZ b) s) EmptyString l.

(** The three markers searched in the metadata line, byte for byte as the
    source file has them. *)
Definition seedMarker : string :=
  bytes [0xC3; 0xB0; 0xC5; 0xB8; 0xE2; 0x80; 0x98; 0xC2; 0xA4].
Definition sizeMarker : string :=
  bytes [0xC3; 0xB0; 0xC5; 0xB8; 0xE2; 0x80; 0x99; 0xC2; 0xBE].
Definition sourceMarker : string :=
  bytes [0xC3; 0xA2; 0xC5; 0xA1; 0xE2; 0x84; 0xA2; 0xC3; 0xAF; 0xC2; 0xB8].

(** [isRegionalIndicator] *)
Definition isRegionalIndicator (r : Z) : bool := (0x1F1E6 <=? r) && (r <=? 0x1F1FF).

(** [string(rune(r - 0x1F1E6 + 'A'))] for a regional indicator [r] *)
Definition indicatorLetter (r : Z) : string :=
  String (byteOfZ (r - 0x1F1E6 + 65)) EmptyString.

(** The loop of [parseLanguages] over [[]rune(str)]. *)
Fixpoint parseLanguagesGo (rs : list Z) : list string :=
  match rs with
  | r1 :: tl =>
      match tl with
      | r2 :: rest =>
          if isRegionalIndicator r1 && isRegionalIndicator r2
          then (indicatorLetter r1 +:+ indicatorLetter r2) :: parseLanguagesGo rest
          else parseLanguagesGo tl
      | [] => []
      end
  | [] => []
  end.

Definition parseLanguages (str : string) : list string := parseLanguagesGo (runes str).

(** [fmt.Sprintf("%02d", n)] *)
Definition fmt02d (n : Z) : string :=
  if n <? 0 then "-" +:+ Ascii7.showNat (- n)
  else if n <? 10 then "0" +:+ Ascii7.showNat n
  else Ascii7.showNat n.

(** [fmt.Sprintf("S%02dE%02d", season, episode)] *)
Definition episodePattern (season episode : Z) : string :=
  "S" +:+ fmt02d season +:+ "E" +:+ fmt02d episode.

(** ** Package scraper: parsing and scoring *)

Section Scraper.
Context {lib : GoLib} (config : Config).

(** The first element of [candidates] that [titleLower] contains, lowered:
    the two detection loops of [parseStreamInfo]. *)
Fixpoint detect (titleLower : string) (candidates : list string) : string :=
  match candidates with
  | [] => ""
  | c :: rest =>
      if GoStrings.Contains titleLower (ToLower c) then c else detect titleLower rest
  end.

(** The loop over [strings.Fields(rawSize)]: the state is [(value, unit)]. *)
Definition sizeField (st : Float64.t * string) (part : string) : Float64.t * string :=
  if GoStrings.startsNonASCII part then st
  else match ParseFloat part with
       | Some v => (v, snd st)
       | None =>
           if GoStrings.Contains (ToUpper part) "GB" then (fst st, "GB") else st
       end.

(** The word that follows the first [key] in [titleLower], as a number:
    [strconv.Atoi(strings.TrimSpace(strings.Split(
       strings.Split(titleLower, key)[1], " ")[0]))]. *)
Definition numberAfter (titleLower key : string) : Z :=
  Atoi (TrimSpace (GoStrings.first
          (GoStrings.Split (GoStrings.second (GoStrings.Split titleLower key)) " "))).

Definition parseStreamInfo (title : string) : ParsedInfo.t :=
  let parts := GoStrings.Split title (bytes [10]) in
  let infoTitle := TrimSpace (GoStrings.first parts) in
  let metadata := List.nth_error parts 1 in
  let seeds :=
    match metadata with
    | Some metadata =>
        let idx := GoStrings.Index metadata seedMarker in
        if idx =? -1 then 0
        else
          let seedStr :=
            TrimSpace (GoStrings.first
              (GoStrings.Split (GoStrings.from (Z.to_nat (idx + 3)) metadata) " ")) in
          Atoi (TrimNonDigits seedStr)
    | None => 0
    end in
  let fileSize :=
    match metadata with
    | Some metadata =>
        let idx := GoStrings.Index metadata sizeMarker in
        if idx =? -1 then ""
        else
          let sizeStr := GoStrings.from (Z.to_nat (idx + 3)) metadata in
          let endIdx := GoStrings.Index sizeStr sourceMarker in
          if endIdx =? -1 then ""
          else
            let rawSize := TrimSpace (GoStrings.upto (Z.to_nat endIdx) sizeStr) in
            let '(value, unit) :=
              List.fold_left sizeField (Fields rawSize) (Float64.Finite 0, "") in
            if Float64.lt (Float64.Finite 0) value && negb (String.eqb unit "")
            then Sprintf_2f value +:+ " " +:+ unit
            else ""
    | None => ""
    end in
  let source :=
    match metadata with
    | Some metadata =>
        let idx := GoStrings.Index metadata sourceMarker in
        if idx =? -1 then ""
        else TrimSpace (TrimSpace (GoStrings.from (Z.to_nat (idx + 3)) metadata))
    | None => ""
    end in
  let languages :=
    match List.nth_error parts 2 with
    | Some langLine => parseLanguages langLine
    | None => []
    end in
  let titleLower := ToLower infoTitle in
  let resolution := detect titleLower ["2160p"; "1080p"; "720p"; "480p"; "4k"] in
  let codec := detect titleLower ["x265"; "hevc"; "h265"; "x264"; "avc"; "h264"] in
  let hasSeason := GoStrings.Contains titleLower "season" in
  let hasComplete := GoStrings.Contains titleLower "complete" in
  let season := if hasSeason then numberAfter titleLower "season" else 0 in
  let episodeCount := if hasComplete then numberAfter titleLower "complete" else 0 in
  {| ParsedInfo.Resolution := resolution;
     ParsedInfo.Codec := codec;
     ParsedInfo.FileSize := fileSize;
     ParsedInfo.Seeds := seeds;
     ParsedInfo.Source := source;
     ParsedInfo.Title := infoTitle;
     ParsedInfo.Languages := languages;
     ParsedInfo.DistanceFromMax := 0%Q;
     ParsedInfo.SizeScore := 0;
     ParsedInfo.Season := season;
     ParsedInfo.EpisodeCount := episodeCount |}.

(** [hasPreferredUploader]: some uploader of some comma-separated group
    occurs in the upper-cased title, bare or after [-], [.] or in
    brackets. *)
Definition hasPreferredUploader (title : string) : bool :=
  let title := ToUpper title in
  existsb (fun uploaderGroup =>
    existsb (fun uploader =>
      let uploader := TrimSpace (ToUpper uploader) in
      existsb (fun term => GoStrings.Contains title term)
        [uploader; "-" +:+ uploader; "." +:+ uploader; "[" +:+ uploader +:+ "]"])
      (GoStrings.Split uploaderGroup ","))
    (PreferredUploaders (Scraping config)).

(** One round of the language loop: [score] after the language [lang]. *)
Definition languageStep (score : Z) (lang : string) : Z :=
  let scoring := Scoring (Scraping config) in
  let afterInclude :=
    List.fold_left (fun sc includedLang =>
        if String.eqb lang includedLang
        then addInt sc (LanguageIncludeScore scoring) else sc)
      (Include (Languages (Scraping config))) score in
  List.fold_left (fun sc excludedLang =>
      if String.eqb lang excludedLang
      then addInt sc (LanguageExcludePenalty scoring) else sc)
    (Exclude (Languages (Scraping config))) afterInclude.

Definition oneOf (s : string) (l : list string) : bool := existsb (String.eqb s) l.

Definition calculateBaseScore (stream : Stream.t) : Z :=
  let scoring := Scoring (Scraping config) in
  let info := Stream.ParsedInfo stream in
  let score := 0 in
  let score :=
    let r := ParsedInfo.Resolution info in
    if oneOf r ["2160p"; "4k"] then addInt score (mapIndex (ResolutionScores scoring) "2160p")
    else if String.eqb r "1080p" then addInt score (mapIndex (ResolutionScores scoring) "1080p")
    else if String.eqb r "720p" then addInt score (mapIndex (ResolutionScores scoring) "720p")
    else if String.eqb r "480p" then addInt score (mapIndex (ResolutionScores scoring) "480p")
    else score in
  let score :=
    let c := ParsedInfo.Codec info in
    if oneOf c ["x265"; "HEVC"; "h265"] then addInt score (mapIndex (CodecScores scoring) "hevc")
    else if oneOf c ["x264"; "AVC"; "h264"] then addInt score (mapIndex (CodecScores scoring) "avc")
    else score in
  let seedScore :=
    if ParsedInfo.Seeds info >? MaxSeederScore scoring
    then MaxSeederScore scoring else ParsedInfo.Seeds info in
  let score := addInt score seedScore in
  let score :=
    if hasPreferredUploader (Stream.Title stream)
    then addInt score (PreferredUploaderScore scoring) else score in
  List.fold_left languageStep (ParsedInfo.Languages info) score.

Definition calculateScore (stream : Stream.t) : Z :=
  addInt (calculateBaseScore stream) (ParsedInfo.SizeScore (Stream.ParsedInfo stream)).

(** [convertToGB]: the size in GB of a size string, 0 when it does not
    scan or its unit is unknown. *)
Definition convertToGB (sizeStr : string) : Q :=
  let cleaned := TrimSpace (GoStrings.dropNonASCII sizeStr) in
  if String.eqb cleaned "" then 0%Q
  else
    let scanned :=
      match Sscanf_f_s cleaned with
      | Some r => Some r
      | None => Sscanf_fs cleaned
      end in
    match scanned with
    | None => 0%Q
    | Some (value, unit) =>
        let unit := ToUpper unit in
        if oneOf unit ["TB"; "TIB"] then (value * 1024)%Q
        else if oneOf unit ["GB"; "GIB"] then value
        else if oneOf unit ["MB"; "MIB"] then (value / 1024)%Q
        else if oneOf unit ["KB"; "KIB"] then (value / (1024 * 1024))%Q
        else 0%Q
    end.

Definition sizeGB (stream : Stream.t) : Q :=
  convertToGB (ParsedInfo.FileSize (Stream.ParsedInfo stream)).

(** A size string cannot be parsed when [convertToGB] finds nothing to
    scan or a unit it does not know. *)
Definition unparsable (sizeStr : string) : bool :=
  let cleaned := TrimSpace (GoStrings.dropNonASCII sizeStr) in
  if String.eqb cleaned "" then true
  else
    match Sscanf_f_s cleaned, Sscanf_fs cleaned with
    | Some (_, unit), _ | None, Some (_, unit) =>
        negb (oneOf (ToUpper unit) ["TB"; "TIB"; "GB"; "GIB"; "MB"; "MIB"; "KB"; "KIB"])
    | None, None => true
    end.

(** [filterStreams]: the size limits are those of [Show] exactly when the
    item's media type is the string ["show"]. *)
Definition filterStreams (streams : list Stream.t) (item : WatchlistItem.t)
    (useSize useUploader : bool) : list Stream.t :=
  let isShow := statusIs "show" (WatchlistItem.MediaType item) in
  let limits := if isShow then Show (Filesize (Scraping config))
                else Movie (Filesize (Scraping config)) in
  let minSize := if useSize then Min limits else Float64.Finite 0 in
  let maxSize := if useSize then Max limits else Float64.Finite 0 in
  List.filter (fun stream =>
      negb (useSize && (Float64.lt (Float64.Finite (sizeGB stream)) minSize
                        || Float64.lt maxSize (Float64.Finite (sizeGB stream))))
      && negb (useUploader && negb (hasPreferredUploader (Stream.Title stream))))
    streams.

End Scraper.

(** ** Package scraper: ranking and selection *)

(** A Go [error] value is its message, without the formatted arguments;
    [None] is [nil]. *)
Definition error := string.

Section Ranking.
Context {lib : GoLib} (config : Config).

(** The first loop of [processStreams]: parse and score one stream. *)
Definition parsed (stream : Stream.t) : Stream.t :=
  let stream := Stream.withParsedInfo (parseStreamInfo (Stream.Title stream)) stream in
  Stream.withScore (calculateScore config stream) stream.

(** [sizeI > sizeJ] *)
Definition largerSize (a b : Stream.t) : bool := flt (sizeGB b) (sizeGB a).

(** [streams[i].Score > streams[j].Score] *)
Definition higherScore (a b : Stream.t) : bool := Stream.Score a >? Stream.Score b.

(** The maximum used for the size tiers: [Show.Max] when the title of the
    first stream, lowered, contains ["show"], else [Movie.Max]. *)
Definition tierMaxSize (streams : list Stream.t) : Float64.t :=
  match streams with
  | first :: _ =>
      if GoStrings.Contains (ToLower (Stream.Title first)) "show"
      then Max (Show (Filesize (Scraping config)))
      else Max (Movie (Filesize (Scraping config)))
  | [] => Max (Movie (Filesize (Scraping config)))
  end.

(** The loop that collects [closestStreams]: the indices, from [i] on, of
    the streams at or under [maxSize], until three are [found]. *)
Fixpoint closestFrom (maxSize : Float64.t) (i found : nat) (streams : list Stream.t)
  : list nat :=
  match streams with
  | [] => []
  | stream :: rest =>
      if Float64.le (Float64.Finite (sizeGB stream)) maxSize
      then i :: (if (S found =? 3)%nat then [] else closestFrom maxSize (S i) (S found) rest)
      else closestFrom maxSize (S i) found rest
  end.

Definition closestStreams (maxSize : Float64.t) (streams : list Stream.t) : list nat :=
  closestFrom maxSize 0 0 streams.

(** The float64 constants [0.8] and [0.6]. *)
Definition fourFifths : Q := 3602879701896397 # 4503599627370496.
Definition threeFifths : Q := 5404319552844595 # 9007199254740992.

(** [int(float64(MaxSizeScore) * 0.8)] and [int(float64(MaxSizeScore) * 0.6)]:
    the conversion and the product are rounded to float64. *)
Definition secondTier (maxSizeScore : Z) : Z :=
  intOfFloat (Float64.nearest (floatOfInt maxSizeScore * fourFifths)).
Definition thirdTier (maxSizeScore : Z) : Z :=
  intOfFloat (Float64.nearest (floatOfInt maxSizeScore * threeFifths)).

(** [streams[i].ParsedInfo.SizeScore = v] *)
Definition setSizeScore (i : nat) (v : Z) (streams : list Stream.t) : list Stream.t :=
  alter (Stream.withSizeScore v) i streams.

Definition assignSizeScores (closest : list nat) (streams : list Stream.t) : list Stream.t :=
  let m := MaxSizeScore (Scoring (Scraping config)) in
  let streams :=
    match List.nth_error closest 0 with
    | Some i => setSizeScore i m streams
    | None => streams
    end in
  let streams :=
    match List.nth_error closest 1 with
    | Some i => setSizeScore i (secondTier m) streams
    | None => streams
    end in
  match List.nth_error closest 2 with
  | Some i => setSizeScore i (thirdTier m) streams
  | None => streams
  end.

(** The bonus of the stream that is the [k+1]-th at or under the
    maximum. *)
Definition tierOf (k : nat) : Z :=
  let m := MaxSizeScore (Scoring (Scraping config)) in
  match k with
  | 0%nat => m
  | 1%nat => secondTier m
  | 2%nat => thirdTier m
  | _ => 0
  end.

(** The bonuses that the size tiers promise, stream by stream, when
    [found] streams at or under [maxSize] came before. *)
Fixpoint tiered (maxSize : Float64.t) (found : nat) (streams : list Stream.t) : list Z :=
  match streams with
  | [] => []
  | stream :: rest =>
      if Float64.le (Float64.Finite (sizeGB stream)) maxSize
      then tierOf found :: tiered maxSize (S found) rest
      else 0 :: tiered maxSize found rest
  end.

(** The assignments of [assignSizeScores] for any number of indices: the
    [k]-th index gets the tier [found + k]. *)
Fixpoint assignFrom (found : nat) (closest : list nat) (streams : list Stream.t)
  : list Stream.t :=
  match closest with
  | [] => streams
  | i :: rest => assignFrom (S found) rest (setSizeScore i (tierOf found) streams)
  end.

Definition sizeScore (stream : Stream.t) : Z :=
  ParsedInfo.SizeScore (Stream.ParsedInfo stream).

(** [streams[i].Score = calculateBaseScore(&streams[i]) + SizeScore] *)
Definition rescored (stream : Stream.t) : Stream.t :=
  Stream.withScore
    (addInt (calculateBaseScore config stream)
       (ParsedInfo.SizeScore (Stream.ParsedInfo stream)))
    stream.

(** The slice [streams] of [processStreams] once parsed and sorted by
    size. *)
Definition bySize (streams : list Stream.t) : list Stream.t :=
  sortSlice largerSize (List.map parsed streams).

(** The slice [streams] of [processStreams] after the loop "Recalculate
    total scores": parsed, sorted by size, size scores assigned, scores
    recomputed. *)
Definition scoredStreams (streams : list Stream.t) : list Stream.t :=
  let streams := bySize streams in
  let streams := List.map (Stream.withSizeScore 0) streams in
  let maxSize := tierMaxSize streams in
  let streams := assignSizeScores (closestStreams maxSize streams) streams in
  List.map rescored streams.

(** [filteredStreams] of [processStreams] after the sort by score. *)
Definition rankedStreams (streams : list Stream.t) (item : WatchlistItem.t) : list Stream.t :=
  let streams := scoredStreams streams in
  let filteredStreams := filterStreams config streams item true false in
  let filteredStreams :=
    match filteredStreams with
    | [] => filterStreams config streams item false false
    | _ => filteredStreams
    end in
  sortSlice higherScore filteredStreams.

(** The row that [processStreams] saves for [bestMatch]. *)
Definition bestMatchResult (now : Z) (item : WatchlistItem.t) (bestMatch : Stream.t)
  : ScrapeResult.t :=
  {| ScrapeResult.ID := 0;
     ScrapeResult.WatchlistItemID := WatchlistItem.ID item;
     ScrapeResult.ScrapedFilename :=
       NullString.valid (ParsedInfo.Title (Stream.ParsedInfo bestMatch));
     ScrapeResult.ScrapedResolution :=
       NullString.valid (ParsedInfo.Resolution (Stream.ParsedInfo bestMatch));
     ScrapeResult.ScrapedDate := NullTime.valid now;
     ScrapeResult.InfoHash := NullString.valid (Stream.InfoHash bestMatch);
     ScrapeResult.ScrapedScore := NullInt32.valid (wrap32 (Stream.Score bestMatch));
     ScrapeResult.ScrapedFileSize :=
       NullString.valid (ParsedInfo.FileSize (Stream.ParsedInfo bestMatch));
     ScrapeResult.ScrapedCodec :=
       NullString.valid (ParsedInfo.Codec (Stream.ParsedInfo bestMatch));
     ScrapeResult.StatusResults := NullString.valid "ready_for_download";
     ScrapeResult.DebridID := NullString.null;
     ScrapeResult.DebridURI := NullString.null;
     ScrapeResult.CreatedAt := 0;
     ScrapeResult.UpdatedAt := 0 |}.

Definition processStreams (now : Z) (streams : list Stream.t) (item : WatchlistItem.t)
    (db : DB) : option error * DB :=
  match streams with
  | [] => (Some "no streams found", db)
  | _ =>
      match rankedStreams streams item with
      | bestMatch :: _ =>
          let '(_, db) := SaveScrapeResult now db (bestMatchResult now item bestMatch) in
          (None, db)
      | [] => (None, db)
      end
  end.

(** The candidate source: what a GET of a URL yields once the status is
    200 and the body decodes, [None] when the request, the status, the
    read or the decoding fails. *)
Definition Fetch := string -> option (list Stream.t).

(** The URLs tried for a movie. *)
Definition movieURLs (item : WatchlistItem.t) : list string :=
  let base := TorrentioURL (Scraping config) in
  let imdb := WatchlistItem.ImdbID item in
  let tmdb := WatchlistItem.TmdbID item in
  (if NullString.Valid imdb && negb (String.eqb (NullString.String imdb) "")
   then [base +:+ "/stream/movie/tt" +:+
         GoStrings.TrimPrefix (NullString.String imdb) "tt" +:+ ".json"]
   else []) ++
  (if NullString.Valid tmdb && negb (String.eqb (NullString.String tmdb) "")
   then [base +:+ "/stream/movie/tmdb:" +:+ NullString.String tmdb +:+ ".json"]
   else []).

(** The body of the loop of [Scrape] once a response is decoded: drop the
    streams that carry the existing hash, mark the item's results when one
    is dropped, rank the rest. *)
Definition scrapeResponse (now : Z) (streams : list Stream.t) (item : WatchlistItem.t)
    (db : DB) : option error * DB :=
  let existingHash := GetExistingHashForItem db (WatchlistItem.ID item) in
  let filteredStreams :=
    List.filter (fun stream => negb (String.eqb (Stream.InfoHash stream) existingHash))
      streams in
  let db :=
    List.fold_left (fun db stream =>
        if String.eqb (Stream.InfoHash stream) existingHash
        then UpdateScrapeResultStatus now db (WatchlistItem.ID item) "ignored hash"
        else db)
      streams db in
  match filteredStreams with
  | [] => (Some "no valid streams found after filtering", db)
  | _ => processStreams now filteredStreams item db
  end.

Fixpoint tryURLs (fetch : Fetch) (now : Z) (urls : list string) (item : WatchlistItem.t)
    (db : DB) : option error * DB :=
  match urls with
  | [] => (Some "all URLs failed. Last error", db)
  | url :: rest =>
      match fetch url with
      | None => tryURLs fetch now rest item db
      | Some streams => scrapeResponse now streams item db
      end
  end.

End Ranking.

(** ** Package scraper: series *)

Section Series.
Context {lib : GoLib} (config : Config).

(** [AirDate.Valid && AirDate.Time.After(currentTime)] *)
Definition notYetAired (currentTime : Z) (episode : TVEpisode.t) : bool :=
  NullTime.Valid (TVEpisode.AirDate episode) &&
  (NullTime.Time (TVEpisode.AirDate episode) >? currentTime).

(** The row saved for the stream chosen for an episode or a season. *)
Definition streamResult (now : Z) (item : WatchlistItem.t) (stream : Stream.t)
    (status : string) : ScrapeResult.t :=
  {| ScrapeResult.ID := 0;
     ScrapeResult.WatchlistItemID := WatchlistItem.ID item;
     ScrapeResult.ScrapedFilename :=
       NullString.valid (BehaviorHints.Filename (Stream.BehaviorHints stream));
     ScrapeResult.ScrapedResolution :=
       NullString.valid (ParsedInfo.Resolution (Stream.ParsedInfo stream));
     ScrapeResult.ScrapedDate := NullTime.valid now;
     ScrapeResult.InfoHash := NullString.valid (Stream.InfoHash stream);
     ScrapeResult.ScrapedScore := NullInt32.valid (wrap32 (Stream.Score stream));
     ScrapeResult.ScrapedFileSize := NullString.null;
     ScrapeResult.ScrapedCodec :=
       NullString.valid (ParsedInfo.Codec (Stream.ParsedInfo stream));
     ScrapeResult.StatusResults := NullString.valid status;
     ScrapeResult.DebridID := NullString.null;
     ScrapeResult.DebridURI := NullString.null;
     ScrapeResult.CreatedAt := 0;
     ScrapeResult.UpdatedAt := 0 |}.

(** [episode.ScrapeResultID = int32(id); episode.Scraped = true] *)
Definition markScraped (episode : TVEpisode.t) (scrapeResultID : Z) : TVEpisode.t :=
  {| TVEpisode.ID := TVEpisode.ID episode;
     TVEpisode.SeasonID := TVEpisode.SeasonID episode;
     TVEpisode.EpisodeNumber := TVEpisode.EpisodeNumber episode;
     TVEpisode.AirDate := TVEpisode.AirDate episode;
     TVEpisode.Scraped := true;
     TVEpisode.ScrapeResultID := NullInt32.valid (wrap32 scrapeResultID) |}.

(** Save the result of [stream] and point [episode] at it. *)
Definition saveForEpisode (now : Z) (item : WatchlistItem.t) (episode : TVEpisode.t)
    (stream : Stream.t) (status : string) (db : DB) : DB :=
  let '(scrapeResultID, db) := SaveScrapeResult now db (streamResult now item stream status) in
  UpdateTVEpisode db (markScraped episode scrapeResultID).

(** One round of the loop of [scrapeTVShow]; the state is the store and
    [foundAny]. *)
Definition scrapeEpisode (now currentTime : Z) (streams : list Stream.t)
    (item : WatchlistItem.t) (st : DB * bool) (episodeInfo : TVEpisode.t * Z) : DB * bool :=
  let '(db, foundAny) := st in
  let '(episode, seasonNumber) := episodeInfo in
  if notYetAired currentTime episode then (db, foundAny)
  else if TVEpisode.Scraped episode then (db, true)
  else
    let pattern := episodePattern seasonNumber (TVEpisode.EpisodeNumber episode) in
    let episodeStreams :=
      List.map (parsed config)
        (List.filter (fun stream => GoStrings.Contains (Stream.Title stream) pattern) streams) in
    match sortSlice higherScore episodeStreams with
    | [] => (db, foundAny)
    | stream :: _ => (saveForEpisode now item episode stream "scraped" db, true)
    end.

Definition showURL (item : WatchlistItem.t) : string :=
  TorrentioURL (Scraping config) +:+ "/stream/show/" +:+
  NullString.String (WatchlistItem.ImdbID item) +:+ ".json".

(** [allEpisodes] of [scrapeTVShow] *)
Definition allEpisodes (db : DB) (item : WatchlistItem.t) : list (TVEpisode.t * Z) :=
  List.concat
    (List.map (fun season =>
         List.map (fun episode => (episode, Season.SeasonNumber season))
           (GetEpisodesForSeason db (Season.ID season)))
       (GetSeasonsForItem db (WatchlistItem.ID item))).

(** [scrapeTVShow].  The code has a message for each way the request can
    fail (the request, a status other than 200, the decoding); they are
    the one case [None] of [Fetch] here, under the first message. *)
Definition scrapeTVShow (fetch : Fetch) (now : Z) (item : WatchlistItem.t) (db : DB)
  : option error * DB :=
  let episodes := allEpisodes db item in
  match fetch (showURL item) with
  | None => (Some "failed to get show streams", db)
  | Some streams =>
      let '(db, foundAny) :=
        List.fold_left (scrapeEpisode now now streams item) episodes (db, false) in
      if foundAny then (None, db) else (Some "failed to scrape any episodes", db)
  end.

(** [searchTorrentio]: the streams of the one series URL, or an error. *)
Definition searchTorrentio (fetch : Fetch) (item : WatchlistItem.t) (query : string)
  : error + list Stream.t :=
  let imdb := WatchlistItem.ImdbID item in
  if NullString.Valid imdb && negb (String.eqb (NullString.String imdb) "")
  then
    let url := TorrentioURL (Scraping config) +:+ "/stream/series/" +:+
               NullString.String imdb +:+ ":" +:+ query +:+ ".json" in
    match fetch url with
    | None => inl "failed to search torrentio"
    | Some streams =>
        match sortSlice higherScore streams with
        | [] => inl "no streams found"
        | allStreams => inr allStreams
        end
    end
  else inl "no valid ID found for item".

(** One round of the loop of [scrapeIndividualEpisodes]; the state is the
    store, [foundAny] and whether [lastErr] is set. *)
Definition scrapeOneEpisode (fetch : Fetch) (now currentTime : Z) (item : WatchlistItem.t)
    (season : Season.t) (st : DB * bool * bool) (episode : TVEpisode.t) : DB * bool * bool :=
  let '(db, foundAny, lastErr) := st in
  if notYetAired currentTime episode then st
  else if TVEpisode.Scraped episode then (db, true, lastErr)
  else
    match searchTorrentio fetch item
            (episodePattern (Season.SeasonNumber season) (TVEpisode.EpisodeNumber episode)) with
    | inl _ => (db, foundAny, true)
    | inr streams =>
        match sortSlice higherScore streams with
        | [] => (db, foundAny, true)
        | stream :: _ =>
            (saveForEpisode now item episode stream "pending_download" db, true, lastErr)
        end
    end.

Definition scrapeIndividualEpisodes (fetch : Fetch) (now : Z) (item : WatchlistItem.t)
    (season : Season.t) (episodes : list TVEpisode.t) (db : DB) : option error * DB :=
  let '(db, foundAny, lastErr) :=
    List.fold_left (scrapeOneEpisode fetch now now item season) episodes (db, false, false) in
  if negb foundAny && lastErr then (Some "failed to scrape any episodes", db)
  else (None, db).

(** [filterSeasonPackStreams]: the streams parsed as season
    [seasonNumber] with [expectedEpisodeCount] episodes, best score
    first. *)
Definition filterSeasonPackStreams (streams : list Stream.t)
    (seasonNumber expectedEpisodeCount : Z) : list Stream.t :=
  sortSlice higherScore
    (List.filter (fun stream =>
         (ParsedInfo.Season (Stream.ParsedInfo stream) =? seasonNumber) &&
         (ParsedInfo.EpisodeCount (Stream.ParsedInfo stream) =? expectedEpisodeCount))
       streams).

(** [processSeasonPack]: one result for the pack, every episode of the
    season pointed at it. *)
Definition processSeasonPack (now : Z) (stream : Stream.t) (item : WatchlistItem.t)
    (season : Season.t) (db : DB) : option error * DB :=
  let '(scrapeResultID, db) :=
    SaveScrapeResult now db (streamResult now item stream "ready_for_download") in
  let episodes := GetEpisodesForSeason db (Season.ID season) in
  (None, List.fold_left (fun db ep => UpdateTVEpisode db (markScraped ep scrapeResultID))
           episodes db).

(** [Scrape] *)
Definition Scrape (fetch : Fetch) (now : Z) (item : WatchlistItem.t) (db : DB)
  : option error * DB :=
  if statusIs "tv" (WatchlistItem.MediaType item) then scrapeTVShow fetch now item db
  else
    match movieURLs config item with
    | [] => (Some "no valid ID found for item", db)
    | urls => tryURLs config fetch now urls item db
    end.

End Series.

(** The row [e] is kept from [db0] to [db]: it is in the table, and the
    table has the ids it had. *)
Definition kept (e : TVEpisode.t) (db0 db : DB) : Prop :=
  In e (tv_episodes db) /\
  List.map TVEpisode.ID (tv_episodes db) = List.map TVEpisode.ID (tv_episodes db0).

(** ** Package downloader *)

(** The requests sent to the debrid service and what comes back. *)
Inductive Request :=
| AddMagnet (infoHash : string)
| SelectFiles (torrentID : string)
| TorrentInfo (torrentID : string)
| DeleteTorrent (torrentID : string).

Inductive Response :=
| Failed
| Accepted
| TorrentID (id : string)
| Info (status : string) (links : list string) (progress : Q).

(** The service answers a request given the requests made before it. *)
Definition Debrid := list Request -> Request -> Response.

Module World.
Record t := { db : DB; calls : list Request }.
End World.

(** Code that reads and writes the store, talks to the service and may
    return an error: the effects made before an error stay. *)
Definition M (A : Type) : Type := World.t -> (error + A) * World.t.

Definition ret {A} (a : A) : M A := fun w => (inr a, w).

Definition fail {A} (e : error) : M A := fun w => (inl e, w).

Definition bind {A B} (c : M A) (k : A -> M B) : M B :=
  fun w => match c w with
           | (inl e, w') => (inl e, w')
           | (inr a, w') => k a w'
           end.

Notation "x <- c ;; k" := (bind c (fun x => k))
  (at level 100, c at next level, right associativity).
Notation "c ;;; k" := (bind c (fun _ => k))
  (at level 100, right associativity).

(** Run [c] and hand its error, if any, to the caller as a value. *)
Definition try {A} (c : M A) : M (error + A) :=
  fun w => let '(r, w') := c w in (inr r, w').

Definition request (debrid : Debrid) (req : Request) : M Response :=
  fun w => (inr (debrid (World.calls w) req),
            {| World.db := World.db w; World.calls := World.calls w ++ [req] |}).

Definition exec (f : DB -> DB) : M unit :=
  fun w => (inr tt, {| World.db := f (World.db w); World.calls := World.calls w |}).

Definition query {A} (f : DB -> A) : M A := fun w => (inr (f (World.db w)), w).

Definition withStatus (status : string) (r : ScrapeResult.t) : ScrapeResult.t :=
  setStatus (ScrapeResult.UpdatedAt r) status r.

Section Downloader.
Context (debrid : Debrid) (now : Z).

Definition addTorrent (infoHash : string) : M string :=
  resp <- request debrid (AddMagnet infoHash) ;;
  match resp with
  | TorrentID id => ret id
  | _ => fail "failed to add torrent"
  end.

Definition selectFiles (torrentID : string) : M unit :=
  resp <- request debrid (SelectFiles torrentID) ;;
  match resp with
  | Accepted => ret tt
  | _ => fail "failed to select files"
  end.

Definition removeTorrent (torrentID : string) : M unit :=
  resp <- request debrid (DeleteTorrent torrentID) ;;
  match resp with
  | Accepted => ret tt
  | _ => fail "failed to remove torrent"
  end.

(** [updateDownloadStatus]: returns the result as mutated. *)
Definition updateDownloadStatus (scrapeResult : ScrapeResult.t) (status : string)
  : M ScrapeResult.t :=
  let scrapeResult := setStatus now status scrapeResult in
  exec (fun db => UpdateScrapeResult now db scrapeResult) ;;;
  ret scrapeResult.

(** [getDownloadLink] *)
Definition getDownloadLink (torrentID : string) (scrapeResult : ScrapeResult.t)
  : M string :=
  resp <- request debrid (TorrentInfo torrentID) ;;
  match resp with
  | Info status links _ =>
      if String.eqb status "downloaded"
      then match links with
           | downloadLink :: _ => ret downloadLink
           | [] => fail "no download links found"
           end
      else
        (if String.eqb status "queued" then removeTorrent torrentID else ret tt) ;;;
        exec (fun db => UpdateScrapeResult now db (withStatus "re-scrape" scrapeResult)) ;;;
        fail "torrent not ready for download"
  | _ => fail "failed to send request"
  end.

Definition checkDownloadStatus (torrentID : string) (result : ScrapeResult.t)
  : M ScrapeResult.t :=
  resp <- request debrid (TorrentInfo torrentID) ;;
  match resp with
  | Info _ _ progress =>
      if fle 100 progress then updateDownloadStatus result "downloaded"
      else fail "download not complete"
  | _ => fail "failed to get torrent info"
  end.

(** [waitForDownload]: [attempts] is [maxAttempts - attempt]. *)
Fixpoint waitLoop (attempts : nat) (torrentID : string) (result : ScrapeResult.t)
  : M ScrapeResult.t :=
  match attempts with
  | O => fail "download did not complete within timeout"
  | S attempts' =>
      r <- try (checkDownloadStatus torrentID result) ;;
      match r with
      | inr result => ret result
      | inl _ => waitLoop attempts' torrentID result
      end
  end.

Definition waitForDownload (torrentID : string) (result : ScrapeResult.t)
  : M ScrapeResult.t :=
  waitLoop 30 torrentID result.

(** One round of the loop of [Download] over the results of a series.
    When [getDownloadLink] fails it may have set the status of [result] to
    ["re-scrape"]; the update that follows overwrites it. *)
Definition downloadEpisode (result : ScrapeResult.t) : M unit :=
  if String.eqb (NullString.String (ScrapeResult.StatusResults result)) "scraped"
  then
    r <- try (addTorrent (NullString.String (ScrapeResult.InfoHash result))) ;;
    match r with
    | inl _ => try (updateDownloadStatus result "downloader_ignored_hash") ;;; ret tt
    | inr torrentID =>
        r <- try (selectFiles torrentID) ;;
        match r with
        | inl _ => try (updateDownloadStatus result "downloader_ignored_hash") ;;; ret tt
        | inr _ =>
            l <- try (getDownloadLink torrentID result) ;;
            match l with
            | inl _ =>
                try (updateDownloadStatus result "downloader_ignored_hash") ;;; ret tt
            | inr _ =>
                result <- updateDownloadStatus result "downloading" ;;
                r <- try (waitForDownload torrentID result) ;;
                match r with
                | inl _ => try (updateDownloadStatus result "download_failed") ;;; ret tt
                | inr _ => ret tt
                end
            end
        end
    end
  else ret tt.

Fixpoint forEach {A} (f : A -> M unit) (l : list A) : M unit :=
  match l with
  | [] => ret tt
  | x :: rest => f x ;;; forEach f rest
  end.

(** The loop that picks [bestResult]: the state is [(bestResult,
    bestScore)]. *)
Definition better (st : option ScrapeResult.t * Z) (result : ScrapeResult.t)
  : option ScrapeResult.t * Z :=
  if String.eqb (NullString.String (ScrapeResult.StatusResults result)) "scraped"
     && NullInt32.Valid (ScrapeResult.ScrapedScore result)
     && (NullInt32.Int32 (ScrapeResult.ScrapedScore result) >? snd st)
  then (Some result, NullInt32.Int32 (ScrapeResult.ScrapedScore result))
  else st.

(** A result that the loop can pick: status ["scraped"] and a valid score
    above zero. *)
Definition eligible (result : ScrapeResult.t) : bool :=
  String.eqb (NullString.String (ScrapeResult.StatusResults result)) "scraped"
  && NullInt32.Valid (ScrapeResult.ScrapedScore result)
  && (NullInt32.Int32 (ScrapeResult.ScrapedScore result) >? 0).

Definition score (result : ScrapeResult.t) : Z :=
  NullInt32.Int32 (ScrapeResult.ScrapedScore result).

Definition bestResult (scrapeResults : list ScrapeResult.t) : option ScrapeResult.t * Z :=
  List.fold_left better scrapeResults (None, 0).

Definition downloaded (item : WatchlistItem.t) : WatchlistItem.t :=
  {| WatchlistItem.ID := WatchlistItem.ID item;
     WatchlistItem.Title := WatchlistItem.Title item;
     WatchlistItem.ImdbID := WatchlistItem.ImdbID item;
     WatchlistItem.TmdbID := WatchlistItem.TmdbID item;
     WatchlistItem.Status := NullString.valid "downloaded";
     WatchlistItem.CurrentStep := NullString.valid "symlink_pending";
     WatchlistItem.LastScrapedDate := WatchlistItem.LastScrapedDate item;
     WatchlistItem.MediaType := WatchlistItem.MediaType item;
     WatchlistItem.ShowStatus := WatchlistItem.ShowStatus item;
     WatchlistItem.UpdatedAt := WatchlistItem.UpdatedAt item |}.

Definition Download (item : WatchlistItem.t) : M unit :=
  scrapeResults <- query (fun db => GetScrapeResultsForItem db (WatchlistItem.ID item)) ;;
  match scrapeResults with
  | [] => fail "no scrape results found for item"
  | _ =>
      if statusIs "tv" (WatchlistItem.MediaType item)
      then forEach downloadEpisode scrapeResults
      else
        let '(best, bestScore) := bestResult scrapeResults in
        if bestScore =? 0 then fail "no valid scrape results found for item"
        else
          match best with
          | None => fail "bestResult is nil"
          | Some best =>
              torrentID <- addTorrent (NullString.String (ScrapeResult.InfoHash best)) ;;
              selectFiles torrentID ;;;
              downloadLink <- getDownloadLink torrentID best ;;
              best <- updateDownloadStatus best "downloading" ;;
              waitForDownload torrentID best ;;;
              exec (fun db => UpdateWatchlistItem now db (downloaded item))
          end
  end.

End Downloader.

(** [c] only adds requests to those made so far. *)
Definition appends {A} (c : M A) : Prop :=
  forall w, exists more, World.calls (snd (c w)) = (World.calls w ++ more)%list.

(** The invariant of the loop that picks the best result, over the
    results [seen] so far. *)
Definition picked (seen : list ScrapeResult.t) (st : option ScrapeResult.t * Z) : Prop :=
  0 <= snd st /\
  match fst st with
  | None => snd st = 0
  | Some best => In best seen /\ eligible best = true /\ score best = snd st
  end /\
  forall r, In r seen -> eligible r = true -> score r <= snd st.

(** ** Package internal: BaseProcessor *)

Definition withItemStatus (status : string) (item : WatchlistItem.t) : WatchlistItem.t :=
  {| WatchlistItem.ID := WatchlistItem.ID item;
     WatchlistItem.Title := WatchlistItem.Title item;
     WatchlistItem.ImdbID := WatchlistItem.ImdbID item;
     WatchlistItem.TmdbID := WatchlistItem.TmdbID item;
     WatchlistItem.Status := NullString.valid status;
     WatchlistItem.CurrentStep := WatchlistItem.CurrentStep item;
     WatchlistItem.LastScrapedDate := WatchlistItem.LastScrapedDate item;
     WatchlistItem.MediaType := WatchlistItem.MediaType item;
     WatchlistItem.ShowStatus := WatchlistItem.ShowStatus item;
     WatchlistItem.UpdatedAt := WatchlistItem.UpdatedAt item |}.

(** A [BaseProcessor] with its store; [pending] lists the items whose
    [scheduleRetryReset] goroutine is asleep. *)
Module BaseProcessor.
Record t := {
  retryCount : gmap Z Z;
  db : DB;
  pending : list Z
}.
End BaseProcessor.

Section Processor.
Context (config : Config) (now : Z).

Definition getMaxRetries : Z :=
  if DefaultMaxRetries (ProcessManagement config) >? 0
  then DefaultMaxRetries (ProcessManagement config) else 3.

(** [updateStatusFailed] and [updateStatusNew]; a missing item is an error
    that the callers drop. *)
Definition updateStatus (status : string) (db : DB) (itemID : Z) : DB :=
  match GetWatchlistItemByID db itemID with
  | Some item => UpdateWatchlistItem now db (withItemStatus status item)
  | None => db
  end.

(** [bp.retryCount[itemID]] *)
Definition retries (bp : BaseProcessor.t) (itemID : Z) : Z :=
  default 0 (BaseProcessor.retryCount bp !! itemID).

Definition handleRetry (bp : BaseProcessor.t) (itemID : Z) : bool * BaseProcessor.t :=
  let maxRetries := getMaxRetries in
  let count := addInt (retries bp itemID) 1 in
  let retryCount := <[itemID := count]> (BaseProcessor.retryCount bp) in
  if count >=? maxRetries
  then (false,
        {| BaseProcessor.retryCount := retryCount;
           BaseProcessor.db := updateStatus "failed" (BaseProcessor.db bp) itemID;
           BaseProcessor.pending := BaseProcessor.pending bp ++ [itemID] |})
  else (true,
        {| BaseProcessor.retryCount := retryCount;
           BaseProcessor.db := BaseProcessor.db bp;
           BaseProcessor.pending := BaseProcessor.pending bp |}).

(** What [scheduleRetryReset] does once its sleep is over. *)
Definition retryReset (bp : BaseProcessor.t) (itemID : Z) : BaseProcessor.t :=
  {| BaseProcessor.retryCount := delete itemID (BaseProcessor.retryCount bp);
     BaseProcessor.db := updateStatus "new" (BaseProcessor.db bp) itemID;
     BaseProcessor.pending := BaseProcessor.pending bp |}.

(** Remove the first occurrence of [itemID]. *)
Fixpoint woken (itemID : Z) (pending : list Z) : list Z :=
  match pending with
  | [] => []
  | x :: rest => if x =? itemID then rest else x :: woken itemID rest
  end.

Definition wake (bp : BaseProcessor.t) (itemID : Z) : BaseProcessor.t :=
  let bp := retryReset bp itemID in
  {| BaseProcessor.retryCount := BaseProcessor.retryCount bp;
     BaseProcessor.db := BaseProcessor.db bp;
     BaseProcessor.pending := woken itemID (BaseProcessor.pending bp) |}.

(** The processor moves when a stage fails for an item and when a sleeping
    reset wakes up. *)
Inductive step : BaseProcessor.t -> BaseProcessor.t -> Prop :=
| step_retry bp itemID :
    step bp (snd (handleRetry bp itemID))
| step_reset bp itemID :
    In itemID (BaseProcessor.pending bp) ->
    step bp (wake bp itemID).

End Processor.

(** The status of the item [itemID] in the store, if the item is there. *)
Definition itemStatus (db : DB) (itemID : Z) : option string :=
  option_map (fun w => NullString.String (WatchlistItem.Status w))
    (GetWatchlistItemByID db itemID).

(** ** Package manager *)

Definition rescanned (now : Z) (item : WatchlistItem.t) : WatchlistItem.t :=
  {| WatchlistItem.ID := WatchlistItem.ID item;
     WatchlistItem.Title := WatchlistItem.Title item;
     WatchlistItem.ImdbID := WatchlistItem.ImdbID item;
     WatchlistItem.TmdbID := WatchlistItem.TmdbID item;
     WatchlistItem.Status := NullString.valid "new";
     WatchlistItem.CurrentStep := NullString.valid "indexing_pending";
     WatchlistItem.LastScrapedDate := NullTime.valid now;
     WatchlistItem.MediaType := WatchlistItem.MediaType item;
     WatchlistItem.ShowStatus := WatchlistItem.ShowStatus item;
     WatchlistItem.UpdatedAt := WatchlistItem.UpdatedAt item |}.

(** [checkForNewEpisodes]; [today] is [CURRENT_DATE]. *)
Definition checkForNewEpisodes (now today : Z) (db : DB) : DB :=
  List.fold_left (fun db item => UpdateWatchlistItem now db (rescanned now item))
    (GetReturningSeriesWithUnscrapedEpisodes db today) db.

(** The updates that the rescan issues for [items], in turn, on one row. *)
Definition rewritten (now : Z) (items : list WatchlistItem.t) (row : WatchlistItem.t)
  : WatchlistItem.t :=
  fold_left (fun row item => if WatchlistItem.ID row =? WatchlistItem.ID item
                             then setItem now row (rescanned now item) else row)
    items row.

(** A row at the start of the pipeline. *)
Definition restarted (row : WatchlistItem.t) : Prop :=
  WatchlistItem.Status row = NullString.valid "new" /\
  WatchlistItem.CurrentStep row = NullString.valid "indexing_pending".

(** The updates that [processSeasonPack] issues for [episodes], in turn,
    on one row. *)
Definition marked (scrapeResultID : Z) (episodes : list TVEpisode.t) (row : TVEpisode.t)
  : TVEpisode.t :=
  fold_left (fun row ep => if TVEpisode.ID row =? TVEpisode.ID ep
                           then setEpisode row (markScraped ep scrapeResultID) else row)
    episodes row.

(** A row that is scraped and points at the result [scrapeResultID]. *)
Definition pointsAt (scrapeResultID : Z) (row : TVEpisode.t) : Prop :=
  TVEpisode.Scraped row = true /\
  TVEpisode.ScrapeResultID row = NullInt32.valid (wrap32 scrapeResultID).

(** The stage of an item: its status and current step. *)
Definition stage (w : WatchlistItem.t) : string * string :=
  (NullString.String (WatchlistItem.Status w), NullString.String (WatchlistItem.CurrentStep w)).

(** The item [id] is one that the daily rescan picks. *)
Definition rescans (db : DB) (today id : Z) : bool :=
  existsb (fun w => WatchlistItem.ID w =? id) (GetReturningSeriesWithUnscrapedEpisodes db today).

(** ** Notions used in the further properties *)

(** A language code as [parseLanguages] builds it: two letters [A]-[Z]. *)
Definition isUpperLetter (c : ascii) : bool := (65 <=? byteZ c) && (byteZ c <=? 90).

Definition isCountryCode (s : string) : bool :=
  match s with
  | String a (String b EmptyString) => isUpperLetter a && isUpperLetter b
  | _ => false
  end.

(** The helpers of [logResults] that give the parts of a score. *)
Section ScoreParts.
Context {lib : GoLib} (config : Config).

(** [getResolutionScore] *)
Definition getResolutionScore (resolution : string) : Z :=
  let scoring := Scoring (Scraping config) in
  if oneOf resolution ["2160p"; "4k"] then mapIndex (ResolutionScores scoring) "2160p"
  else if String.eqb resolution "1080p" then mapIndex (ResolutionScores scoring) "1080p"
  else if String.eqb resolution "720p" then mapIndex (ResolutionScores scoring) "720p"
  else if String.eqb resolution "480p" then mapIndex (ResolutionScores scoring) "480p"
  else 0.

(** [getCodecScore] *)
Definition getCodecScore (codec : string) : Z :=
  let scoring := Scoring (Scraping config) in
  if oneOf codec ["x265"; "HEVC"; "h265"] then mapIndex (CodecScores scoring) "hevc"
  else if oneOf codec ["x264"; "AVC"; "h264"] then mapIndex (CodecScores scoring) "avc"
  else 0.

(** [getUploaderScore] *)
Definition getUploaderScore (title : string) : Z :=
  if hasPreferredUploader config title
  then PreferredUploaderScore (Scoring (Scraping config)) else 0.

(** [getLanguageScore] *)
Definition getLanguageScore (languages : list string) : Z :=
  List.fold_left (languageStep config) languages 0.

(** The seeders that [calculateBaseScore] counts: at most
    [MaxSeederScore]. *)
Definition cappedSeeds (stream : Stream.t) : Z :=
  Z.min (ParsedInfo.Seeds (Stream.ParsedInfo stream))
        (MaxSeederScore (Scoring (Scraping config))).

(** The size limits that [filterStreams] applies for [item]. *)
Definition limitsFor (item : WatchlistItem.t) : MediaFilesize :=
  if statusIs "show" (WatchlistItem.MediaType item)
  then Show (Filesize (Scraping config))
  else Movie (Filesize (Scraping config)).

(** The size of [stream] is within the limits for [item]. *)
Definition withinLimits (item : WatchlistItem.t) (stream : Stream.t) : bool :=
  Float64.le (Min (limitsFor item)) (Float64.Finite (sizeGB stream))
  && Float64.le (Float64.Finite (sizeGB stream)) (Max (limitsFor item)).

End ScoreParts.

(** [x] is an [int]: the 64-bit wrap-around leaves it as it is. *)
Definition fits (x : Z) : Prop := wrap64 x = x.

(** The primary key of [scrape_results]: the ids are distinct and the
    sequence has passed them. *)
Definition keyed (db : DB) : Prop :=
  List.NoDup (List.map ScrapeResult.ID (scrape_results db)) /\
  forall row, In row (scrape_results db) -> ScrapeResult.ID row <= scrape_results_id_seq db.

(** The test of [SaveScrapeResult] for an existing row. *)
Definition sameHash (result row : ScrapeResult.t) : bool :=
  (ScrapeResult.WatchlistItemID row =? ScrapeResult.WatchlistItemID result)
  && hashIs (NullString.String (ScrapeResult.InfoHash result)) row.

(** The item and the hash of every row of [rows] that has a hash. *)
Definition hashesOf (rows : list ScrapeResult.t) : list (Z * string) :=
  List.map (fun row => (ScrapeResult.WatchlistItemID row,
                        NullString.String (ScrapeResult.InfoHash row)))
    (List.filter (fun row => NullString.Valid (ScrapeResult.InfoHash row)) rows).

(** The stored hashes: [(i, h)] is among them when the item [i] has a
    result with the hash [h]. *)
Definition hashes (db : DB) : list (Z * string) := hashesOf (scrape_results db).

(** No item has two results with the same hash. *)
Definition distinctHashes (db : DB) : Prop := List.NoDup (hashes db).

(** From [db] to [db'] the primary key stays intact and the hashes
    distinct, no stored hash is lost, and only the item [j] gets new
    ones. *)
Definition hashesKept (j : Z) (db db' : DB) : Prop :=
  keyed db -> distinctHashes db ->
  keyed db' /\ distinctHashes db' /\
  (forall i h, In (i, h) (hashes db) -> In (i, h) (hashes db')) /\
  (forall i h, In (i, h) (hashes db') -> In (i, h) (hashes db) \/ i = j).

(** What [Scrape] never writes: items and seasons; the episode ids stay,
    and result rows are only added or rewritten in place. *)
Definition scrapeFrame (db db' : DB) : Prop :=
  watchlistitem db' = watchlistitem db /\
  seasons db' = seasons db /\
  List.map TVEpisode.ID (tv_episodes db') = List.map TVEpisode.ID (tv_episodes db) /\
  exists added,
    List.map ScrapeResult.ID (scrape_results db')
    = (List.map ScrapeResult.ID (scrape_results db) ++ added)%list.

(** The answer of the first URL that answers. *)
Fixpoint firstAnswer (fetch : Fetch) (urls : list string) : option (list Stream.t) :=
  match urls with
  | [] => None
  | url :: rest =>
      match fetch url with
      | Some streams => Some streams
      | None => firstAnswer fetch rest
      end
  end.

(** The stream [stream] names the episode: its title contains
    [SxxEyy]. *)
Definition namesEpisode (episodeInfo : TVEpisode.t * Z) (stream : Stream.t) : bool :=
  GoStrings.Contains (Stream.Title stream)
    (episodePattern (snd episodeInfo) (TVEpisode.EpisodeNumber (fst episodeInfo))).

(** The episodes that a run of [scrapeTVShow] saves a result for: aired,
    not scraped yet, named by some stream. *)
Definition due (currentTime : Z) (streams : list Stream.t) (episodeInfo : TVEpisode.t * Z)
  : bool :=
  negb (notYetAired currentTime (fst episodeInfo))
  && negb (TVEpisode.Scraped (fst episodeInfo))
  && existsb (namesEpisode episodeInfo) streams.

(** The episodes that make [scrapeTVShow] report success: aired, and
    scraped before or named by some stream. *)
Definition counted (currentTime : Z) (streams : list Stream.t) (episodeInfo : TVEpisode.t * Z)
  : bool :=
  negb (notYetAired currentTime (fst episodeInfo))
  && (TVEpisode.Scraped (fst episodeInfo) || existsb (namesEpisode episodeInfo) streams).

(** Every row of the episode [id] is scraped and points at some result. *)
Definition scrapedRows (id : Z) (db : DB) : Prop :=
  forall row, In row (tv_episodes db) -> TVEpisode.ID row = id ->
              TVEpisode.Scraped row = true /\
              NullInt32.Valid (TVEpisode.ScrapeResultID row) = true.

(** [c] takes every world to one that [R] relates to it. *)
Definition respects {A} (R : World.t -> World.t -> Prop) (c : M A) : Prop :=
  forall w, R w (snd (c w)).

(** The world after the requests [reqs]. *)
Definition sent (w : World.t) (reqs : list Request) : World.t :=
  {| World.db := World.db w; World.calls := (World.calls w ++ reqs)%list |}.

(** The world with the store [db]. *)
Definition stored (w : World.t) (db : DB) : World.t :=
  {| World.db := db; World.calls := World.calls w |}.

(** The item rows are as they were. *)
Definition sameItems (w w' : World.t) : Prop :=
  watchlistitem (World.db w') = watchlistitem (World.db w).

(** What no step of [Download] writes: seasons, episodes, and the ids of
    the results. *)
Definition sameRows (w w' : World.t) : Prop :=
  seasons (World.db w') = seasons (World.db w) /\
  tv_episodes (World.db w') = tv_episodes (World.db w) /\
  List.map ScrapeResult.ID (scrape_results (World.db w'))
    = List.map ScrapeResult.ID (scrape_results (World.db w)) /\
  scrape_results_id_seq (World.db w') = scrape_results_id_seq (World.db w).

(** [c] leaves the item rows alone whenever it returns an error. *)
Definition cleanFailure {A} (c : M A) : Prop :=
  forall w e, fst (c w) = inl e -> sameItems w (snd (c w)).

(** [k] requests for the state of one torrent. *)
Definition polls (torrentID : string) (k : nat) : list Request :=
  List.repeat (TorrentInfo torrentID) k.

(** Every row of the result [id] has the status [status]. *)
Definition resultStatus (status : string) (id : Z) (db : DB) : Prop :=
  forall row, In row (scrape_results db) -> ScrapeResult.ID row = id ->
              ScrapeResult.StatusResults row = NullString.valid status.

(** The result is one that the loop of [Download] over a series takes
    up. *)
Definition isScraped (result : ScrapeResult.t) : bool :=
  String.eqb (NullString.String (ScrapeResult.StatusResults result)) "scraped".

(** The processor after [n] failures of the item [itemID] in a row, no
    reset waking up in between. *)
Fixpoint failures (config : Config) (now : Z) (n : nat) (bp : BaseProcessor.t) (itemID : Z)
  : BaseProcessor.t :=
  match n with
  | O => bp
  | S n' => snd (handleRetry config now (failures config now n' bp itemID) itemID)
  end.

(** The rows that [GetReturningSeriesWithUnscrapedEpisodes] selects. *)
Definition picks (db : DB) (today : Z) (row : WatchlistItem.t) : bool :=
  statusIs "Returning Series" (WatchlistItem.ShowStatus row) && hasAiredUnscraped db today row.

(** The row that the rescan writes for a selected [row]. *)
Definition rescanRow (now : Z) (row : WatchlistItem.t) : WatchlistItem.t :=
  setItem now row (rescanned now (asTV row)).

(** The searches of [scrapeIndividualEpisodes], one per episode. *)
Section Searches.
Context {lib : GoLib} (config : Config).

(** The search of [scrapeIndividualEpisodes] for [episode] returns
    streams. *)
Definition answered (fetch : Fetch) (item : WatchlistItem.t) (season : Season.t)
    (episode : TVEpisode.t) : bool :=
  match searchTorrentio config fetch item
          (episodePattern (Season.SeasonNumber season) (TVEpisode.EpisodeNumber episode)) with
  | inr _ => true
  | inl _ => false
  end.

(** The episodes that make [scrapeIndividualEpisodes] set [foundAny]. *)
Definition episodeFound (fetch : Fetch) (currentTime : Z) (item : WatchlistItem.t)
    (season : Season.t) (episode : TVEpisode.t) : bool :=
  negb (notYetAired currentTime episode)
  && (TVEpisode.Scraped episode || answered fetch item season episode).

(** The episodes that make it set [lastErr]. *)
Definition episodeMissed (fetch : Fetch) (currentTime : Z) (item : WatchlistItem.t)
    (season : Season.t) (episode : TVEpisode.t) : bool :=
  negb (notYetAired currentTime episode)
  && negb (TVEpisode.Scraped episode)
  && negb (answered fetch item season episode).

End Searches.

(** ** Sample inputs

    A configuration, items and candidate lists on which the code is
    evaluated.  A candidate's title has the three lines of a Torrentio
    stream title: name, metadata, language flags. *)

Module Sample.

Definition scoring : ScoringConfig :=
  {| LanguageIncludeScore := 400;
     LanguageExcludePenalty := -1400;
     ResolutionScores := {[ "2160p" := 300; "1080p" := 200; "720p" := 100 ]};
     MaxSeederScore := 100;
     MaxSizeScore := 1000;
     CodecScores := {[ "hevc" := 10; "avc" := 5 ]};
     PreferredUploaderScore := 50 |}.

(** Movies between 1 and 10 GB, episodes between 0.2 and 5 GB. *)
Definition config : Config :=
  {| Scraping :=
       {| TorrentioURL := "https://torrentio";
          Filesize :=
            {| Movie := {| SizeUnit := "GB"; Min := Float64.Finite 1;
                           Max := Float64.Finite 10 |};
               Show := {| SizeUnit := "GB"; Min := Float64.Finite (1 # 5);
                          Max := Float64.Finite 5 |} |};
          PreferredUploaders := ["SPARKS,AMIABLE,GECKOS"];
          Languages := {| Include := ["GB"]; Exclude := ["RU"] |};
          Scoring := scoring |};
     ProcessManagement := {| DefaultRetryWaitTime := 300; DefaultMaxRetries := 3 |} |}.

Definition newline : string := bytes [10].

(** A stream named [name] of [size] GB with 10 seeders. *)
Definition stream (name size infoHash : string) : Stream.t :=
  Stream.decoded "Torrentio"
    (name +:+ newline +:+ seedMarker +:+ "10 " +:+ sizeMarker +:+ " " +:+ size +:+
     " GB " +:+ sourceMarker +:+ " ThePirateBay")
    infoHash 0
    {| BehaviorHints.BingeGroup := "torrentio"; BehaviorHints.Filename := name |}.

(** A stream whose title has no metadata line. *)
Definition bare (name infoHash : string) : Stream.t :=
  Stream.decoded "Torrentio" name infoHash 0
    {| BehaviorHints.BingeGroup := "torrentio"; BehaviorHints.Filename := name |}.

Definition item (id : Z) (title mediaType status currentStep showStatus : string)
  : WatchlistItem.t :=
  {| WatchlistItem.ID := id;
     WatchlistItem.Title := title;
     WatchlistItem.ImdbID := NullString.valid "tt0120382";
     WatchlistItem.TmdbID := NullString.null;
     WatchlistItem.Status := NullString.valid status;
     WatchlistItem.CurrentStep := NullString.valid currentStep;
     WatchlistItem.LastScrapedDate := NullTime.null;
     WatchlistItem.MediaType := NullString.valid mediaType;
     WatchlistItem.ShowStatus := NullString.valid showStatus;
     WatchlistItem.UpdatedAt := 0 |}.

Definition movie : WatchlistItem.t :=
  item 1 "The Truman Show" "movie" "new" "scrape_pending" "".

Definition movieDB : DB :=
  {| watchlistitem := [movie]; seasons := []; tv_episodes := []; scrape_results := [];
     scrape_results_id_seq := 0 |}.

(** Two candidates, both outside the movie range of 1 to 10 GB. *)
Definition outOfRange : list Stream.t :=
  [stream "Movie 1080p x265" "20.0" "aaaa"; stream "Movie 2160p x265" "0.5" "bbbb"].

(** A candidate without a metadata line next to one of 20 GB. *)
Definition unsized : list Stream.t :=
  [bare "Movie 1080p x265" "cccc"; stream "Movie 720p" "20.0" "dddd"].

(** The first of them once parsed and scored. *)
Definition unsizedScored : Stream.t :=
  Eval vm_compute in List.nth 0 (rankedStreams config unsized movie) (bare "" "").

(** A candidate whose size field reads [inf GB]. *)
Definition infinite : Stream.t := stream "Movie 1080p" "inf" "ffff".

(** [config] with a movie minimum that is not a number, as the YAML value
    [.nan] gives it. *)
Definition nanMinimum : Config :=
  {| Scraping :=
       {| TorrentioURL := TorrentioURL (Scraping config);
          Filesize :=
            {| Movie := {| SizeUnit := "GB"; Min := Float64.NaN; Max := Float64.Finite 10 |};
               Show := Show (Filesize (Scraping config)) |};
          PreferredUploaders := PreferredUploaders (Scraping config);
          Languages := Languages (Scraping config);
          Scoring := Scoring (Scraping config) |};
     ProcessManagement := ProcessManagement config |}.

(** Four releases of one movie: 9.5, 9, 8 and 3 GB.  [trumanShow] names
    them after the movie, [plainTitles] gives the same releases titles
    without the word "show". *)
Definition trumanShow : list Stream.t :=
  [stream "The Truman Show 1998 1080p" "9.0" "b9"; stream "The Truman Show 1998 720p" "3.0" "d3";
   stream "The Truman Show 1998 2160p" "9.5" "a95"; stream "The Truman Show 1998 480p" "8.0" "c8"].

Definition plainTitles : list Stream.t :=
  [stream "Truman 1998 1080p" "9.0" "b9"; stream "Truman 1998 720p" "3.0" "d3";
   stream "Truman 1998 2160p" "9.5" "a95"; stream "Truman 1998 480p" "8.0" "c8"].

Definition sizeAndBonus (s : Stream.t) : string * Z :=
  (ParsedInfo.FileSize (Stream.ParsedInfo s), ParsedInfo.SizeScore (Stream.ParsedInfo s)).

(** A series with one season of three episodes, all aired at instant 50. *)
Definition series : WatchlistItem.t :=
  item 2 "Severance" "tv" "new" "scrape_pending" "Ended".

Definition episode (id number airDate : Z) : TVEpisode.t :=
  {| TVEpisode.ID := id; TVEpisode.SeasonID := 10; TVEpisode.EpisodeNumber := number;
     TVEpisode.AirDate := NullTime.valid airDate; TVEpisode.Scraped := false;
     TVEpisode.ScrapeResultID := NullInt32.null |}.

Definition season1 : Season.t :=
  {| Season.ID := 10; Season.WatchlistItemID := 2; Season.SeasonNumber := 1;
     Season.EpisodeCount := NullInt32.valid 3 |}.

Definition seriesDB : DB :=
  {| watchlistitem := [series];
     seasons := [season1];
     tv_episodes := [episode 101 1 50; episode 102 2 50; episode 103 3 50];
     scrape_results := [];
     scrape_results_id_seq := 0 |}.

(** One season pack in 2160p and one 1080p release per episode. *)
Definition seasonCandidates : list Stream.t :=
  [stream "Severance season1 complete3 2160p x265" "4.0" "pack";
   stream "Severance S01E01 1080p" "1.0" "e1";
   stream "Severance S01E02 1080p" "1.0" "e2";
   stream "Severance S01E03 1080p" "1.0" "e3"].

(** A candidate source that answers every request with [streams]. *)
Definition source (streams : list Stream.t) : Fetch := fun _ => Some streams.

(** A debrid service that refuses every request. *)
Definition refusing : Debrid := fun _ _ => Failed.

(** Three releases of a movie, best first. *)
Definition threeReleases : list Stream.t :=
  [stream "Movie 2160p x265" "9.0" "hashA"; stream "Movie 1080p x265" "8.0" "hashB";
   stream "Movie 720p x265" "7.0" "hashC"].

Definition hashAndStatus (r : ScrapeResult.t) : string * string :=
  (NullString.String (ScrapeResult.InfoHash r), NullString.String (ScrapeResult.StatusResults r)).

Definition world (db : DB) : World.t := {| World.db := db; World.calls := [] |}.

(** The store with the rows of [scrape_results] in the opposite order. *)
Definition reordered (db : DB) : DB :=
  withResults db (rev (scrape_results db)) (scrape_results_id_seq db).

(** The same series with the third episode due at instant 500. *)
Definition airingDB : DB :=
  {| watchlistitem := [series];
     seasons := [season1];
     tv_episodes := [episode 101 1 50; episode 102 2 50; episode 103 3 500];
     scrape_results := [];
     scrape_results_id_seq := 0 |}.

Definition result (id score : Z) (infoHash status : string) : ScrapeResult.t :=
  {| ScrapeResult.ID := id;
     ScrapeResult.WatchlistItemID := 1;
     ScrapeResult.ScrapedFilename := NullString.valid "Movie";
     ScrapeResult.ScrapedResolution := NullString.valid "1080p";
     ScrapeResult.ScrapedDate := NullTime.valid 10;
     ScrapeResult.InfoHash := NullString.valid infoHash;
     ScrapeResult.ScrapedScore := NullInt32.valid score;
     ScrapeResult.ScrapedFileSize := NullString.valid "9.00 GB";
     ScrapeResult.ScrapedCodec := NullString.valid "x265";
     ScrapeResult.StatusResults := NullString.valid status;
     ScrapeResult.DebridID := NullString.null;
     ScrapeResult.DebridURI := NullString.null;
     ScrapeResult.CreatedAt := 10;
     ScrapeResult.UpdatedAt := 10 |}.

(** The movie with two scraped results that both score 0. *)
Definition zeroScores : DB :=
  withResults movieDB [result 1 0 "hashA" "scraped"; result 2 0 "hashB" "scraped"] 2.

(** The movie with scraped results scoring 700 and 900 and a better one
    that is not in status scraped. *)
Definition scoredResults : DB :=
  withResults movieDB
    [result 1 700 "hashA" "scraped"; result 2 900 "hashB" "scraped";
     result 3 950 "hashC" "ignored hash"] 3.

(** A returning series, already downloaded, whose second episode aired
    at instant 50 and is not scraped yet, next to the movie. *)
Definition returning : WatchlistItem.t :=
  item 3 "Slow Horses" "tv" "downloaded" "symlink_pending" "Returning Series".

Definition returningDB : DB :=
  {| watchlistitem := [movie; returning];
     seasons := [{| Season.ID := 10; Season.WatchlistItemID := 3; Season.SeasonNumber := 1;
                    Season.EpisodeCount := NullInt32.valid 2 |}];
     tv_episodes :=
       [{| TVEpisode.ID := 101; TVEpisode.SeasonID := 10; TVEpisode.EpisodeNumber := 1;
           TVEpisode.AirDate := NullTime.valid 40; TVEpisode.Scraped := true;
           TVEpisode.ScrapeResultID := NullInt32.valid 1 |};
        episode 102 2 50];
     scrape_results := [];
     scrape_results_id_seq := 1 |}.

(** A processor that has seen no failure yet, and the same after one,
    two and three failures of the movie.  [config] allows 3 retries. *)
Definition idle : BaseProcessor.t :=
  {| BaseProcessor.retryCount := ∅; BaseProcessor.db := movieDB;
     BaseProcessor.pending := [] |}.

Definition failedOnce : BaseProcessor.t := snd (handleRetry config 100 idle 1).
Definition failedTwice : BaseProcessor.t := snd (handleRetry config 100 failedOnce 1).
Definition failedThrice : BaseProcessor.t := snd (handleRetry config 100 failedTwice 1).

(** The configuration with a trailing comma in the uploader group. *)
Definition trailingComma : Config :=
  {| Scraping :=
       {| TorrentioURL := TorrentioURL (Scraping config);
          Filesize := Filesize (Scraping config);
          PreferredUploaders := ["SPARKS,"];
          Languages := Languages (Scraping config);
          Scoring := Scoring (Scraping config) |};
     ProcessManagement := ProcessManagement config |}.

(** A debrid service that accepts every magnet as torrent [T1] and
    reports it downloaded at once. *)
Definition completing : Debrid :=
  fun _ req =>
    match req with
    | AddMagnet _ => TorrentID "T1"
    | SelectFiles _ => Accepted
    | TorrentInfo _ => Info "downloaded" ["https://debrid/T1"] 100
    | DeleteTorrent _ => Accepted
    end.

(** The largest of [threeReleases] once parsed and scored. *)
Definition inRange : Stream.t :=
  Eval vm_compute in List.nth 0 (scoredStreams config threeReleases) (bare "" "").

(** Two results for the hash of the second row of [scoredResults]. *)
Definition rescrape : ScrapeResult.t := result 0 800 "hashB" "ready_for_download".
Definition rescrapeAgain : ScrapeResult.t := result 0 10 "hashB" "scraped".

(** The series with a scraped result for each of its first two
    episodes. *)
Definition seriesResults : DB :=
  withResults seriesDB
    [{| ScrapeResult.ID := 1; ScrapeResult.WatchlistItemID := 2;
        ScrapeResult.ScrapedFilename := NullString.valid "Severance S01E01 1080p";
        ScrapeResult.ScrapedResolution := NullString.valid "1080p";
        ScrapeResult.ScrapedDate := NullTime.valid 10;
        ScrapeResult.InfoHash := NullString.valid "e1";
        ScrapeResult.ScrapedScore := NullInt32.valid 210;
        ScrapeResult.ScrapedFileSize := NullString.null;
        ScrapeResult.ScrapedCodec := NullString.valid "";
        ScrapeResult.StatusResults := NullString.valid "scraped";
        ScrapeResult.DebridID := NullString.null;
        ScrapeResult.DebridURI := NullString.null;
        ScrapeResult.CreatedAt := 10; ScrapeResult.UpdatedAt := 10 |};
     {| ScrapeResult.ID := 2; ScrapeResult.WatchlistItemID := 2;
        ScrapeResult.ScrapedFilename := NullString.valid "Severance S01E02 1080p";
        ScrapeResult.ScrapedResolution := NullString.valid "1080p";
        ScrapeResult.ScrapedDate := NullTime.valid 10;
        ScrapeResult.InfoHash := NullString.valid "e2";
        ScrapeResult.ScrapedScore := NullInt32.valid 210;
        ScrapeResult.ScrapedFileSize := NullString.null;
        ScrapeResult.ScrapedCodec := NullString.valid "";
        ScrapeResult.StatusResults := NullString.valid "scraped";
        ScrapeResult.DebridID := NullString.null;
        ScrapeResult.DebridURI := NullString.null;
        ScrapeResult.CreatedAt := 10; ScrapeResult.UpdatedAt := 10 |}] 2.

End Sample.

(** * Properties *)

(** ** Sorting *)

Section SortFacts.
Context {A : Type} (less : A -> A -> bool).

Lemma insertBack_perm (x : A) (r : list A) :
  Permutation (insertBack less x r) (x :: r).
Proof.
  induction r as [|y r IH]; simpl; [reflexivity|].
  destruct (less x y); [|reflexivity].
  rewrite IH. apply perm_swap.
Qed.

Lemma fold_insertBack_perm (l acc : list A) :
  Permutation (fold_left (fun r x => insertBack less x r) l acc) (l ++ acc).
Proof.
  revert acc. induction l as [|x l IH]; intros acc; simpl; [reflexivity|].
  rewrite IH, insertBack_perm. symmetry. apply Permutation_middle.
Qed.

Lemma sortSlice_perm (l : list A) : Permutation (sortSlice less l) l.
Proof.
  unfold sortSlice. rewrite <- Permutation_rev, fold_insertBack_perm.
  now rewrite app_nil_r.
Qed.

Lemma sortSlice_In (l : list A) (x : A) : In x (sortSlice less l) <-> In x l.
Proof.
  split; apply Permutation_in; [|symmetry]; apply sortSlice_perm.
Qed.

Lemma sortSlice_nil (l : list A) : sortSlice less l = [] -> l = [].
Proof.
  intros H. apply Permutation_nil. rewrite <- H. apply sortSlice_perm.
Qed.

(** [R a b]: [a] may stand before [b] in a sorted slice. *)
Context (R : A -> A -> Prop).
Hypothesis R_trans : forall a b c, R a b -> R b c -> R a c.
Hypothesis less_R : forall x y, less x y = true -> R x y.
Hypothesis not_less_R : forall x y, less x y = false -> R y x.

Lemma insertBack_sorted (x : A) (r : list A) :
  StronglySorted (flip R) r -> StronglySorted (flip R) (insertBack less x r).
Proof.
  induction r as [|y r IH]; intros Hs; simpl.
  - repeat constructor.
  - inversion Hs as [|? ? Hr Hy]; subst.
    destruct (less x y) eqn:E.
    + constructor; [now apply IH|].
      apply List.Forall_forall. intros z Hz.
      apply (Permutation_in _ (insertBack_perm x r)) in Hz.
      destruct Hz as [<-|Hz]; [now apply less_R|].
      now apply (proj1 (List.Forall_forall _ _) Hy).
    + constructor; [exact Hs|].
      constructor; [now apply not_less_R|].
      apply List.Forall_forall. intros z Hz. unfold flip.
      apply R_trans with y; [|now apply not_less_R].
      now apply (proj1 (List.Forall_forall _ _) Hy).
Qed.

Lemma fold_insertBack_sorted (l acc : list A) :
  StronglySorted (flip R) acc ->
  StronglySorted (flip R) (fold_left (fun r x => insertBack less x r) l acc).
Proof.
  revert acc. induction l as [|x l IH]; intros acc Hs; simpl; [exact Hs|].
  apply IH. now apply insertBack_sorted.
Qed.

Lemma sorted_rev (r : list A) :
  StronglySorted (flip R) r -> StronglySorted R (rev r).
Proof.
  induction r as [|y r IH]; intros Hs; simpl; [constructor|].
  inversion Hs as [|? ? Hr Hy]; subst.
  specialize (IH Hr).
  assert (Hall : Forall (fun z => R z y) (rev r)).
  { apply List.Forall_forall. intros z Hz. apply in_rev in Hz.
    now apply (proj1 (List.Forall_forall _ _) Hy). }
  clear Hs Hr Hy. induction (rev r) as [|z t IHt]; simpl.
  - repeat constructor.
  - inversion IH as [|? ? Ht Hz]; subst. inversion Hall as [|? ? Hzy Hty]; subst.
    constructor; [now apply IHt|].
    apply List.Forall_app. split; [exact Hz|]. now constructor.
Qed.

(** The slice that [sort.Slice] leaves is ordered. *)
Lemma sortSlice_sorted (l : list A) : StronglySorted R (sortSlice less l).
Proof.
  unfold sortSlice. apply sorted_rev, fold_insertBack_sorted. constructor.
Qed.

(** Its first element may stand before every element of the input. *)
Lemma sortSlice_head (l : list A) (b : A) (rest : list A) :
  sortSlice less l = b :: rest ->
  In b l /\ forall x, In x l -> x = b \/ R b x.
Proof.
  intros H. split.
  - apply sortSlice_In. rewrite H. now left.
  - intros x Hx. apply sortSlice_In in Hx. rewrite H in Hx.
    destruct Hx as [->|Hx]; [now left|right].
    pose proof (sortSlice_sorted l) as Hs. rewrite H in Hs.
    inversion Hs as [|? ? _ Hb]; subst.
    now apply (proj1 (List.Forall_forall _ _) Hb).
Qed.

End SortFacts.

(** Sorting an ordered slice changes nothing. *)
Section SortAgain.
Context {A : Type} (less : A -> A -> bool) (R : A -> A -> Prop).
Hypothesis R_not_less : forall y x, R y x -> less x y = false.

Lemma fold_insertBack_ordered (l acc : list A) :
  StronglySorted R l ->
  (forall y, head acc = Some y -> Forall (R y) l) ->
  fold_left (fun r x => insertBack less x r) l acc = (rev l ++ acc)%list.
Proof.
  revert acc. induction l as [|x l IH]; intros acc Hs Hacc; simpl; [reflexivity|].
  inversion Hs as [|? ? Hl Hx]; subst.
  assert (E : insertBack less x acc = x :: acc).
  { destruct acc as [|y acc]; [reflexivity|]. simpl.
    specialize (Hacc y eq_refl). inversion Hacc as [|? ? Hyx _]; subst.
    now rewrite (R_not_less _ _ Hyx). }
  rewrite E, IH; [now rewrite <- app_assoc| exact Hl |].
  intros y [= <-]. exact Hx.
Qed.

Lemma sortSlice_ordered (l : list A) :
  StronglySorted R l -> sortSlice less l = l.
Proof.
  intros Hs. unfold sortSlice.
  rewrite fold_insertBack_ordered; [|exact Hs|discriminate].
  now rewrite app_nil_r, rev_involutive.
Qed.

End SortAgain.

(** ** The store *)

Lemma UpdateScrapeResult_stored (now : Z) (db : DB) (result row : ScrapeResult.t) :
  In row (scrape_results db) ->
  ScrapeResult.ID row = ScrapeResult.ID result ->
  In (setResult now row result) (scrape_results (UpdateScrapeResult now db result)).
Proof.
  intros Hin Hid. unfold UpdateScrapeResult; simpl.
  apply in_map_iff. exists row. split; [|exact Hin].
  rewrite Hid, Z.eqb_refl. reflexivity.
Qed.

(** After [SaveScrapeResult] the table holds, under the returned id, a row
    of the item with the hash, score and status of the result. *)
Lemma SaveScrapeResult_stored (now : Z) (db : DB) (result : ScrapeResult.t) :
  NullString.Valid (ScrapeResult.InfoHash result) = true ->
  exists row,
    In row (scrape_results (snd (SaveScrapeResult now db result))) /\
    ScrapeResult.ID row = fst (SaveScrapeResult now db result) /\
    ScrapeResult.WatchlistItemID row = ScrapeResult.WatchlistItemID result /\
    ScrapeResult.InfoHash row = ScrapeResult.InfoHash result /\
    ScrapeResult.ScrapedScore row = ScrapeResult.ScrapedScore result /\
    ScrapeResult.StatusResults row = ScrapeResult.StatusResults result.
Proof.
  intros Hv. unfold SaveScrapeResult. rewrite Hv.
  destruct (List.find _ (scrape_results db)) as [old|] eqn:E; simpl.
  - apply List.find_some in E. destruct E as [Hin Hp].
    apply andb_prop in Hp. destruct Hp as [Hitem _].
    apply Z.eqb_eq in Hitem.
    exists (setResult now old (withID result (ScrapeResult.ID old) now)).
    split; [now apply UpdateScrapeResult_stored|].
    simpl. auto.
  - exists (withID result (scrape_results_id_seq db + 1) now).
    split; [apply in_or_app; right; now left|]. simpl. auto.
Qed.

(** ** Ranking *)

Section RankingFacts.
Context {lib : GoLib} (config : Config).

Lemma higherScore_head (l : list Stream.t) (b : Stream.t) (rest : list Stream.t) :
  sortSlice higherScore l = b :: rest ->
  In b l /\ forall s, In s l -> Stream.Score s <= Stream.Score b.
Proof.
  intros H.
  destruct (sortSlice_head higherScore (fun a c => Stream.Score c <= Stream.Score a))
    with (l := l) (b := b) (rest := rest) as [Hin Hmax].
  - intros a c d; lia.
  - unfold higherScore. intros x y E. apply Z.gtb_lt in E. lia.
  - unfold higherScore. intros x y E. rewrite Z.gtb_ltb in E.
    apply Z.ltb_ge in E. exact E.
  - exact H.
  - split; [exact Hin|]. intros s Hs. destruct (Hmax s Hs) as [->|]; lia.
Qed.

Lemma setSizeScore_length (i : nat) (v : Z) (l : list Stream.t) :
  length (setSizeScore i v l) = length l.
Proof. unfold setSizeScore. apply length_alter. Qed.

Lemma assignSizeScores_length (closest : list nat) (l : list Stream.t) :
  length (assignSizeScores config closest l) = length l.
Proof.
  unfold assignSizeScores.
  destruct (nth_error closest 0), (nth_error closest 1), (nth_error closest 2);
    now rewrite ?setSizeScore_length.
Qed.

Lemma scoredStreams_length (l : list Stream.t) :
  length (scoredStreams config l) = length l.
Proof.
  unfold scoredStreams.
  rewrite length_map, assignSizeScores_length, length_map. unfold bySize.
  rewrite (Permutation_length (sortSlice_perm _ _)). apply length_map.
Qed.

Lemma filterStreams_all (l : list Stream.t) (item : WatchlistItem.t) :
  filterStreams config l item false false = l.
Proof.
  unfold filterStreams. simpl.
  induction l as [|s l IH]; simpl; [reflexivity|]. now rewrite IH.
Qed.

End RankingFacts.

(** ** Fallback when the size filter rejects every candidate *)

(** C4.  For a non-empty list of streams, when the size filter of the
    item's media kind keeps none of the scored streams, [processStreams]
    does not fail: it ranks the unfiltered list, its best match has the
    highest total score of all the streams, and a scrape result with the
    best match's hash and score is stored for the item. *)
Theorem C4_filter_fallback `{lib : GoLib} (config : Config) (now : Z)
    (streams : list Stream.t) (item : WatchlistItem.t) (db : DB) :
  streams <> [] ->
  filterStreams config (scoredStreams config streams) item true false = [] ->
  exists bestMatch rest row,
    rankedStreams config streams item = bestMatch :: rest /\
    In bestMatch (scoredStreams config streams) /\
    (forall s, In s (scoredStreams config streams) ->
               Stream.Score s <= Stream.Score bestMatch) /\
    processStreams config now streams item db =
      (None, snd (SaveScrapeResult now db (bestMatchResult now item bestMatch))) /\
    In row (scrape_results (snd (processStreams config now streams item db))) /\
    ScrapeResult.WatchlistItemID row = WatchlistItem.ID item /\
    ScrapeResult.InfoHash row = NullString.valid (Stream.InfoHash bestMatch) /\
    ScrapeResult.ScrapedScore row = NullInt32.valid (wrap32 (Stream.Score bestMatch)) /\
    ScrapeResult.StatusResults row = NullString.valid "ready_for_download".
Proof.
  intros Hne Hempty.
  assert (Hranked : rankedStreams config streams item =
                    sortSlice higherScore (scoredStreams config streams)).
  { unfold rankedStreams. rewrite Hempty. now rewrite filterStreams_all. }
  destruct (sortSlice higherScore (scoredStreams config streams))
    as [|bestMatch rest] eqn:Hsort.
  { apply sortSlice_nil in Hsort. apply (f_equal (@length _)) in Hsort.
    rewrite scoredStreams_length in Hsort. destruct streams; [easy|discriminate]. }
  destruct (higherScore_head _ _ _ Hsort) as [Hin Hmax].
  assert (Hrun : processStreams config now streams item db =
                 (None, snd (SaveScrapeResult now db (bestMatchResult now item bestMatch)))).
  { unfold processStreams. destruct streams as [|s0 streams']; [easy|].
    rewrite Hranked.
    destruct (SaveScrapeResult now db (bestMatchResult now item bestMatch)); reflexivity. }
  destruct (SaveScrapeResult_stored now db (bestMatchResult now item bestMatch) eq_refl)
    as (row & Hrow & _ & Hitem & Hhash & Hscore & Hstatus).
  exists bestMatch, rest, row.
  rewrite Hrun. simpl. repeat split; auto.
Qed.

Lemma C4_filter_fallback_witness :
  exists bestMatch rest row,
    rankedStreams Sample.config Sample.outOfRange Sample.movie = bestMatch :: rest /\
    In bestMatch (scoredStreams Sample.config Sample.outOfRange) /\
    (forall s, In s (scoredStreams Sample.config Sample.outOfRange) ->
               Stream.Score s <= Stream.Score bestMatch) /\
    processStreams Sample.config 100 Sample.outOfRange Sample.movie Sample.movieDB =
      (None, snd (SaveScrapeResult 100 Sample.movieDB
                    (bestMatchResult 100 Sample.movie bestMatch))) /\
    In row (scrape_results
              (snd (processStreams Sample.config 100 Sample.outOfRange Sample.movie
                      Sample.movieDB))) /\
    ScrapeResult.WatchlistItemID row = WatchlistItem.ID Sample.movie /\
    ScrapeResult.InfoHash row = NullString.valid (Stream.InfoHash bestMatch) /\
    ScrapeResult.ScrapedScore row = NullInt32.valid (wrap32 (Stream.Score bestMatch)) /\
    ScrapeResult.StatusResults row = NullString.valid "ready_for_download".
Proof.
  apply (C4_filter_fallback Sample.config 100 Sample.outOfRange Sample.movie Sample.movieDB).
  - discriminate.
  - vm_compute. reflexivity.
Defined.

(** ** Streams whose size does not parse *)

Section SizeFacts.
Context {lib : GoLib} (config : Config).

Lemma unparsable_zero (sizeStr : string) :
  unparsable sizeStr = true -> convertToGB sizeStr = 0%Q.
Proof.
  unfold unparsable, convertToGB.
  destruct (String.eqb _ ""); [reflexivity|].
  destruct (Sscanf_f_s _) as [[v u]|]; [|destruct (Sscanf_fs _) as [[v u]|]];
    try reflexivity;
    simpl; intros H; apply negb_true_iff in H;
    repeat (apply orb_false_elim in H; destruct H as [-> H]);
    reflexivity.
Qed.

(** A minimum that passed the test [Min <= 0] is above 0 or NaN. *)
Lemma above_zero_or_NaN (m : Float64.t) :
  Float64.le m (Float64.Finite 0) = false ->
  Float64.lt (Float64.Finite 0) m = negb (Float64.isNaN m).
Proof.
  destruct m as [q| | |]; unfold Float64.le, Float64.lt; simpl; intros H; try congruence.
  now rewrite H.
Qed.

Lemma validated_limits (item : WatchlistItem.t) :
  validateFilesizeConfig config = None ->
  Float64.le (Min (limitsFor config item)) (Float64.Finite 0) = false.
Proof.
  unfold validateFilesizeConfig, limitsFor.
  destruct (negb (String.eqb (SizeUnit (Movie _)) "GB")); [discriminate|].
  destruct (Float64.le (Min (Movie _)) _) eqn:E1; [discriminate|].
  destruct (Float64.le (Max (Movie _)) _); [discriminate|].
  destruct (negb (String.eqb (SizeUnit (Show _)) "GB")); [discriminate|].
  destruct (Float64.le (Min (Show _)) _) eqn:E2; [discriminate|].
  intros _. destruct (statusIs "show" _); assumption.
Qed.

(** The size test of [filterStreams] on a stream of 0 GB. *)
Lemma filterStreams_zero (streams : list Stream.t) (item : WatchlistItem.t)
    (useUploader : bool) (stream : Stream.t) :
  sizeGB stream = 0%Q ->
  In stream (filterStreams config streams item true useUploader) <->
  In stream streams /\
  Float64.lt (Float64.Finite 0) (Min (limitsFor config item)) = false /\
  Float64.lt (Max (limitsFor config item)) (Float64.Finite 0) = false /\
  (useUploader = true -> hasPreferredUploader config (Stream.Title stream) = true).
Proof.
  intros Hzero. unfold filterStreams. rewrite filter_In, Hzero.
  fold (limitsFor config item). cbn [andb].
  destruct (Float64.lt (Float64.Finite 0) (Min (limitsFor config item)));
    destruct (Float64.lt (Max (limitsFor config item)) (Float64.Finite 0));
    destruct useUploader; destruct (hasPreferredUploader config (Stream.Title stream));
    cbn; intuition congruence.
Qed.

End SizeFacts.

(** C9 fails on the code.  [validateFilesizeConfig] means to refuse a
    minimum that is not greater than 0 (its message says so), but its test
    [Min <= 0] is false of NaN, which a configuration file can give: the
    configuration [Sample.nanMinimum] is accepted.  Under it the candidate
    without a size, which converts to 0 GB, passes the size filter of
    [filterStreams] with the filter on, since [0 < NaN] is false, and
    [processStreams] saves it as the best match of the filtered list, not
    through the fallback.  Under [Sample.config], which differs in the
    minimum only, the same filter keeps nothing. *)
Theorem C9_nan_minimum_keeps_unparsable_size :
  validateFilesizeConfig Sample.nanMinimum = None /\
  Min (Movie (Filesize (Scraping Sample.nanMinimum))) = Float64.NaN /\
  scoredStreams Sample.nanMinimum Sample.unsized
    = scoredStreams Sample.config Sample.unsized /\
  In Sample.unsizedScored (scoredStreams Sample.nanMinimum Sample.unsized) /\
  unparsable (ParsedInfo.FileSize (Stream.ParsedInfo Sample.unsizedScored)) = true /\
  sizeGB Sample.unsizedScored = 0%Q /\
  filterStreams Sample.nanMinimum (scoredStreams Sample.nanMinimum Sample.unsized)
    Sample.movie true false = [Sample.unsizedScored] /\
  filterStreams Sample.config (scoredStreams Sample.config Sample.unsized)
    Sample.movie true false = [] /\
  processStreams Sample.nanMinimum 100 Sample.unsized Sample.movie Sample.movieDB
    = (None, snd (SaveScrapeResult 100 Sample.movieDB
                    (bestMatchResult 100 Sample.movie Sample.unsizedScored))).
Proof.
  vm_compute. repeat split; try reflexivity. right. left. reflexivity.
Qed.

(** ** Repeating the ranking *)

Section Repeat.
Context {lib : GoLib} (config : Config).

Lemma parsed_reset (s : Stream.t) : parsed config (Stream.reset s) = parsed config s.
Proof. destruct s. reflexivity. Qed.

Lemma reset_parsed (s : Stream.t) : Stream.reset (parsed config s) = Stream.reset s.
Proof. destruct s. reflexivity. Qed.

Lemma parsed_parsed (s : Stream.t) : parsed config (parsed config s) = parsed config s.
Proof. now rewrite <- parsed_reset, reset_parsed, parsed_reset. Qed.

Lemma reset_withSizeScore (v : Z) (s : Stream.t) :
  Stream.reset (Stream.withSizeScore v s) = Stream.reset s.
Proof. destruct s. reflexivity. Qed.

Lemma reset_rescored (s : Stream.t) : Stream.reset (rescored config s) = Stream.reset s.
Proof. destruct s. reflexivity. Qed.

Lemma reset_setSizeScore (i : nat) (v : Z) (l : list Stream.t) :
  List.map Stream.reset (setSizeScore i v l) = List.map Stream.reset l.
Proof.
  unfold setSizeScore. revert i. induction l as [|s l IH]; intros [|i]; simpl;
    try reflexivity.
  f_equal. apply IH.
Qed.

Lemma reset_assignSizeScores (closest : list nat) (l : list Stream.t) :
  List.map Stream.reset (assignSizeScores config closest l) = List.map Stream.reset l.
Proof.
  unfold assignSizeScores.
  destruct (nth_error closest 0), (nth_error closest 1), (nth_error closest 2);
    now rewrite ?reset_setSizeScore.
Qed.

Lemma reset_scoredStreams (l : list Stream.t) :
  List.map Stream.reset (scoredStreams config l) = List.map Stream.reset (bySize config l).
Proof.
  unfold scoredStreams.
  rewrite List.map_map.
  rewrite (List.map_ext _ Stream.reset (reset_rescored)).
  rewrite reset_assignSizeScores, List.map_map.
  apply List.map_ext. intros s. apply reset_withSizeScore.
Qed.

Lemma parsed_bySize (l : list Stream.t) :
  List.map (parsed config) (bySize config l) = bySize config l.
Proof.
  rewrite <- (List.map_id (bySize config l)) at 2.
  apply List.map_ext_in. intros s Hs.
  unfold bySize in Hs. apply sortSlice_In, in_map_iff in Hs. destruct Hs as (y & <- & _).
  apply parsed_parsed.
Qed.

Lemma parsed_scoredStreams (l : list Stream.t) :
  List.map (parsed config) (scoredStreams config l) = bySize config l.
Proof.
  rewrite <- (List.map_ext _ _ parsed_reset), <- List.map_map, reset_scoredStreams.
  rewrite List.map_map, (List.map_ext _ _ parsed_reset). apply parsed_bySize.
Qed.

Lemma bySize_sorted (l : list Stream.t) :
  StronglySorted (fun a b => (sizeGB b <= sizeGB a)%Q) (bySize config l).
Proof.
  apply sortSlice_sorted.
  - intros a b c Hab Hbc. now apply Qle_trans with (sizeGB b).
  - unfold largerSize, flt. intros x y E. apply negb_true_iff in E.
    apply Qlt_le_weak, Qnot_le_lt. intros H. apply Qle_bool_iff in H. congruence.
  - unfold largerSize, flt. intros x y E. apply negb_false_iff in E.
    now apply Qle_bool_iff.
Qed.

Lemma bySize_again (l : list Stream.t) : sortSlice largerSize (bySize config l) = bySize config l.
Proof.
  apply sortSlice_ordered with (R := fun a b => (sizeGB b <= sizeGB a)%Q).
  - unfold largerSize, flt. intros y x H. apply negb_false_iff. now apply Qle_bool_iff.
  - apply bySize_sorted.
Qed.

(** Scoring a slice that was scored before gives the same slice. *)
Lemma scoredStreams_again (l : list Stream.t) :
  scoredStreams config (scoredStreams config l) = scoredStreams config l.
Proof.
  assert (E : bySize config (scoredStreams config l) = bySize config l).
  { unfold bySize at 1. rewrite parsed_scoredStreams. apply bySize_again. }
  unfold scoredStreams at 1. rewrite E. reflexivity.
Qed.

Lemma scoredStreams_reset (l : list Stream.t) :
  scoredStreams config (List.map Stream.reset l) = scoredStreams config l.
Proof.
  unfold scoredStreams, bySize. rewrite List.map_map.
  now rewrite (List.map_ext _ _ parsed_reset).
Qed.

Lemma scoredStreams_nil (l : list Stream.t) : scoredStreams config l = [] <-> l = [].
Proof.
  split; [|now intros ->].
  intros H. apply (f_equal (@length _)) in H. rewrite scoredStreams_length in H.
  now destruct l.
Qed.

End Repeat.

(** C8.  The ranking of a candidate list is a function of the
    configuration, the item and the payload of the candidates: running the
    engine again on the slice as the first run left it (parsed, sorted by
    size, scored), or on the same candidates with any stale parsed fields
    and scores, yields the same ranked list, hence the same best match
    with the same total score, and [processStreams] does the same on
    any store at any time. *)
Theorem C8_ranking_repeatable `{lib : GoLib} (config : Config) (item : WatchlistItem.t)
    (streams : list Stream.t) :
  rankedStreams config (scoredStreams config streams) item
    = rankedStreams config streams item /\
  rankedStreams config (List.map Stream.reset streams) item
    = rankedStreams config streams item /\
  forall now db,
    processStreams config now (scoredStreams config streams) item db
      = processStreams config now streams item db.
Proof.
  assert (H1 : rankedStreams config (scoredStreams config streams) item
               = rankedStreams config streams item).
  { unfold rankedStreams. now rewrite scoredStreams_again. }
  split; [exact H1|]. split.
  - unfold rankedStreams. now rewrite scoredStreams_reset.
  - intros now db. unfold processStreams. rewrite H1.
    destruct streams as [|s l]; [reflexivity|].
    destruct (scoredStreams config (s :: l)) eqn:E; [|reflexivity].
    apply scoredStreams_nil in E. discriminate.
Qed.

(** ** Episodes that have not aired *)

Section Gating.
Context {lib : GoLib} (config : Config).

Lemma SaveScrapeResult_episodes (now : Z) (db : DB) (result : ScrapeResult.t) :
  tv_episodes (snd (SaveScrapeResult now db result)) = tv_episodes db.
Proof.
  unfold SaveScrapeResult.
  destruct (if NullString.Valid (ScrapeResult.InfoHash result) then _ else _); reflexivity.
Qed.

Lemma UpdateTVEpisode_ids (db : DB) (episode : TVEpisode.t) :
  List.map TVEpisode.ID (tv_episodes (UpdateTVEpisode db episode))
    = List.map TVEpisode.ID (tv_episodes db).
Proof.
  unfold UpdateTVEpisode; simpl. rewrite List.map_map. apply List.map_ext.
  intros row. now destruct (TVEpisode.ID row =? TVEpisode.ID episode).
Qed.

Lemma UpdateTVEpisode_other (db : DB) (episode e : TVEpisode.t) :
  TVEpisode.ID episode <> TVEpisode.ID e ->
  In e (tv_episodes db) -> In e (tv_episodes (UpdateTVEpisode db episode)).
Proof.
  intros Hne Hin. unfold UpdateTVEpisode; simpl.
  apply in_map_iff. exists e. split; [|exact Hin].
  destruct (TVEpisode.ID e =? TVEpisode.ID episode) eqn:E; [|reflexivity].
  apply Z.eqb_eq in E. congruence.
Qed.

Lemma saveForEpisode_kept (now : Z) (item : WatchlistItem.t) (episode e : TVEpisode.t)
    (stream : Stream.t) (status : string) (db0 db : DB) :
  TVEpisode.ID episode <> TVEpisode.ID e ->
  kept e db0 db -> kept e db0 (saveForEpisode now item episode stream status db).
Proof.
  intros Hne [Hin Hids]. unfold saveForEpisode.
  pose proof (SaveScrapeResult_episodes now db (streamResult now item stream status)) as Hs.
  destruct (SaveScrapeResult now db (streamResult now item stream status)) as [id db'].
  simpl in Hs. split.
  - apply UpdateTVEpisode_other; [exact Hne|now rewrite Hs].
  - now rewrite UpdateTVEpisode_ids, Hs.
Qed.

Lemma scrapeEpisode_skip (now currentTime : Z) (streams : list Stream.t)
    (item : WatchlistItem.t) (st : DB * bool) (e : TVEpisode.t) (seasonNumber : Z) :
  notYetAired currentTime e = true ->
  scrapeEpisode config now currentTime streams item st (e, seasonNumber) = st.
Proof. intros H. destruct st. unfold scrapeEpisode. now rewrite H. Qed.

Lemma scrapeOneEpisode_skip (fetch : Fetch) (now currentTime : Z) (item : WatchlistItem.t)
    (season : Season.t) (st : DB * bool * bool) (e : TVEpisode.t) :
  notYetAired currentTime e = true ->
  scrapeOneEpisode config fetch now currentTime item season st e = st.
Proof. intros H. destruct st as [[? ?] ?]. unfold scrapeOneEpisode. now rewrite H. Qed.

Lemma scrapeEpisode_kept (now : Z) (streams : list Stream.t) (item : WatchlistItem.t)
    (e : TVEpisode.t) (db0 : DB) (episodes : list (TVEpisode.t * Z)) (st : DB * bool) :
  (forall ep n, In (ep, n) episodes -> notYetAired now ep = false ->
                TVEpisode.ID ep <> TVEpisode.ID e) ->
  kept e db0 (fst st) ->
  kept e db0 (fst (fold_left (scrapeEpisode config now now streams item) episodes st)).
Proof.
  revert st. induction episodes as [|[ep n] episodes IH]; intros st Hdiff Hk; [exact Hk|].
  simpl. apply IH; [intros ep' n' H; apply (Hdiff ep' n'); now right|].
  destruct st as [db found]. unfold scrapeEpisode.
  destruct (notYetAired now ep) eqn:Ha; [exact Hk|].
  destruct (TVEpisode.Scraped ep); [exact Hk|].
  destruct (sortSlice higherScore _); [exact Hk|]. simpl.
  apply saveForEpisode_kept; [|exact Hk]. apply (Hdiff ep n); [now left|exact Ha].
Qed.

Lemma scrapeOneEpisode_kept (fetch : Fetch) (now : Z) (item : WatchlistItem.t)
    (season : Season.t) (e : TVEpisode.t) (db0 : DB) (episodes : list TVEpisode.t)
    (st : DB * bool * bool) :
  (forall ep, In ep episodes -> notYetAired now ep = false ->
              TVEpisode.ID ep <> TVEpisode.ID e) ->
  kept e db0 (fst (fst st)) ->
  kept e db0
    (fst (fst (fold_left (scrapeOneEpisode config fetch now now item season) episodes st))).
Proof.
  revert st. induction episodes as [|ep episodes IH]; intros st Hdiff Hk; [exact Hk|].
  simpl. apply IH; [intros ep' H; apply Hdiff; now right|].
  destruct st as [[db found] lastErr]. unfold scrapeOneEpisode.
  destruct (notYetAired now ep) eqn:Ha; [exact Hk|].
  destruct (TVEpisode.Scraped ep); [exact Hk|].
  destruct (searchTorrentio config fetch item _); [exact Hk|].
  destruct (sortSlice higherScore _); [exact Hk|]. simpl.
  apply saveForEpisode_kept; [|exact Hk]. apply (Hdiff ep); [now left|exact Ha].
Qed.

Lemma allEpisodes_rows (db : DB) (item : WatchlistItem.t) (ep : TVEpisode.t) (n : Z) :
  In (ep, n) (allEpisodes db item) -> In ep (tv_episodes db).
Proof.
  unfold allEpisodes. intros H.
  apply in_concat in H. destruct H as (l & Hl & Hin).
  apply in_map_iff in Hl. destruct Hl as (season & <- & _).
  apply in_map_iff in Hin. destruct Hin as (ep' & [= -> _] & Hin).
  unfold GetEpisodesForSeason in Hin. apply sortSlice_In, filter_In in Hin. tauto.
Qed.

Lemma unique_id (db : DB) (a b : TVEpisode.t) :
  List.NoDup (List.map TVEpisode.ID (tv_episodes db)) ->
  In a (tv_episodes db) -> In b (tv_episodes db) ->
  TVEpisode.ID a = TVEpisode.ID b -> a = b.
Proof.
  induction (tv_episodes db) as [|x l IH]; simpl; intros Hnd Ha Hb Hid; [easy|].
  apply List.NoDup_cons_iff in Hnd. destruct Hnd as [Hx Hnd].
  destruct Ha as [->|Ha], Hb as [->|Hb]; auto.
  - exfalso. apply Hx. rewrite Hid. now apply in_map.
  - exfalso. apply Hx. rewrite <- Hid. now apply in_map.
Qed.

End Gating.

(** C7.  An episode whose air date is valid and after the time of the
    scrape is skipped by both scrape passes: the body of either loop
    leaves the store and its flags as they are, so no scrape result is
    created on its behalf, and after [scrapeTVShow] and after
    [scrapeIndividualEpisodes] its row is in the table as it was, neither
    marked scraped nor pointed at a result. *)
Theorem C7_unaired_episode_skipped `{lib : GoLib} (config : Config) (fetch : Fetch)
    (now : Z) (item : WatchlistItem.t) (season : Season.t) (db : DB)
    (episodes : list TVEpisode.t) (e : TVEpisode.t) :
  List.NoDup (List.map TVEpisode.ID (tv_episodes db)) ->
  incl episodes (tv_episodes db) ->
  In e (tv_episodes db) ->
  notYetAired now e = true ->
  (forall streams st n, scrapeEpisode config now now streams item st (e, n) = st) /\
  (forall st, scrapeOneEpisode config fetch now now item season st e = st) /\
  kept e db (snd (scrapeTVShow config fetch now item db)) /\
  kept e db (snd (scrapeIndividualEpisodes config fetch now item season episodes db)).
Proof.
  intros Hnd Hincl Hin Hfuture.
  assert (Hdiff : forall ep, In ep (tv_episodes db) -> notYetAired now ep = false ->
                             TVEpisode.ID ep <> TVEpisode.ID e).
  { intros ep Hep Ha Hid. apply (unique_id db ep e Hnd Hep Hin) in Hid. congruence. }
  split; [intros; now apply scrapeEpisode_skip|].
  split; [intros; now apply scrapeOneEpisode_skip|].
  split.
  - unfold scrapeTVShow. destruct (fetch (showURL config item)) as [streams|];
      [|now split].
    pose proof (scrapeEpisode_kept config now streams item e db (allEpisodes db item)
                  (db, false)) as Hk.
    destruct (fold_left _ (allEpisodes db item) (db, false)) as [db' found].
    assert (kept e db db').
    { apply Hk; [|now split]. intros ep n Hep. apply Hdiff.
      now apply allEpisodes_rows in Hep. }
    now destruct found.
  - unfold scrapeIndividualEpisodes.
    pose proof (scrapeOneEpisode_kept config fetch now item season e db episodes
                  (db, false, false)) as Hk.
    destruct (fold_left _ episodes (db, false, false)) as [[db' found] lastErr].
    assert (kept e db db').
    { apply Hk; [|now split]. intros ep Hep. apply Hdiff. now apply Hincl. }
    now destruct (negb found && lastErr).
Qed.

Lemma C7_unaired_episode_skipped_witness :
  let e := Sample.episode 103 3 500 in
  let source := Sample.source Sample.seasonCandidates in
  notYetAired 100 e = true /\
  (forall streams st n,
      scrapeEpisode Sample.config 100 100 streams Sample.series st (e, n) = st) /\
  (forall st,
      scrapeOneEpisode Sample.config source 100 100 Sample.series Sample.season1 st e = st) /\
  kept e Sample.airingDB
    (snd (scrapeTVShow Sample.config source 100 Sample.series Sample.airingDB)) /\
  kept e Sample.airingDB
    (snd (scrapeIndividualEpisodes Sample.config source 100 Sample.series Sample.season1
            (tv_episodes Sample.airingDB) Sample.airingDB)).
Proof.
  intros e source. split; [reflexivity|].
  apply (C7_unaired_episode_skipped Sample.config source 100 Sample.series Sample.season1
           Sample.airingDB (tv_episodes Sample.airingDB) e).
  - simpl. repeat constructor; simpl; intuition discriminate.
  - intros x Hx. exact Hx.
  - simpl. right. right. left. reflexivity.
  - reflexivity.
Defined.

(** ** Downloading a movie *)

Section DownloadFacts.
Context (debrid : Debrid) (now : Z).

Lemma appends_ret {A} (a : A) : appends (ret a).
Proof. intros w. exists []. simpl. now rewrite app_nil_r. Qed.

Lemma appends_fail {A} (e : error) : appends (@fail A e).
Proof. intros w. exists []. simpl. now rewrite app_nil_r. Qed.

Lemma appends_bind {A B} (c : M A) (k : A -> M B) :
  appends c -> (forall a, appends (k a)) -> appends (bind c k).
Proof.
  intros Hc Hk w. unfold bind. destruct (Hc w) as [m1 E1].
  destruct (c w) as [[e|a] w1]; simpl in *.
  - now exists m1.
  - destruct (Hk a w1) as [m2 E2]. exists (m1 ++ m2)%list.
    now rewrite E2, E1, app_assoc.
Qed.

Lemma appends_try {A} (c : M A) : appends c -> appends (try c).
Proof.
  intros Hc w. unfold try. destruct (Hc w) as [m E]. destruct (c w). now exists m.
Qed.

Lemma appends_request (req : Request) : appends (request debrid req).
Proof. intros w. now exists [req]. Qed.

Lemma appends_exec (f : DB -> DB) : appends (exec f).
Proof. intros w. exists []. simpl. now rewrite app_nil_r. Qed.

Ltac solve_appends :=
  repeat first
    [ apply appends_ret | apply appends_fail | apply appends_request
    | apply appends_exec | apply appends_try
    | apply appends_bind; [|intros ?]
    | match goal with |- appends (match ?x with _ => _ end) => destruct x end
    | match goal with |- appends (if ?x then _ else _) => destruct x end ].

Lemma appends_updateDownloadStatus (r : ScrapeResult.t) (status : string) :
  appends (updateDownloadStatus now r status).
Proof. unfold updateDownloadStatus. solve_appends. Qed.

Lemma appends_getDownloadLink (torrentID : string) (r : ScrapeResult.t) :
  appends (getDownloadLink debrid now torrentID r).
Proof. unfold getDownloadLink, removeTorrent. solve_appends. Qed.

Lemma appends_waitLoop (n : nat) (torrentID : string) (r : ScrapeResult.t) :
  appends (waitLoop debrid now n torrentID r).
Proof.
  induction n as [|n IH]; simpl; [apply appends_fail|].
  apply appends_bind.
  - apply appends_try. unfold checkDownloadStatus. apply appends_bind;
      [apply appends_request|intros resp].
    destruct resp; try apply appends_fail.
    destruct (fle 100 progress); [apply appends_updateDownloadStatus|apply appends_fail].
  - intros [e|r']; [exact IH|apply appends_ret].
Qed.

Lemma better_picked (seen : list ScrapeResult.t) (st : option ScrapeResult.t * Z)
    (r : ScrapeResult.t) :
  picked seen st -> picked (seen ++ [r]) (better st r).
Proof.
  destruct st as [b sc]. intros (Hpos & Hb & Hmax). unfold better, picked. simpl in *.
  destruct (String.eqb _ "scraped") eqn:Es; simpl;
    [destruct (NullInt32.Valid _) eqn:Ev; simpl;
     [destruct (_ >? sc) eqn:Eg; simpl|]|].
  - apply Z.gtb_lt in Eg. split; [lia|]. split.
    + split; [apply in_or_app; right; now left|]. split; [|reflexivity].
      unfold eligible. rewrite Es, Ev. simpl. apply Z.gtb_lt. lia.
    + intros r' Hr' He. apply in_app_or in Hr'. destruct Hr' as [Hr'|[<-|[]]].
      * specialize (Hmax r' Hr' He). unfold score in *. lia.
      * unfold score. lia.
  - split; [exact Hpos|]. split.
    + destruct b as [best|]; [|exact Hb].
      destruct Hb as (Hin & He & Hs). repeat split; auto. apply in_or_app. now left.
    + intros r' Hr' He. apply in_app_or in Hr'. destruct Hr' as [Hr'|[<-|[]]]; [auto|].
      rewrite Z.gtb_ltb in Eg. apply Z.ltb_ge in Eg. exact Eg.
  - split; [exact Hpos|]. split.
    + destruct b as [best|]; [|exact Hb].
      destruct Hb as (Hin & He & Hs). repeat split; auto. apply in_or_app. now left.
    + intros r' Hr' He. apply in_app_or in Hr'. destruct Hr' as [Hr'|[<-|[]]]; [auto|].
      unfold eligible in He. rewrite Es, Ev in He. discriminate.
  - split; [exact Hpos|]. split.
    + destruct b as [best|]; [|exact Hb].
      destruct Hb as (Hin & He & Hs). repeat split; auto. apply in_or_app. now left.
    + intros r' Hr' He. apply in_app_or in Hr'. destruct Hr' as [Hr'|[<-|[]]]; [auto|].
      unfold eligible in He. rewrite Es in He. discriminate.
Qed.

Lemma fold_better_picked (l seen : list ScrapeResult.t) (st : option ScrapeResult.t * Z) :
  picked seen st -> picked (seen ++ l) (fold_left better l st).
Proof.
  revert seen st. induction l as [|r l IH]; intros seen st H; simpl.
  - now rewrite app_nil_r.
  - replace (seen ++ r :: l)%list with ((seen ++ [r]) ++ l)%list
      by now rewrite <- app_assoc.
    apply IH. now apply better_picked.
Qed.

Lemma bestResult_picked (l : list ScrapeResult.t) : picked l (bestResult l).
Proof.
  apply (fold_better_picked l [] (None, 0)). unfold picked. simpl.
  split; [lia|]. split; [reflexivity|]. intros r [].
Qed.

End DownloadFacts.

(** C10.  For an item that is not a series, [Download] looks only at the
    results in status "scraped" with a valid score above zero.  When there
    is none, in particular when every candidate scores 0, it returns an
    error having sent nothing to the debrid service and changed nothing in
    the store.  When there is one, the result it picks is such a result
    with the highest score among them, and the first request it sends
    adds the magnet of that result. *)
Theorem C10_movie_download_selection (debrid : Debrid) (now : Z) (item : WatchlistItem.t)
    (w : World.t) :
  statusIs "tv" (WatchlistItem.MediaType item) = false ->
  let results := GetScrapeResultsForItem (World.db w) (WatchlistItem.ID item) in
  ((forall r, In r results -> eligible r = false) ->
   exists e, Download debrid now item w = (inl e, w)) /\
  ((exists r, In r results /\ eligible r = true) ->
   exists best more,
     fst (bestResult results) = Some best /\
     In best results /\ eligible best = true /\
     (forall r, In r results -> eligible r = true -> score r <= score best) /\
     World.calls (snd (Download debrid now item w))
       = (World.calls w ++
          AddMagnet (NullString.String (ScrapeResult.InfoHash best)) :: more)%list).
Proof.
  intros Hmovie results.
  pose proof (bestResult_picked results) as (Hpos & Hbest & Hmax).
  split.
  - intros Hnone. unfold Download, bind, query. fold results.
    destruct results as [|r0 rs] eqn:Er; [now eexists|]. rewrite Hmovie.
    destruct (bestResult (r0 :: rs)) as [[best|] sc]; simpl in *.
    + destruct Hbest as (Hin & He & _). rewrite (Hnone best Hin) in He. discriminate.
    + subst sc. simpl. now eexists.
  - intros (r & Hr & He).
    destruct (bestResult results) as [[best|] sc] eqn:Eb; simpl in *.
    + destruct Hbest as (Hin & Hel & Hs).
      assert (Hsc : (sc =? 0) = false).
      { apply Z.eqb_neq. specialize (Hmax r Hr He). unfold eligible in He.
        apply andb_prop in He. destruct He as [_ He]. apply Z.gtb_lt in He.
        unfold score in Hmax. lia. }
      assert (Hcalls : exists more,
                 World.calls (snd (Download debrid now item w))
                 = (World.calls w ++
                    AddMagnet (NullString.String (ScrapeResult.InfoHash best)) :: more)%list).
      { unfold Download, bind at 1, query. fold results.
        destruct results as [|r0 rs] eqn:Er; [easy|]. rewrite Hmovie, Eb, Hsc.
        unfold addTorrent, bind at 1 2, request. simpl.
        destruct (debrid (World.calls w) _) as [| |id|]; simpl;
          try (exists []; reflexivity).
        match goal with
        | |- context [snd (?c ?w1)] =>
            assert (Ha : appends c); [|destruct (Ha w1) as [more Hm]]
        end.
        { apply appends_bind; [unfold selectFiles|intros _].
          { apply appends_bind; [apply appends_request|intros resp].
            destruct resp; first [apply appends_ret|apply appends_fail]. }
          apply appends_bind; [apply appends_getDownloadLink|intros _].
          apply appends_bind; [apply appends_updateDownloadStatus|intros ?].
          apply appends_bind; [apply appends_waitLoop|intros _].
          apply appends_exec. }
        exists more. rewrite Hm. simpl. now rewrite <- app_assoc. }
      destruct Hcalls as [more Hcalls].
      exists best, more. subst sc. repeat split; auto.
    + subst sc. specialize (Hmax r Hr He). unfold eligible in He.
      apply andb_prop in He. destruct He as [_ He]. apply Z.gtb_lt in He.
      unfold score in Hmax. lia.
Qed.

Lemma C10_movie_download_selection_witness :
  (exists e, Download Sample.refusing 100 Sample.movie (Sample.world Sample.zeroScores)
             = (inl e, Sample.world Sample.zeroScores)) /\
  (exists best more,
     let results := GetScrapeResultsForItem Sample.scoredResults 1 in
     fst (bestResult results) = Some best /\
     In best results /\ eligible best = true /\
     (forall r, In r results -> eligible r = true -> score r <= score best) /\
     World.calls (snd (Download Sample.refusing 100 Sample.movie
                         (Sample.world Sample.scoredResults)))
       = ([] ++ AddMagnet (NullString.String (ScrapeResult.InfoHash best)) :: more)%list).
Proof.
  split.
  - destruct (C10_movie_download_selection Sample.refusing 100 Sample.movie
                (Sample.world Sample.zeroScores) eq_refl) as [Hnone _].
    apply Hnone. intros r Hr. vm_compute in Hr.
    destruct Hr as [<-|[<-|[]]]; reflexivity.
  - destruct (C10_movie_download_selection Sample.refusing 100 Sample.movie
                (Sample.world Sample.scoredResults) eq_refl) as [_ Hsome].
    apply Hsome. exists (Sample.result 2 900 "hashB" "scraped").
    split; [vm_compute; right; left; reflexivity|reflexivity].
Defined.

(** ** The daily rescan *)

Section Rescan.
Context (now : Z).

Lemma rescan_fold (items : list WatchlistItem.t) (db : DB) :
  fold_left (fun db item => UpdateWatchlistItem now db (rescanned now item)) items db
    = withItems db (List.map (rewritten now items) (watchlistitem db)).
Proof.
  revert db. induction items as [|item items IH]; intros db; simpl.
  - unfold rewritten; simpl. rewrite List.map_id. now destruct db.
  - rewrite IH. unfold UpdateWatchlistItem, withItems; simpl.
    f_equal. now rewrite List.map_map.
Qed.

Lemma rewritten_id (items : list WatchlistItem.t) (row : WatchlistItem.t) :
  WatchlistItem.ID (rewritten now items row) = WatchlistItem.ID row.
Proof.
  revert row. induction items as [|item items IH]; intros row; [reflexivity|].
  unfold rewritten in *; simpl. rewrite IH.
  now destruct (WatchlistItem.ID row =? WatchlistItem.ID item).
Qed.

Lemma rewritten_restarted (items : list WatchlistItem.t) (row : WatchlistItem.t) :
  restarted row -> restarted (rewritten now items row).
Proof.
  revert row. induction items as [|item items IH]; intros row H; [exact H|].
  unfold rewritten in *; simpl. apply IH.
  destruct (WatchlistItem.ID row =? WatchlistItem.ID item); [now split|exact H].
Qed.

Lemma rewritten_spec (items : list WatchlistItem.t) (row : WatchlistItem.t) :
  if existsb (fun w => WatchlistItem.ID w =? WatchlistItem.ID row) items
  then restarted (rewritten now items row)
  else rewritten now items row = row.
Proof.
  revert row. induction items as [|item items IH]; intros row; [reflexivity|].
  simpl. rewrite (Z.eqb_sym (WatchlistItem.ID item)).
  unfold rewritten; simpl.
  destruct (WatchlistItem.ID row =? WatchlistItem.ID item) eqn:E; simpl.
  - apply rewritten_restarted. now split.
  - apply IH.
Qed.

End Rescan.

(** C6, as the code has it.  [checkForNewEpisodes] sends every returning
    series that has an aired, unscraped episode back to the start of the
    pipeline: each row of [watchlistitem] with the id of such an item gets
    status "new" and current step "indexing_pending", every other row is
    left as it is, and no row of [seasons], [tv_episodes] or
    [scrape_results] is written. *)
Theorem C6_rescan_restarts_item (now today : Z) (db : DB) :
  let db' := checkForNewEpisodes now today db in
  seasons db' = seasons db /\
  tv_episodes db' = tv_episodes db /\
  scrape_results db' = scrape_results db /\
  forall i row,
    nth_error (watchlistitem db) i = Some row ->
    exists row',
      nth_error (watchlistitem db') i = Some row' /\
      WatchlistItem.ID row' = WatchlistItem.ID row /\
      if rescans db today (WatchlistItem.ID row)
      then stage row' = ("new", "indexing_pending")
      else row' = row.
Proof.
  unfold checkForNewEpisodes. rewrite rescan_fold. simpl.
  repeat split; try reflexivity.
  intros i row Hrow.
  exists (rewritten now (GetReturningSeriesWithUnscrapedEpisodes db today) row).
  split; [now apply map_nth_error|]. split; [apply rewritten_id|].
  pose proof (rewritten_spec now (GetReturningSeriesWithUnscrapedEpisodes db today) row) as H.
  unfold rescans. destruct (existsb _ _); [|exact H].
  destruct H as [Hs Hc]. unfold stage. now rewrite Hs, Hc.
Qed.

(** C6 as stated fails: the rescan does not leave the stage of the item
    unchanged.  A returning series at status "downloaded", step
    "symlink_pending", with one aired, unscraped episode is picked by the
    rescan and comes out at status "new", step "indexing_pending"; its
    episodes are as before. *)
Lemma C6_rescan_changes_stage :
  let db' := checkForNewEpisodes 100 100 Sample.returningDB in
  rescans Sample.returningDB 100 3 = true /\
  List.map stage (watchlistitem Sample.returningDB)
    = [("new", "scrape_pending"); ("downloaded", "symlink_pending")] /\
  List.map stage (watchlistitem db')
    = [("new", "scrape_pending"); ("new", "indexing_pending")] /\
  List.map stage (watchlistitem db') <> List.map stage (watchlistitem Sample.returningDB) /\
  tv_episodes db' = tv_episodes Sample.returningDB.
Proof.
  vm_compute. repeat split; try reflexivity. discriminate.
Qed.

(** ** Retries *)

Section RetryFacts.
Context (config : Config) (now : Z).

Lemma find_map_id (f : WatchlistItem.t -> WatchlistItem.t) (l : list WatchlistItem.t)
    (id : Z) :
  (forall w, WatchlistItem.ID (f w) = WatchlistItem.ID w) ->
  List.find (fun w => WatchlistItem.ID w =? id) (List.map f l)
    = option_map f (List.find (fun w => WatchlistItem.ID w =? id) l).
Proof.
  intros Hf. induction l as [|w l IH]; simpl; [reflexivity|].
  rewrite Hf. now destruct (WatchlistItem.ID w =? id).
Qed.

(** The status of an item after [updateStatusFailed] or [updateStatusNew]
    of the item [j]. *)
Lemma itemStatus_updateStatus (status : string) (db : DB) (j i : Z) :
  itemStatus (updateStatus now status db j) i
    = if i =? j then option_map (fun _ => status) (itemStatus db i)
      else itemStatus db i.
Proof.
  unfold updateStatus, itemStatus, GetWatchlistItemByID.
  destruct (List.find (fun w => WatchlistItem.ID w =? j) (watchlistitem db))
    as [item|] eqn:Ej.
  - pose proof (List.find_some _ _ Ej) as [_ Hid]. apply Z.eqb_eq in Hid.
    unfold UpdateWatchlistItem; simpl.
    rewrite find_map_id
      by (intros w; now destruct (WatchlistItem.ID w =? _)).
    destruct (i =? j) eqn:Eij.
    + apply Z.eqb_eq in Eij; subst i. rewrite Ej. simpl. now rewrite Hid, Z.eqb_refl.
    + destruct (List.find (fun w => WatchlistItem.ID w =? i) (watchlistitem db))
        as [w|] eqn:Ei; [|reflexivity].
      pose proof (List.find_some _ _ Ei) as [_ Hw]. apply Z.eqb_eq in Hw. simpl.
      replace (WatchlistItem.ID w =? WatchlistItem.ID item) with false; [reflexivity|].
      symmetry. apply Z.eqb_neq. apply Z.eqb_neq in Eij. congruence.
  - destruct (i =? j) eqn:Eij; [|reflexivity].
    apply Z.eqb_eq in Eij; subst i. simpl in *. now rewrite Ej.
Qed.

Lemma retries_insert (m : gmap Z Z) (j i v : Z) :
  default 0 (<[j := v]> m !! i) = if i =? j then v else default 0 (m !! i).
Proof.
  destruct (i =? j) eqn:E.
  - apply Z.eqb_eq in E; subst. now rewrite lookup_insert_eq.
  - apply Z.eqb_neq in E. now rewrite lookup_insert_ne.
Qed.

Lemma retries_delete (m : gmap Z Z) (j i : Z) :
  default 0 (delete j m !! i) = if i =? j then 0 else default 0 (m !! i).
Proof.
  destruct (i =? j) eqn:E.
  - apply Z.eqb_eq in E; subst. now rewrite lookup_delete_eq.
  - apply Z.eqb_neq in E. now rewrite lookup_delete_ne.
Qed.

Lemma addInt_succ (n : Z) : - 2 ^ 63 <= n < 2 ^ 63 - 1 -> addInt n 1 = n + 1.
Proof.
  intros H. unfold addInt, wrap64.
  rewrite Z.mod_small; lia.
Qed.

End RetryFacts.

(** C3, as the code has it.  A move of the processor is a handled failure
    of an item [j] or the waking of a reset that was asleep for [j].

    A handled failure raises the retry count of [j] by one, on [int].  It
    sets the status of [j] to "failed" exactly when the raised count is at
    least the maximum of [getMaxRetries] (the maximum is reached, not
    exceeded); exactly then [handleRetry] answers that the item is not to
    be retried and leaves one more reset of [j] asleep, and that reset can
    wake with no other move in between, which puts the count of [j] back
    to zero and its status to "new".

    The waking of a reset removes the count of [j] and sets its status to
    "new".  No move changes the count or the status of another item, and
    the count of an item below the largest [int] decreases in no move but
    the waking of a reset that was asleep for it.  The maximum is the
    configured default, or 3 when that is not positive. *)
Theorem C3_retry_discipline (config : Config) (now : Z) (bp bp' : BaseProcessor.t) :
  step config now bp bp' ->
  (let default := DefaultMaxRetries (ProcessManagement config) in
   (0 < default -> getMaxRetries config = default) /\
   (default <= 0 -> getMaxRetries config = 3))
  /\
  ((exists j,
      let count := addInt (retries bp j) 1 in
      let failed := count >=? getMaxRetries config in
      let awake := wake now bp' j in
      fst (handleRetry config now bp j) = negb failed /\
      retries bp' j = count /\
      itemStatus (BaseProcessor.db bp') j
      = (if failed
         then option_map (fun _ => "failed") (itemStatus (BaseProcessor.db bp) j)
         else itemStatus (BaseProcessor.db bp) j) /\
      BaseProcessor.pending bp'
      = (if failed then BaseProcessor.pending bp ++ [j] else BaseProcessor.pending bp)%list /\
      (forall i, i <> j ->
                 retries bp' i = retries bp i /\
                 itemStatus (BaseProcessor.db bp') i = itemStatus (BaseProcessor.db bp) i) /\
      (failed = true ->
       step config now bp' awake /\
       retries awake j = 0 /\
       itemStatus (BaseProcessor.db awake) j
       = option_map (fun _ => "new") (itemStatus (BaseProcessor.db bp) j)))
   \/
   (exists j,
      In j (BaseProcessor.pending bp) /\
      retries bp' j = 0 /\
      itemStatus (BaseProcessor.db bp') j
      = option_map (fun _ => "new") (itemStatus (BaseProcessor.db bp) j) /\
      BaseProcessor.pending bp' = woken j (BaseProcessor.pending bp) /\
      (forall i, i <> j ->
                 retries bp' i = retries bp i /\
                 itemStatus (BaseProcessor.db bp') i = itemStatus (BaseProcessor.db bp) i)))
  /\
  (forall i, 0 <= retries bp i < 2 ^ 63 - 1 ->
             retries bp i <= retries bp' i \/
             (In i (BaseProcessor.pending bp) /\ retries bp' i = 0)).
Proof.
  intros Hstep. split.
  { cbv zeta. unfold getMaxRetries.
    destruct (Z.gtb_spec (DefaultMaxRetries (ProcessManagement config)) 0); lia. }
  destruct Hstep as [bp j|bp j Hpending].
  - assert (Hcount : forall i,
      retries (snd (handleRetry config now bp j)) i
      = if i =? j then addInt (retries bp j) 1 else retries bp i).
    { intros i. unfold handleRetry.
      destruct (addInt (retries bp j) 1 >=? getMaxRetries config);
        unfold retries; cbn [snd BaseProcessor.retryCount]; apply retries_insert. }
    assert (Hstatus : forall i,
      itemStatus (BaseProcessor.db (snd (handleRetry config now bp j))) i
      = if (i =? j) && (addInt (retries bp j) 1 >=? getMaxRetries config)
        then option_map (fun _ => "failed") (itemStatus (BaseProcessor.db bp) i)
        else itemStatus (BaseProcessor.db bp) i).
    { intros i. unfold handleRetry.
      destruct (addInt (retries bp j) 1 >=? getMaxRetries config);
        cbn [snd BaseProcessor.db].
      - rewrite itemStatus_updateStatus. now destruct (i =? j).
      - now rewrite andb_false_r. }
    assert (Hpending :
      BaseProcessor.pending (snd (handleRetry config now bp j))
      = (if addInt (retries bp j) 1 >=? getMaxRetries config
         then BaseProcessor.pending bp ++ [j] else BaseProcessor.pending bp)%list).
    { unfold handleRetry.
      now destruct (addInt (retries bp j) 1 >=? getMaxRetries config). }
    split.
    + left. exists j. cbv zeta.
      split; [unfold handleRetry;
              now destruct (addInt (retries bp j) 1 >=? getMaxRetries config)|].
      split; [now rewrite Hcount, Z.eqb_refl|].
      split; [now rewrite Hstatus, Z.eqb_refl|].
      split; [exact Hpending|].
      split.
      * intros i Hij. apply Z.eqb_neq in Hij. now rewrite Hcount, Hstatus, Hij.
      * intros Hfailed. split; [|split].
        -- apply step_reset. rewrite Hpending, Hfailed. apply in_or_app. right. now left.
        -- unfold wake, retryReset, retries. cbn [BaseProcessor.retryCount].
           now rewrite retries_delete, Z.eqb_refl.
        -- unfold wake, retryReset. cbn [BaseProcessor.db].
           rewrite itemStatus_updateStatus, Z.eqb_refl, Hstatus, Z.eqb_refl, Hfailed.
           cbn [andb]. now destruct (itemStatus (BaseProcessor.db bp) j).
    + intros i Hrange. left. rewrite Hcount. destruct (i =? j) eqn:Eij; [|lia].
      apply Z.eqb_eq in Eij; subst i. rewrite addInt_succ; lia.
  - assert (Hcount : forall i,
      retries (wake now bp j) i = if i =? j then 0 else retries bp i).
    { intros i. unfold wake, retryReset, retries. cbn [BaseProcessor.retryCount].
      apply retries_delete. }
    assert (Hstatus : forall i,
      itemStatus (BaseProcessor.db (wake now bp j)) i
      = if i =? j then option_map (fun _ => "new") (itemStatus (BaseProcessor.db bp) i)
        else itemStatus (BaseProcessor.db bp) i).
    { intros i. unfold wake, retryReset. cbn [BaseProcessor.db].
      apply itemStatus_updateStatus. }
    split.
    + right. exists j.
      split; [exact Hpending|].
      split; [now rewrite Hcount, Z.eqb_refl|].
      split; [now rewrite Hstatus, Z.eqb_refl|].
      split; [reflexivity|].
      intros i Hij. apply Z.eqb_neq in Hij. now rewrite Hcount, Hstatus, Hij.
    + intros i Hrange. rewrite Hcount. destruct (i =? j) eqn:Eij; [|left; lia].
      apply Z.eqb_eq in Eij; subst i. right. split; [exact Hpending|reflexivity].
Qed.

Lemma C3_retry_discipline_witness :
  (let default := DefaultMaxRetries (ProcessManagement Sample.config) in
   (0 < default -> getMaxRetries Sample.config = default) /\
   (default <= 0 -> getMaxRetries Sample.config = 3))
  /\
  ((exists j,
      let count := addInt (retries Sample.failedTwice j) 1 in
      let failed := count >=? getMaxRetries Sample.config in
      let awake := wake 100 Sample.failedThrice j in
      fst (handleRetry Sample.config 100 Sample.failedTwice j) = negb failed /\
      retries Sample.failedThrice j = count /\
      itemStatus (BaseProcessor.db Sample.failedThrice) j
      = (if failed
         then option_map (fun _ => "failed")
                (itemStatus (BaseProcessor.db Sample.failedTwice) j)
         else itemStatus (BaseProcessor.db Sample.failedTwice) j) /\
      BaseProcessor.pending Sample.failedThrice
      = (if failed then BaseProcessor.pending Sample.failedTwice ++ [j]
         else BaseProcessor.pending Sample.failedTwice)%list /\
      (forall i, i <> j ->
                 retries Sample.failedThrice i = retries Sample.failedTwice i /\
                 itemStatus (BaseProcessor.db Sample.failedThrice) i
                 = itemStatus (BaseProcessor.db Sample.failedTwice) i) /\
      (failed = true ->
       step Sample.config 100 Sample.failedThrice awake /\
       retries awake j = 0 /\
       itemStatus (BaseProcessor.db awake) j
       = option_map (fun _ => "new")
           (itemStatus (BaseProcessor.db Sample.failedTwice) j)))
   \/
   (exists j,
      In j (BaseProcessor.pending Sample.failedTwice) /\
      retries Sample.failedThrice j = 0 /\
      itemStatus (BaseProcessor.db Sample.failedThrice) j
      = option_map (fun _ => "new") (itemStatus (BaseProcessor.db Sample.failedTwice) j) /\
      BaseProcessor.pending Sample.failedThrice
      = woken j (BaseProcessor.pending Sample.failedTwice) /\
      (forall i, i <> j ->
                 retries Sample.failedThrice i = retries Sample.failedTwice i /\
                 itemStatus (BaseProcessor.db Sample.failedThrice) i
                 = itemStatus (BaseProcessor.db Sample.failedTwice) i)))
  /\
  (forall i, 0 <= retries Sample.failedTwice i < 2 ^ 63 - 1 ->
             retries Sample.failedTwice i <= retries Sample.failedThrice i \/
             (In i (BaseProcessor.pending Sample.failedTwice) /\
              retries Sample.failedThrice i = 0)).
Proof.
  apply (C3_retry_discipline Sample.config 100 Sample.failedTwice Sample.failedThrice).
  exact (step_retry Sample.config 100 Sample.failedTwice 1).
Defined.

(** C3 as stated fails on three counts.  With a maximum of 3 retries the
    third failure of an item fails it while its retry count is 3, which
    does not exceed the maximum; the reset left asleep by that failure
    then wakes without any outside action and puts the item back to
    status "new"; and that same reset takes the retry count from 3 down
    to 0 although no stage has succeeded. *)
Lemma C3_failed_at_max_then_reset_by_itself :
  let woken := wake 100 Sample.failedThrice 1 in
  getMaxRetries Sample.config = 3 /\
  fst (handleRetry Sample.config 100 Sample.failedTwice 1) = false /\
  itemStatus (BaseProcessor.db Sample.failedTwice) 1 = Some "new" /\
  itemStatus (BaseProcessor.db Sample.failedThrice) 1 = Some "failed" /\
  retries Sample.failedThrice 1 = 3 /\
  ~ retries Sample.failedThrice 1 > getMaxRetries Sample.config /\
  step Sample.config 100 Sample.failedThrice woken /\
  itemStatus (BaseProcessor.db woken) 1 = Some "new" /\
  retries woken 1 = 0 /\
  retries woken 1 < retries Sample.failedThrice 1.
Proof.
  intros woken.
  assert (Hstep : step Sample.config 100 Sample.failedThrice woken).
  { apply step_reset. vm_compute. left. reflexivity. }
  assert (Hrest :
    getMaxRetries Sample.config = 3 /\
    fst (handleRetry Sample.config 100 Sample.failedTwice 1) = false /\
    itemStatus (BaseProcessor.db Sample.failedTwice) 1 = Some "new" /\
    itemStatus (BaseProcessor.db Sample.failedThrice) 1 = Some "failed" /\
    retries Sample.failedThrice 1 = 3 /\
    itemStatus (BaseProcessor.db woken) 1 = Some "new" /\
    retries woken 1 = 0).
  { vm_compute. repeat split; reflexivity. }
  destruct Hrest as (H1 & H2 & H3 & H4 & H5 & H6 & H7).
  repeat (split; [assumption|]).
  split; [rewrite H5, H1; lia|].
  repeat (split; [assumption|]).
  rewrite H7, H5. lia.
Qed.

(** ** Size tiers *)

Section TierFacts.
Context {lib : GoLib} (config : Config).

Lemma closestFrom_shift (maxSize : Float64.t) (i found : nat) (l : list Stream.t) :
  closestFrom maxSize (S i) found l = List.map S (closestFrom maxSize i found l).
Proof.
  revert i found. induction l as [|s l IH]; intros i found; simpl; [reflexivity|].
  destruct (Float64.le (Float64.Finite (sizeGB s)) maxSize); [|apply IH].
  simpl. f_equal. destruct (found =? 2)%nat; [reflexivity|apply IH].
Qed.

Lemma assignFrom_shift (found : nat) (closest : list nat) (s : Stream.t)
    (l : list Stream.t) :
  assignFrom config found (List.map S closest) (s :: l)
    = s :: assignFrom config found closest l.
Proof.
  revert found l. induction closest as [|i closest IH]; intros found l; [reflexivity|].
  simpl. unfold setSizeScore at 1. simpl. apply IH.
Qed.

Lemma assignSizeScores_assignFrom (closest : list nat) (l : list Stream.t) :
  (length closest <= 3)%nat ->
  assignSizeScores config closest l = assignFrom config 0 closest l.
Proof.
  intros H. destruct closest as [|a [|b [|c [|d closest]]]]; try reflexivity.
  simpl in H. lia.
Qed.

Lemma closestFrom_length (maxSize : Float64.t) (i found : nat) (l : list Stream.t) :
  (found < 3)%nat -> (length (closestFrom maxSize i found l) <= 3 - found)%nat.
Proof.
  revert i found. induction l as [|s l IH]; intros i found H; simpl; [lia|].
  destruct (Float64.le (Float64.Finite (sizeGB s)) maxSize); [|now apply IH].
  simpl. destruct (found =? 2)%nat eqn:E; simpl; [lia|].
  apply Nat.eqb_neq in E. specialize (IH (S i) (S found)). lia.
Qed.

Lemma tiered_done (maxSize : Float64.t) (found : nat) (l : list Stream.t) :
  (3 <= found)%nat -> tiered config maxSize found l = List.map (fun _ => 0) l.
Proof.
  revert found. induction l as [|s l IH]; intros found H; simpl; [reflexivity|].
  destruct (Float64.le (Float64.Finite (sizeGB s)) maxSize).
  - rewrite IH by lia. f_equal. unfold tierOf.
    destruct found as [|[|[|found]]]; lia.
  - now rewrite IH.
Qed.

Lemma sizeGB_setSizeScore (v : Z) (s : Stream.t) :
  sizeGB (Stream.withSizeScore v s) = sizeGB s.
Proof. reflexivity. Qed.

(** On a slice whose size scores are all zero the assignments give the
    tiers. *)
Lemma assignFrom_tiered (maxSize : Float64.t) (found : nat) (l : list Stream.t) :
  (found < 3)%nat ->
  Forall (fun s => sizeScore s = 0) l ->
  List.map sizeScore (assignFrom config found (closestFrom maxSize 0 found l) l)
    = tiered config maxSize found l.
Proof.
  revert found. induction l as [|s l IH]; intros found Hf Hz; simpl; [reflexivity|].
  inversion Hz as [|? ? Hs Hl]; subst.
  destruct (Float64.le (Float64.Finite (sizeGB s)) maxSize) eqn:E.
  - simpl.
    destruct (found =? 2)%nat eqn:E3.
    + apply Nat.eqb_eq in E3. simpl. f_equal.
      rewrite tiered_done by lia.
      apply List.map_ext_in. intros x Hx.
      now apply (proj1 (List.Forall_forall _ _) Hl).
    + apply Nat.eqb_neq in E3. rewrite closestFrom_shift, assignFrom_shift. simpl.
      f_equal. apply IH; [lia|exact Hl].
  - rewrite closestFrom_shift, assignFrom_shift. simpl. f_equal; [exact Hs|].
    now apply IH.
Qed.

Lemma sizeScore_rescored (s : Stream.t) : sizeScore (rescored config s) = sizeScore s.
Proof. reflexivity. Qed.

Lemma tiered_ext (maxSize : Float64.t) (found : nat) (l l' : list Stream.t) :
  List.map sizeGB l = List.map sizeGB l' ->
  tiered config maxSize found l = tiered config maxSize found l'.
Proof.
  revert found l'. induction l as [|s l IH]; intros found [|s' l'] H; try discriminate;
    [reflexivity|].
  simpl in *. injection H as Hs Hl. rewrite Hs.
  destruct (Float64.le (Float64.Finite (sizeGB s')) maxSize); f_equal; now apply IH.
Qed.

Lemma tierMaxSize_reset (l : list Stream.t) :
  tierMaxSize config (List.map (Stream.withSizeScore 0) l) = tierMaxSize config l.
Proof. now destruct l. Qed.

(** The size bonuses that [processStreams] assigns: in the order of the
    sizes, largest first, the first three streams at or under the tier
    maximum get the maximum size score, then 80%% and 60%% of it, and
    every other stream gets zero. *)
Lemma sizeScores_tiered (l : list Stream.t) :
  List.map sizeScore (scoredStreams config l)
    = tiered config (tierMaxSize config (bySize config l)) 0 (bySize config l).
Proof.
  unfold scoredStreams.
  rewrite List.map_map, (List.map_ext _ sizeScore sizeScore_rescored).
  rewrite tierMaxSize_reset.
  set (m := tierMaxSize config (bySize config l)).
  rewrite assignSizeScores_assignFrom by (apply (closestFrom_length m 0 0); lia).
  unfold closestStreams. rewrite assignFrom_tiered.
  - apply tiered_ext. rewrite List.map_map. reflexivity.
  - lia.
  - apply List.Forall_forall. intros s Hs. apply in_map_iff in Hs.
    now destruct Hs as (x & <- & _).
Qed.

End TierFacts.

(** C1.  [processStreams] takes the maximum for the size tiers from the
    title of the largest stream, not from the item: for a movie whose
    releases carry "Show" in their titles the tiers are measured against
    the series maximum of 5 GB, so the releases of 9.5, 9 and 8 GB get no
    bonus and the one of 3 GB gets the full bonus, while the same sizes
    under titles without that word get 1000, 800, 600 and 0; the size
    filter of the same run keeps the movie range of 1 to 10 GB. *)
Theorem C1_tier_max_follows_title :
  List.map Sample.sizeAndBonus (scoredStreams Sample.config Sample.trumanShow)
    = [("9.50 GB", 0); ("9.00 GB", 0); ("8.00 GB", 0); ("3.00 GB", 1000)] /\
  List.map Sample.sizeAndBonus (scoredStreams Sample.config Sample.plainTitles)
    = [("9.50 GB", 1000); ("9.00 GB", 800); ("8.00 GB", 600); ("3.00 GB", 0)] /\
  List.map Sample.sizeAndBonus
    (filterStreams Sample.config (scoredStreams Sample.config Sample.trumanShow)
       Sample.movie true false)
    = [("9.50 GB", 0); ("9.00 GB", 0); ("8.00 GB", 0); ("3.00 GB", 1000)].
Proof. vm_compute. repeat split; reflexivity. Qed.

(** ** Season packs *)

Section PackFacts.
Context {lib : GoLib} (config : Config).

(** The first stream that [filterSeasonPackStreams] returns is a pack of
    the season with the highest score of all such packs. *)
Lemma filterSeasonPackStreams_best (streams : list Stream.t)
    (seasonNumber expectedEpisodeCount : Z) (best : Stream.t) (rest : list Stream.t) :
  filterSeasonPackStreams streams seasonNumber expectedEpisodeCount = best :: rest ->
  In best streams /\
  ParsedInfo.Season (Stream.ParsedInfo best) = seasonNumber /\
  ParsedInfo.EpisodeCount (Stream.ParsedInfo best) = expectedEpisodeCount /\
  forall s, In s streams ->
            ParsedInfo.Season (Stream.ParsedInfo s) = seasonNumber ->
            ParsedInfo.EpisodeCount (Stream.ParsedInfo s) = expectedEpisodeCount ->
            Stream.Score s <= Stream.Score best.
Proof.
  unfold filterSeasonPackStreams. intros H.
  apply higherScore_head in H. destruct H as [Hin Hmax].
  apply filter_In in Hin. destruct Hin as [Hin Hp].
  apply andb_prop in Hp. destruct Hp as [Hs He].
  apply Z.eqb_eq in Hs, He. repeat split; auto.
  intros s Hs' Hsn Hec. apply Hmax. apply filter_In. split; [exact Hs'|].
  now rewrite Hsn, Hec, !Z.eqb_refl.
Qed.

Lemma mark_fold (id : Z) (episodes : list TVEpisode.t) (db : DB) :
  fold_left (fun db ep => UpdateTVEpisode db (markScraped ep id)) episodes db
    = withEpisodes db (List.map (marked id episodes) (tv_episodes db)).
Proof.
  revert db. induction episodes as [|ep episodes IH]; intros db; simpl.
  - unfold marked; simpl. rewrite List.map_id. now destruct db.
  - rewrite IH. unfold UpdateTVEpisode, withEpisodes; simpl.
    f_equal. now rewrite List.map_map.
Qed.

Lemma marked_season (id : Z) (episodes : list TVEpisode.t) (row : TVEpisode.t) :
  TVEpisode.SeasonID (marked id episodes row) = TVEpisode.SeasonID row /\
  TVEpisode.ID (marked id episodes row) = TVEpisode.ID row.
Proof.
  revert row. induction episodes as [|ep episodes IH]; intros row; [now split|].
  unfold marked in *; simpl. destruct (IH (if TVEpisode.ID row =? TVEpisode.ID ep
                                           then setEpisode row (markScraped ep id)
                                           else row)) as [H1 H2].
  rewrite H1, H2. now destruct (TVEpisode.ID row =? TVEpisode.ID ep).
Qed.

Lemma marked_pointsAt (id : Z) (episodes : list TVEpisode.t) (row : TVEpisode.t) :
  pointsAt id row -> pointsAt id (marked id episodes row).
Proof.
  revert row. induction episodes as [|ep episodes IH]; intros row H; [exact H|].
  unfold marked in *; simpl. apply IH.
  destruct (TVEpisode.ID row =? TVEpisode.ID ep); [now split|exact H].
Qed.

Lemma marked_hit (id : Z) (episodes : list TVEpisode.t) (row : TVEpisode.t) :
  In row episodes -> pointsAt id (marked id episodes row).
Proof.
  revert row. induction episodes as [|ep episodes IH]; intros row Hin; [destruct Hin|].
  destruct Hin as [->|Hin].
  - unfold marked; simpl. rewrite Z.eqb_refl.
    apply (marked_pointsAt id episodes). now split.
  - unfold marked; simpl.
    destruct (TVEpisode.ID row =? TVEpisode.ID ep) eqn:E.
    + apply (marked_pointsAt id episodes). now split.
    + now apply IH.
Qed.

(** After [processSeasonPack] every episode of the season is marked
    scraped and points at the one result saved for the pack. *)
Lemma processSeasonPack_marks_season (now : Z) (stream : Stream.t)
    (item : WatchlistItem.t) (season : Season.t) (db : DB) :
  let saved := SaveScrapeResult now db (streamResult now item stream "ready_for_download") in
  let db' := snd (processSeasonPack now stream item season db) in
  List.map TVEpisode.ID (tv_episodes db') = List.map TVEpisode.ID (tv_episodes db) /\
  forall row, In row (tv_episodes db') ->
              TVEpisode.SeasonID row = Season.ID season ->
              pointsAt (fst saved) row.
Proof.
  intros saved db'. subst saved db'. unfold processSeasonPack.
  pose proof (SaveScrapeResult_episodes now db
                (streamResult now item stream "ready_for_download")) as Hs.
  destruct (SaveScrapeResult now db (streamResult now item stream "ready_for_download"))
    as [id db1]. simpl in *.
  rewrite mark_fold. simpl. rewrite Hs. split.
  - rewrite List.map_map. apply List.map_ext. intros row. apply marked_season.
  - intros row Hrow Hseason. apply in_map_iff in Hrow.
    destruct Hrow as (row0 & <- & Hrow0).
    rewrite (proj1 (marked_season _ _ _)) in Hseason.
    apply marked_hit. unfold GetEpisodesForSeason. apply sortSlice_In, filter_In.
    rewrite Hs. split; [exact Hrow0|]. now apply Z.eqb_eq.
Qed.

End PackFacts.

(** C2.  [scrapeTVShow] never calls [filterSeasonPackStreams] or
    [processSeasonPack].  For a season of three aired episodes offered one
    season pack, which [filterSeasonPackStreams] recognises and which
    outscores every single-episode release, [Scrape] stores one result per
    episode and the pack is not selected. *)
Theorem C2_season_pack_not_selected :
  let candidates := List.map (parsed Sample.config) Sample.seasonCandidates in
  let db := snd (Scrape Sample.config (Sample.source Sample.seasonCandidates) 100
                   Sample.series Sample.seriesDB) in
  List.map Stream.InfoHash (filterSeasonPackStreams candidates 1 3) = ["pack"] /\
  List.map (fun s => (Stream.InfoHash s, Stream.Score s)) candidates
    = [("pack", 320); ("e1", 210); ("e2", 210); ("e3", 210)] /\
  List.map Sample.hashAndStatus (scrape_results db)
    = [("e1", "scraped"); ("e2", "scraped"); ("e3", "scraped")] /\
  List.map (fun e => (TVEpisode.Scraped e, NullInt32.Int32 (TVEpisode.ScrapeResultID e)))
    (tv_episodes db) = [(true, 1); (true, 2); (true, 3)].
Proof. vm_compute. repeat split; reflexivity. Qed.

(** ** Blacklisted hashes *)

Section ExistingHash.
Context {lib : GoLib} (config : Config).

Lemma scoredStreams_payload (l : list Stream.t) (s : Stream.t) :
  In s (scoredStreams config l) ->
  exists s0, In s0 l /\ Stream.reset s = Stream.reset s0.
Proof.
  intros H. apply (in_map Stream.reset) in H. rewrite reset_scoredStreams in H.
  apply in_map_iff in H. destruct H as (p & Hp & Hin).
  unfold bySize in Hin. apply sortSlice_In, in_map_iff in Hin.
  destruct Hin as (s0 & <- & Hs0). exists s0. split; [exact Hs0|].
  now rewrite <- Hp, reset_parsed.
Qed.

Lemma rankedStreams_scored (l : list Stream.t) (item : WatchlistItem.t) (s : Stream.t) :
  In s (rankedStreams config l item) -> In s (scoredStreams config l).
Proof.
  unfold rankedStreams. intros H. apply sortSlice_In in H.
  destruct (filterStreams config (scoredStreams config l) item true false) eqn:E.
  - now rewrite filterStreams_all in H.
  - rewrite <- E in H. unfold filterStreams in H. now apply filter_In in H.
Qed.

Lemma rankedStreams_nil (l : list Stream.t) (item : WatchlistItem.t) :
  rankedStreams config l item = [] -> l = [].
Proof.
  unfold rankedStreams. intros H. apply sortSlice_nil in H.
  destruct (filterStreams config (scoredStreams config l) item true false) eqn:E;
    [|discriminate].
  rewrite filterStreams_all in H. now apply scoredStreams_nil in H.
Qed.

(** One run of [Scrape] over a decoded response leaves out every stream
    that carries the hash [GetExistingHashForItem] returns: when other
    streams remain, the best match is one of them, and its result is what
    the run saves. *)
Lemma scrapeResponse_leaves_out_existing (now : Z) (streams : list Stream.t)
    (item : WatchlistItem.t) (db : DB) :
  let existingHash := GetExistingHashForItem db (WatchlistItem.ID item) in
  (exists s, In s streams /\ Stream.InfoHash s <> existingHash) ->
  exists bestMatch rest s0 db1,
    rankedStreams config
      (List.filter (fun s => negb (String.eqb (Stream.InfoHash s) existingHash)) streams)
      item = bestMatch :: rest /\
    In s0 streams /\ Stream.reset bestMatch = Stream.reset s0 /\
    Stream.InfoHash bestMatch <> existingHash /\
    scrapeResponse config now streams item db
      = (None, snd (SaveScrapeResult now db1 (bestMatchResult now item bestMatch))).
Proof.
  intros existingHash (s & Hs & Hne).
  set (keptStreams :=
         List.filter (fun s => negb (String.eqb (Stream.InfoHash s) existingHash)) streams).
  assert (Hkept : In s keptStreams).
  { apply filter_In. split; [exact Hs|]. apply negb_true_iff. now apply String.eqb_neq. }
  destruct (rankedStreams config keptStreams item) as [|bestMatch rest] eqn:Er.
  { apply rankedStreams_nil in Er. rewrite Er in Hkept. destruct Hkept. }
  assert (Hb : In bestMatch (rankedStreams config keptStreams item))
    by (rewrite Er; now left).
  apply rankedStreams_scored, scoredStreams_payload in Hb.
  destruct Hb as (s0 & Hs0 & Hreset).
  apply filter_In in Hs0. destruct Hs0 as [Hs0 Hh].
  apply negb_true_iff, String.eqb_neq in Hh.
  exists bestMatch, rest, s0,
    (fold_left (fun db stream =>
         if String.eqb (Stream.InfoHash stream) existingHash
         then UpdateScrapeResultStatus now db (WatchlistItem.ID item) "ignored hash"
         else db) streams db).
  split; [reflexivity|].
  split; [exact Hs0|]. split; [exact Hreset|]. split.
  { replace (Stream.InfoHash bestMatch) with (Stream.InfoHash (Stream.reset bestMatch))
      by now destruct bestMatch.
    rewrite Hreset. now destruct s0. }
  unfold scrapeResponse. fold existingHash. fold keptStreams.
  destruct keptStreams as [|k ks] eqn:Ek; [destruct Hkept|].
  unfold processStreams. rewrite Er.
  now destruct (SaveScrapeResult now _ _).
Qed.

End ExistingHash.

(** C5.  [Scrape] leaves out one hash, the one that
    [GetExistingHashForItem] returns.  Of three releases A, B and C, the
    first run selects A; the download fails; the second run leaves A out
    and selects B; the download fails again; the third run leaves out A
    only and selects B once more, never C.  Were the rows stored in the
    opposite order the third run would leave out B and select A. *)
Theorem C5_second_failed_hash_selected_again :
  let scrape := Scrape Sample.config (Sample.source Sample.threeReleases) 100 Sample.movie in
  let download db := Download Sample.refusing 100 Sample.movie (Sample.world db) in
  let db1 := snd (scrape Sample.movieDB) in
  let db2 := snd (scrape db1) in
  let db3 := snd (scrape db2) in
  List.map Sample.hashAndStatus (scrape_results db1) = [("hashA", "ready_for_download")] /\
  download db1 = (inl "no valid scrape results found for item", Sample.world db1) /\
  List.map Sample.hashAndStatus (scrape_results db2)
    = [("hashA", "ignored hash"); ("hashB", "ready_for_download")] /\
  download db2 = (inl "no valid scrape results found for item", Sample.world db2) /\
  GetExistingHashForItem db2 1 = "hashA" /\
  List.map Sample.hashAndStatus (scrape_results db3)
    = [("hashA", "ignored hash"); ("hashB", "ready_for_download")] /\
  List.map Sample.hashAndStatus (scrape_results (snd (scrape (Sample.reordered db2))))
    = [("hashB", "ignored hash"); ("hashA", "ready_for_download")].
Proof. vm_compute. repeat split; reflexivity. Qed.

(** * Further properties *)

(** ** Language flags *)

Lemma byteZ_byteOfZ (z : Z) : 0 <= z < 256 -> byteZ (byteOfZ z) = z.
Proof.
  intros H. unfold byteZ, byteOfZ.
  rewrite nat_ascii_embedding; lia.
Qed.

Lemma indicatorLetter_upper (r : Z) :
  isRegionalIndicator r = true ->
  exists c, indicatorLetter r = String c EmptyString /\ isUpperLetter c = true.
Proof.
  unfold isRegionalIndicator, indicatorLetter, isUpperLetter. intros H.
  apply andb_prop in H as [H1 H2].
  apply Z.leb_le in H1. apply Z.leb_le in H2.
  eexists. split; [reflexivity|].
  rewrite byteZ_byteOfZ by lia.
  apply andb_true_intro. split; apply Z.leb_le; lia.
Qed.

Lemma parseLanguagesGo_codes (n : nat) (rs : list Z) :
  (length rs <= n)%nat ->
  Forall (fun code => isCountryCode code = true) (parseLanguagesGo rs) /\
  (2 * length (parseLanguagesGo rs) <= length rs)%nat.
Proof.
  revert rs. induction n as [|n IH]; intros rs Hn.
  - destruct rs; simpl in *; [split; [constructor|lia]|lia].
  - destruct rs as [|r1 [|r2 rest]]; simpl in *; try (split; [constructor|lia]).
    destruct (isRegionalIndicator r1 && isRegionalIndicator r2) eqn:E.
    + apply andb_prop in E as [E1 E2].
      destruct (indicatorLetter_upper r1 E1) as (c1 & -> & U1).
      destruct (indicatorLetter_upper r2 E2) as (c2 & -> & U2).
      destruct (IH rest ltac:(lia)) as [F L].
      split; [|simpl; lia].
      constructor; [|exact F]. simpl. rewrite U1, U2. reflexivity.
    + destruct (IH (r2 :: rest) ltac:(simpl; lia)) as [F L].
      split; [exact F|simpl in L; lia].
Qed.

(** X1.  Every language that [parseLanguages] returns is a code of two
    letters [A]-[Z], one for each pair of regional indicators it consumed:
    there are at most half as many codes as the string has runes. *)
Theorem X1_language_codes (str : string) :
  Forall (fun code => isCountryCode code = true) (parseLanguages str) /\
  (2 * length (parseLanguages str) <= length (runes str))%nat.
Proof.
  unfold parseLanguages. apply (parseLanguagesGo_codes (length (runes str))). lia.
Qed.

(** ** The size that the parser keeps *)

Section ParseFacts.
Context {lib : GoLib}.

Lemma sizeField_unit (parts : list string) (st : Float64.t * string) :
  snd st = "" \/ snd st = "GB" ->
  snd (fold_left sizeField parts st) = "" \/ snd (fold_left sizeField parts st) = "GB".
Proof.
  revert st. induction parts as [|p parts IH]; intros st H; simpl; [exact H|].
  apply IH. unfold sizeField.
  destruct (GoStrings.startsNonASCII p); [exact H|].
  destruct (ParseFloat p); [exact H|].
  destruct (GoStrings.Contains (ToUpper p) "GB"); [right; reflexivity|exact H].
Qed.

(** The values above 0: the positive numbers and the infinity. *)
Lemma above_zero (value : Float64.t) :
  Float64.lt (Float64.Finite 0) value = true ->
  value = Float64.PosInf \/ exists q, value = Float64.Finite q /\ (0 < q)%Q.
Proof.
  destruct value as [q| | |]; unfold Float64.lt; simpl; intros H; try discriminate.
  - right. exists q. split; [reflexivity|]. apply negb_true_iff in H.
    apply Qnot_le_lt. intros L. apply Qle_bool_iff in L. congruence.
  - left. reflexivity.
Qed.

End ParseFacts.

(** X2.  The file size that [parseStreamInfo] records is either empty or
    a value greater than 0, printed by [%.2f] and followed by [" GB"]; the
    value is a positive number or the infinity that [strconv.ParseFloat]
    reads from [inf], never NaN.  A size stated in another unit, or not
    greater than 0, is dropped, and the size score of a freshly parsed
    title is zero.  A size field that reads [inf GB] is recorded as
    [+Inf GB]. *)
Theorem X2_parsed_size_in_GB `{lib : GoLib} (title : string) :
  let info := parseStreamInfo title in
  (ParsedInfo.FileSize info = "" \/
   exists value,
     (value = Float64.PosInf \/ exists q, value = Float64.Finite q /\ (0 < q)%Q) /\
     ParsedInfo.FileSize info = Sprintf_2f value +:+ " GB") /\
  ParsedInfo.SizeScore info = 0 /\
  ParsedInfo.FileSize (@parseStreamInfo asciiLib (Stream.Title Sample.infinite))
  = "+Inf GB".
Proof.
  cbv zeta. split; [|split; [reflexivity|vm_compute; reflexivity]].
  unfold parseStreamInfo. cbn [ParsedInfo.FileSize].
  destruct (nth_error (GoStrings.Split title (bytes [10])) 1) as [metadata|]; [|left; reflexivity].
  destruct (GoStrings.Index metadata sizeMarker =? -1); [left; reflexivity|].
  match goal with |- context [GoStrings.Index ?s sourceMarker =? -1] =>
    destruct (GoStrings.Index s sourceMarker =? -1) end; [left; reflexivity|].
  match goal with |- context [fold_left sizeField ?l ?st] =>
    pose proof (sizeField_unit l st (or_introl eq_refl)) as U;
    destruct (fold_left sizeField l st) as [value unit] end.
  simpl in U.
  destruct (Float64.lt (Float64.Finite 0) value) eqn:V; simpl; [|left; reflexivity].
  destruct U as [-> | ->]; simpl; [left; reflexivity|].
  right. exists value. split; [apply above_zero; exact V|reflexivity].
Qed.

(** ** The parts of a score *)

Section WrapFacts.

Lemma wrap64_mod (a : Z) : wrap64 a mod 2 ^ 64 = a mod 2 ^ 64.
Proof.
  unfold wrap64. rewrite Zminus_mod_idemp_l. f_equal. lia.
Qed.

Lemma mod_wrap64 (a b : Z) : a mod 2 ^ 64 = b mod 2 ^ 64 -> wrap64 a = wrap64 b.
Proof.
  intros H. unfold wrap64. f_equal.
  rewrite <- (Zplus_mod_idemp_l a), <- (Zplus_mod_idemp_l b), H. reflexivity.
Qed.

Lemma wrap64_fits (a : Z) : fits (wrap64 a).
Proof. apply mod_wrap64, wrap64_mod. Qed.

Lemma addInt_fits (a b : Z) : fits (addInt a b).
Proof. apply wrap64_fits. Qed.

Lemma addInt_mod (a b : Z) : addInt a b mod 2 ^ 64 = (a + b) mod 2 ^ 64.
Proof. apply wrap64_mod. Qed.

Lemma add_mod_congr (a a' b b' : Z) :
  a mod 2 ^ 64 = a' mod 2 ^ 64 -> b mod 2 ^ 64 = b' mod 2 ^ 64 ->
  (a + b) mod 2 ^ 64 = (a' + b') mod 2 ^ 64.
Proof.
  intros H1 H2.
  rewrite (Z.add_mod a b), (Z.add_mod a' b'), H1, H2 by lia. reflexivity.
Qed.

End WrapFacts.

Section ScoreFacts.
Context {lib : GoLib} (config : Config).

Lemma cond_fold_mod {A} (p : A -> bool) (c : Z) (l : list A) (s : Z) :
  fold_left (fun sc y => if p y then addInt sc c else sc) l s mod 2 ^ 64
    = (s + fold_left (fun sc y => if p y then addInt sc c else sc) l 0) mod 2 ^ 64.
Proof.
  revert s. induction l as [|y l IH]; intros s; cbn [fold_left].
  - f_equal. lia.
  - destruct (p y).
    + rewrite IH.
      rewrite (add_mod_congr (addInt s c) (s + c) _ _ (addInt_mod s c) eq_refl).
      rewrite (add_mod_congr s s _ _ eq_refl (IH (addInt 0 c))).
      rewrite (add_mod_congr s s _ _ eq_refl
                 (add_mod_congr (addInt 0 c) (0 + c) _ _ (addInt_mod 0 c) eq_refl)).
      f_equal. lia.
    + apply IH.
Qed.

Lemma cond_fold_fits {A} (p : A -> bool) (c : Z) (l : list A) (s : Z) :
  fits s -> fits (fold_left (fun sc y => if p y then addInt sc c else sc) l s).
Proof.
  revert s. induction l as [|y l IH]; intros s H; simpl; [exact H|].
  apply IH. destruct (p y); [apply addInt_fits|exact H].
Qed.

Lemma languageStep_mod (s : Z) (lang : string) :
  languageStep config s lang mod 2 ^ 64 = (s + languageStep config 0 lang) mod 2 ^ 64.
Proof.
  unfold languageStep. cbv zeta.
  rewrite cond_fold_mod.
  rewrite (add_mod_congr _ _ _ _ (cond_fold_mod _ _ _ s) eq_refl).
  symmetry. rewrite (add_mod_congr s s _ _ eq_refl (cond_fold_mod _ _ _ _)).
  f_equal. lia.
Qed.

Lemma languageStep_fits (s : Z) (lang : string) :
  fits s -> fits (languageStep config s lang).
Proof. intros H. unfold languageStep. apply cond_fold_fits, cond_fold_fits, H. Qed.

Lemma languages_mod (l : list string) (s : Z) :
  fold_left (languageStep config) l s mod 2 ^ 64
    = (s + getLanguageScore config l) mod 2 ^ 64.
Proof.
  unfold getLanguageScore. revert s. induction l as [|x l IH]; intros s; cbn [fold_left].
  - f_equal. lia.
  - rewrite IH.
    rewrite (add_mod_congr _ _ _ _ (languageStep_mod s x) eq_refl).
    symmetry. rewrite (add_mod_congr s s _ _ eq_refl (IH (languageStep config 0 x))).
    f_equal. lia.
Qed.

Lemma languages_fits (l : list string) (s : Z) :
  fits s -> fits (fold_left (languageStep config) l s).
Proof.
  revert s. induction l as [|x l IH]; intros s H; simpl; [exact H|].
  apply IH, languageStep_fits, H.
Qed.

Lemma calculateBaseScore_fits (stream : Stream.t) : fits (calculateBaseScore config stream).
Proof.
  unfold calculateBaseScore. apply languages_fits.
  match goal with |- fits (if ?b then _ else _) => destruct b end; apply addInt_fits.
Qed.

End ScoreFacts.

(** X3.  The base score of a stream is the sum, on [int], of the parts
    that [getResolutionScore], [getCodecScore], [getUploaderScore] and
    [getLanguageScore] report and of the seeders capped at
    [MaxSeederScore]; the total score adds the size score. *)
Theorem X3_score_breakdown `{lib : GoLib} (config : Config) (stream : Stream.t) :
  let info := Stream.ParsedInfo stream in
  let parts :=
    getResolutionScore config (ParsedInfo.Resolution info)
    + getCodecScore config (ParsedInfo.Codec info)
    + cappedSeeds config stream
    + getUploaderScore config (Stream.Title stream)
    + getLanguageScore config (ParsedInfo.Languages info) in
  calculateBaseScore config stream = wrap64 parts /\
  calculateScore config stream = wrap64 (parts + ParsedInfo.SizeScore info).
Proof.
  cbv zeta.
  assert (B : calculateBaseScore config stream mod 2 ^ 64 =
    (getResolutionScore config (ParsedInfo.Resolution (Stream.ParsedInfo stream))
     + getCodecScore config (ParsedInfo.Codec (Stream.ParsedInfo stream))
     + cappedSeeds config stream
     + getUploaderScore config (Stream.Title stream)
     + getLanguageScore config (ParsedInfo.Languages (Stream.ParsedInfo stream))) mod 2 ^ 64).
  { unfold calculateBaseScore. cbv zeta. rewrite languages_mod.
    apply add_mod_congr; [|reflexivity].
    assert (S3 : forall x y, x mod 2 ^ 64 = y mod 2 ^ 64 ->
      addInt x
        (if ParsedInfo.Seeds (Stream.ParsedInfo stream)
            >? MaxSeederScore (Scoring (Scraping config))
         then MaxSeederScore (Scoring (Scraping config))
         else ParsedInfo.Seeds (Stream.ParsedInfo stream)) mod 2 ^ 64
      = (y + cappedSeeds config stream) mod 2 ^ 64).
    { intros x y E. rewrite addInt_mod. apply add_mod_congr; [exact E|].
      f_equal. unfold cappedSeeds.
      destruct (Z.gtb_spec (ParsedInfo.Seeds (Stream.ParsedInfo stream))
                  (MaxSeederScore (Scoring (Scraping config)))); lia. }
    assert (S2 :
      (let score :=
         if oneOf (ParsedInfo.Resolution (Stream.ParsedInfo stream)) ["2160p"; "4k"]
         then addInt 0 (mapIndex (ResolutionScores (Scoring (Scraping config))) "2160p")
         else if String.eqb (ParsedInfo.Resolution (Stream.ParsedInfo stream)) "1080p"
         then addInt 0 (mapIndex (ResolutionScores (Scoring (Scraping config))) "1080p")
         else if String.eqb (ParsedInfo.Resolution (Stream.ParsedInfo stream)) "720p"
         then addInt 0 (mapIndex (ResolutionScores (Scoring (Scraping config))) "720p")
         else if String.eqb (ParsedInfo.Resolution (Stream.ParsedInfo stream)) "480p"
         then addInt 0 (mapIndex (ResolutionScores (Scoring (Scraping config))) "480p")
         else 0 in
       if oneOf (ParsedInfo.Codec (Stream.ParsedInfo stream)) ["x265"; "HEVC"; "h265"]
       then addInt score (mapIndex (CodecScores (Scoring (Scraping config))) "hevc")
       else if oneOf (ParsedInfo.Codec (Stream.ParsedInfo stream)) ["x264"; "AVC"; "h264"]
       then addInt score (mapIndex (CodecScores (Scoring (Scraping config))) "avc")
       else score) mod 2 ^ 64
      = (getResolutionScore config (ParsedInfo.Resolution (Stream.ParsedInfo stream))
         + getCodecScore config (ParsedInfo.Codec (Stream.ParsedInfo stream))) mod 2 ^ 64).
    { cbv zeta. unfold getResolutionScore, getCodecScore. cbv zeta.
      assert (R : forall a b : Z, (if oneOf (ParsedInfo.Resolution (Stream.ParsedInfo stream)) ["2160p"; "4k"]
         then addInt 0 (mapIndex (ResolutionScores (Scoring (Scraping config))) "2160p")
         else if String.eqb (ParsedInfo.Resolution (Stream.ParsedInfo stream)) "1080p"
         then addInt 0 (mapIndex (ResolutionScores (Scoring (Scraping config))) "1080p")
         else if String.eqb (ParsedInfo.Resolution (Stream.ParsedInfo stream)) "720p"
         then addInt 0 (mapIndex (ResolutionScores (Scoring (Scraping config))) "720p")
         else if String.eqb (ParsedInfo.Resolution (Stream.ParsedInfo stream)) "480p"
         then addInt 0 (mapIndex (ResolutionScores (Scoring (Scraping config))) "480p")
         else 0) mod 2 ^ 64
        = (if oneOf (ParsedInfo.Resolution (Stream.ParsedInfo stream)) ["2160p"; "4k"]
         then mapIndex (ResolutionScores (Scoring (Scraping config))) "2160p"
         else if String.eqb (ParsedInfo.Resolution (Stream.ParsedInfo stream)) "1080p"
         then mapIndex (ResolutionScores (Scoring (Scraping config))) "1080p"
         else if String.eqb (ParsedInfo.Resolution (Stream.ParsedInfo stream)) "720p"
         then mapIndex (ResolutionScores (Scoring (Scraping config))) "720p"
         else if String.eqb (ParsedInfo.Resolution (Stream.ParsedInfo stream)) "480p"
         then mapIndex (ResolutionScores (Scoring (Scraping config))) "480p"
         else 0) mod 2 ^ 64).
      { intros _ _.
        repeat match goal with |- context [if ?b then _ else _] => destruct b end;
          rewrite ?addInt_mod; reflexivity. }
      destruct (oneOf (ParsedInfo.Codec (Stream.ParsedInfo stream)) ["x265"; "HEVC"; "h265"]);
        [|destruct (oneOf (ParsedInfo.Codec (Stream.ParsedInfo stream)) ["x264"; "AVC"; "h264"])];
        rewrite ?addInt_mod, ?Z.add_0_r;
        try (apply add_mod_congr; [|reflexivity]); exact (R 0 0). }
    unfold getUploaderScore.
    destruct (hasPreferredUploader config (Stream.Title stream)).
    - rewrite addInt_mod. apply add_mod_congr; [|reflexivity]. apply S3, S2.
    - rewrite Z.add_0_r. apply S3, S2. }
  split.
  - rewrite <- (calculateBaseScore_fits config stream). apply mod_wrap64, B.
  - unfold calculateScore, addInt. apply mod_wrap64.
    rewrite <- Zplus_mod_idemp_l, B, Zplus_mod_idemp_l. reflexivity.
Qed.

(** ** Preferred uploaders *)

Section StringFacts.

Lemma append_cons (c : ascii) (a b : string) : String c a +:+ b = String c (a +:+ b).
Proof. reflexivity. Qed.

Lemma append_empty (b : string) : "" +:+ b = b.
Proof. reflexivity. Qed.

Lemma append_empty_r (a : string) : a +:+ "" = a.
Proof. induction a as [|x a IH]; [reflexivity|]. rewrite append_cons, IH. reflexivity. Qed.

Lemma append_assoc (a b c : string) : (a +:+ b) +:+ c = a +:+ (b +:+ c).
Proof.
  induction a as [|x a IH]; [reflexivity|]. rewrite !append_cons, IH. reflexivity.
Qed.

Lemma HasPrefix_app (s p : string) :
  GoStrings.HasPrefix s p = true <-> exists r, s = p +:+ r.
Proof.
  unfold GoStrings.HasPrefix. revert s. induction p as [|c p IH]; intros s.
  - destruct s; simpl; split; eauto.
  - destruct s as [|d s]; simpl.
    + split; [discriminate|]. intros [r H]. discriminate.
    + destruct (Ascii.ascii_dec c d) as [->|N].
      * rewrite IH. split; intros [r H]; exists r; [rewrite H; reflexivity|].
        rewrite append_cons in H. injection H as H. exact H.
      * split; [discriminate|]. intros [r H]. rewrite append_cons in H.
        injection H as H1 H2. congruence.
Qed.

Lemma IndexFrom_spec (substr s : string) (i : Z) :
  (GoStrings.IndexFrom i s substr = -1 /\ ~ exists a b, s = a +:+ substr +:+ b) \/
  (i <= GoStrings.IndexFrom i s substr /\ exists a b, s = a +:+ substr +:+ b).
Proof.
  revert i. induction s as [|c s IH]; intros i; cbn [GoStrings.IndexFrom].
  - destruct (GoStrings.HasPrefix "" substr) eqn:P.
    + right. split; [lia|]. apply HasPrefix_app in P as [r P]. exists "", r. exact P.
    + left. split; [reflexivity|]. intros (a & b & H).
      destruct a; [|discriminate]. rewrite append_empty in H.
      assert (GoStrings.HasPrefix "" substr = true) by (apply HasPrefix_app; eauto).
      congruence.
  - destruct (GoStrings.HasPrefix (String c s) substr) eqn:P.
    + right. split; [lia|]. apply HasPrefix_app in P as [r P]. exists "", r. exact P.
    + destruct (IH (i + 1)) as [[E N] | [L (a & b & H)]].
      * left. split; [exact E|]. intros (a & b & H).
        destruct a as [|d a].
        -- rewrite append_empty in H.
           assert (GoStrings.HasPrefix (String c s) substr = true)
             by (apply HasPrefix_app; eauto).
           congruence.
        -- rewrite append_cons in H. injection H as _ H. apply N. eauto.
      * right. split; [lia|]. exists (String c a), b. rewrite append_cons, H. reflexivity.
Qed.

Lemma Contains_app (s substr : string) :
  GoStrings.Contains s substr = true <-> exists a b, s = a +:+ substr +:+ b.
Proof.
  unfold GoStrings.Contains, GoStrings.Index.
  destruct (IndexFrom_spec substr s 0) as [[E N] | [L H]].
  - rewrite E. simpl. split; [discriminate|]. intros H. destruct (N H).
  - split; [intros _; exact H|]. intros _. apply negb_true_iff, Z.eqb_neq. lia.
Qed.

Lemma Contains_inner (s p u q : string) :
  GoStrings.Contains s (p +:+ u +:+ q) = true -> GoStrings.Contains s u = true.
Proof.
  rewrite !Contains_app. intros (a & b & H).
  exists (a +:+ p), (q +:+ b). rewrite H, !append_assoc. reflexivity.
Qed.

Lemma Contains_empty (s : string) : GoStrings.Contains s "" = true.
Proof. apply Contains_app. exists "", s. reflexivity. Qed.

Lemma existsb_same {A} (f g : A -> bool) (l : list A) :
  (forall x, f x = g x) -> existsb f l = existsb g l.
Proof. intros H. induction l as [|x l IH]; simpl; [reflexivity|]. rewrite H, IH. reflexivity. Qed.

End StringFacts.

Section UploaderFacts.
Context {lib : GoLib} (config : Config).

Lemma uploader_terms (title uploader : string) :
  existsb (fun term => GoStrings.Contains title term)
    [uploader; "-" +:+ uploader; "." +:+ uploader; "[" +:+ uploader +:+ "]"]
  = GoStrings.Contains title uploader.
Proof.
  simpl. destruct (GoStrings.Contains title uploader) eqn:C; [reflexivity|]. simpl.
  assert (N : forall p q, GoStrings.Contains title (p +:+ uploader +:+ q) = false).
  { intros p q. destruct (GoStrings.Contains title (p +:+ uploader +:+ q)) eqn:E;
      [|reflexivity].
    apply Contains_inner in E. congruence. }
  pose proof (N "-" "") as N1. pose proof (N "." "") as N2. pose proof (N "[" "]") as N3.
  rewrite append_empty_r in N1, N2. rewrite N1, N2, N3. reflexivity.
Qed.

End UploaderFacts.

(** X4.  [hasPreferredUploader] holds exactly when the upper-cased title
    contains some trimmed, upper-cased uploader of some group: the three
    forms with a separator ([-X], [.X], [[X]]) add nothing to the bare
    name. *)
Theorem X4_uploader_is_substring `{lib : GoLib} (config : Config) (title : string) :
  hasPreferredUploader config title
  = existsb (fun uploaderGroup =>
      existsb (fun uploader =>
          GoStrings.Contains (ToUpper title) (TrimSpace (ToUpper uploader)))
        (GoStrings.Split uploaderGroup ","))
      (PreferredUploaders (Scraping config)).
Proof.
  unfold hasPreferredUploader. cbv zeta.
  apply existsb_same. intros g. apply existsb_same. intros u.
  apply uploader_terms.
Qed.

(** X5.  When a group of preferred uploaders has an entry that is empty
    once trimmed (a trailing comma, say), every title has a preferred
    uploader, and the uploader filter of [filterStreams] keeps every
    stream. *)
Theorem X5_empty_uploader_matches_all `{lib : GoLib} (config : Config)
    (uploaderGroup uploader : string) :
  In uploaderGroup (PreferredUploaders (Scraping config)) ->
  In uploader (GoStrings.Split uploaderGroup ",") ->
  TrimSpace (ToUpper uploader) = "" ->
  forall title streams item,
    hasPreferredUploader config title = true /\
    filterStreams config streams item false true = streams.
Proof.
  intros Hg Hu He.
  assert (P : forall title, hasPreferredUploader config title = true).
  { intros title. unfold hasPreferredUploader. cbv zeta.
    apply existsb_exists. exists uploaderGroup. split; [exact Hg|].
    apply existsb_exists. exists uploader. split; [exact Hu|].
    rewrite uploader_terms, He. apply Contains_empty. }
  intros title streams item. split; [apply P|].
  unfold filterStreams. cbv zeta. simpl.
  induction streams as [|s l IH]; simpl; [reflexivity|].
  rewrite P. simpl. rewrite IH. reflexivity.
Qed.

Lemma X5_empty_uploader_matches_all_witness :
  hasPreferredUploader Sample.trailingComma "Movie.2160p.x265-NOGRP" = true /\
  filterStreams Sample.trailingComma Sample.threeReleases Sample.movie false true
  = Sample.threeReleases.
Proof.
  apply (X5_empty_uploader_matches_all Sample.trailingComma "SPARKS," "").
  - left. reflexivity.
  - vm_compute. right. left. reflexivity.
  - vm_compute. reflexivity.
Defined.


(** ** The best match and the size limits *)

Section LimitFacts.
Context {lib : GoLib} (config : Config).

(** Apart from NaN, [a < b] is the negation of [b <= a]. *)
Lemma lt_not_le (a b : Float64.t) :
  Float64.isNaN a = false -> Float64.isNaN b = false ->
  Float64.lt a b = negb (Float64.le b a).
Proof.
  destruct a, b; unfold Float64.lt, Float64.le; simpl; intros A B;
    reflexivity || discriminate.
Qed.

Lemma le_numbers (a b : Float64.t) :
  Float64.le a b = true -> Float64.isNaN a = false /\ Float64.isNaN b = false.
Proof.
  destruct a, b; unfold Float64.le; simpl; intros H; split; reflexivity || discriminate.
Qed.

(** When some stream is within the limits, the limits are numbers and the
    size test of [filterStreams] keeps the streams within them. *)
Lemma filterStreams_size (streams : list Stream.t) (item : WatchlistItem.t)
    (candidate : Stream.t) :
  withinLimits config item candidate = true ->
  filterStreams config streams item true false
  = List.filter (withinLimits config item) streams.
Proof.
  intros Hw. unfold withinLimits in Hw. apply andb_true_iff in Hw as [Hmin Hmax].
  apply le_numbers in Hmin as [Nmin _]. apply le_numbers in Hmax as [_ Nmax].
  unfold filterStreams. fold (limitsFor config item). cbv zeta.
  apply List.filter_ext. intros s. unfold withinLimits. cbn [andb negb].
  rewrite andb_true_r, negb_orb, !lt_not_le, !negb_involutive by (assumption || reflexivity).
  reflexivity.
Qed.

Lemma higherScore_sorted (l : list Stream.t) :
  StronglySorted (fun a b => Stream.Score b <= Stream.Score a) (sortSlice higherScore l).
Proof.
  apply (sortSlice_sorted higherScore (fun a b => Stream.Score b <= Stream.Score a)).
  - intros a b c. lia.
  - intros x y H. unfold higherScore in H. lia.
  - intros x y H. unfold higherScore in H. lia.
Qed.

End LimitFacts.

(** X6.  When some scored stream is within the size limits of the item,
    every ranked stream is within them, the ranked list is in
    non-increasing order of score, the best match has the highest score of
    all streams within the limits, and [processStreams] saves its
    result. *)
Theorem X6_best_within_limits `{lib : GoLib} (config : Config) (now : Z)
    (streams : list Stream.t) (item : WatchlistItem.t) (db : DB) (candidate : Stream.t) :
  In candidate (scoredStreams config streams) ->
  withinLimits config item candidate = true ->
  exists bestMatch rest,
    rankedStreams config streams item = bestMatch :: rest /\
    In bestMatch (scoredStreams config streams) /\
    withinLimits config item bestMatch = true /\
    Forall (fun s => withinLimits config item s = true) rest /\
    StronglySorted (fun a b => Stream.Score b <= Stream.Score a) (bestMatch :: rest) /\
    (forall s, In s (scoredStreams config streams) -> withinLimits config item s = true ->
               Stream.Score s <= Stream.Score bestMatch) /\
    processStreams config now streams item db
    = (None, snd (SaveScrapeResult now db (bestMatchResult now item bestMatch))).
Proof.
  intros Hin Hw.
  assert (Hf : In candidate (List.filter (withinLimits config item)
                               (scoredStreams config streams)))
    by (apply filter_In; split; assumption).
  assert (R : rankedStreams config streams item
              = sortSlice higherScore
                  (List.filter (withinLimits config item) (scoredStreams config streams))).
  { unfold rankedStreams. cbv zeta. rewrite (filterStreams_size config _ item candidate Hw).
    destruct (List.filter _ _); [destruct Hf|reflexivity]. }
  destruct (rankedStreams config streams item) as [|bestMatch rest] eqn:E.
  { symmetry in R. apply sortSlice_nil in R. rewrite R in Hf. destruct Hf. }
  exists bestMatch, rest. split; [reflexivity|].
  assert (A : forall s, In s (bestMatch :: rest) ->
                        In s (scoredStreams config streams) /\
                        withinLimits config item s = true).
  { intros s Hs. rewrite R in Hs. apply sortSlice_In, filter_In in Hs. exact Hs. }
  split; [apply A; left; reflexivity|]. split; [apply A; left; reflexivity|]. split.
  { apply List.Forall_forall. intros s Hs. apply A. right. exact Hs. }
  split; [rewrite R; apply higherScore_sorted|]. split.
  - intros s Hs Hws. symmetry in R. apply higherScore_head in R as [_ Hmax].
    apply Hmax. apply filter_In. split; assumption.
  - unfold processStreams.
    destruct streams as [|s0 l]; [destruct Hin|]. rewrite E.
    destruct (SaveScrapeResult now db (bestMatchResult now item bestMatch)). reflexivity.
Qed.

Lemma X6_best_within_limits_witness :
  exists bestMatch rest,
    rankedStreams Sample.config Sample.threeReleases Sample.movie = bestMatch :: rest /\
    In bestMatch (scoredStreams Sample.config Sample.threeReleases) /\
    withinLimits Sample.config Sample.movie bestMatch = true /\
    Forall (fun s => withinLimits Sample.config Sample.movie s = true) rest /\
    StronglySorted (fun a b => Stream.Score b <= Stream.Score a) (bestMatch :: rest) /\
    (forall s, In s (scoredStreams Sample.config Sample.threeReleases) ->
               withinLimits Sample.config Sample.movie s = true ->
               Stream.Score s <= Stream.Score bestMatch) /\
    processStreams Sample.config 100 Sample.threeReleases Sample.movie Sample.movieDB
    = (None, snd (SaveScrapeResult 100 Sample.movieDB
                    (bestMatchResult 100 Sample.movie bestMatch))).
Proof.
  apply (X6_best_within_limits Sample.config 100 Sample.threeReleases Sample.movie
           Sample.movieDB Sample.inRange).
  - vm_compute. left. reflexivity.
  - vm_compute. reflexivity.
Defined.

(** X7.  [processStreams] orders the parsed streams by size, largest
    first, without adding or dropping one; in that order the first three
    streams at or under the tier maximum get the maximum size score, 80%%
    and 60%% of it, and every other stream gets zero. *)
Theorem X7_size_tiers `{lib : GoLib} (config : Config) (streams : list Stream.t) :
  let sorted := bySize config streams in
  Permutation sorted (List.map (parsed config) streams) /\
  StronglySorted (fun a b => (sizeGB b <= sizeGB a)%Q) sorted /\
  List.map Stream.reset (scoredStreams config streams) = List.map Stream.reset sorted /\
  List.map sizeScore (scoredStreams config streams)
  = tiered config (tierMaxSize config sorted) 0 sorted.
Proof.
  cbv zeta. split; [apply sortSlice_perm|]. split; [apply bySize_sorted|].
  split; [apply reset_scoredStreams|apply sizeScores_tiered].
Qed.

(** X8.  [filterSeasonPackStreams] returns exactly the streams parsed
    with the season number and the episode count asked for, in
    non-increasing order of score; it returns none exactly when no stream
    of that season has that episode count. *)
Theorem X8_season_pack_filter (streams : list Stream.t) (seasonNumber expectedEpisodeCount : Z) :
  let packs := filterSeasonPackStreams streams seasonNumber expectedEpisodeCount in
  (forall s, In s packs <->
             In s streams /\
             ParsedInfo.Season (Stream.ParsedInfo s) = seasonNumber /\
             ParsedInfo.EpisodeCount (Stream.ParsedInfo s) = expectedEpisodeCount) /\
  StronglySorted (fun a b => Stream.Score b <= Stream.Score a) packs /\
  (packs = [] <->
   forall s, In s streams ->
             ParsedInfo.Season (Stream.ParsedInfo s) = seasonNumber ->
             ParsedInfo.EpisodeCount (Stream.ParsedInfo s) <> expectedEpisodeCount).
Proof.
  cbv zeta. unfold filterSeasonPackStreams.
  assert (M : forall s,
    In s (sortSlice higherScore
            (List.filter (fun stream =>
                 (ParsedInfo.Season (Stream.ParsedInfo stream) =? seasonNumber) &&
                 (ParsedInfo.EpisodeCount (Stream.ParsedInfo stream) =? expectedEpisodeCount))
               streams)) <->
    In s streams /\
    ParsedInfo.Season (Stream.ParsedInfo s) = seasonNumber /\
    ParsedInfo.EpisodeCount (Stream.ParsedInfo s) = expectedEpisodeCount).
  { intros s. rewrite sortSlice_In, filter_In, andb_true_iff, !Z.eqb_eq. reflexivity. }
  split; [exact M|]. split; [apply higherScore_sorted|]. split.
  - intros E s Hs Hn Hc. rewrite E in M. apply (proj2 (M s)). auto.
  - intros H.
    destruct (sortSlice higherScore _) as [|p ps]; [reflexivity|].
    destruct (proj1 (M p) (or_introl eq_refl)) as (Hs & Hn & Hc).
    destruct (H p Hs Hn Hc).
Qed.

(** ** Saving a result twice *)

Section StoreFacts.

Lemma find_last {A} (p : A -> bool) (l : list A) (x : A) :
  List.find p l = None -> p x = true -> List.find p (l ++ [x]) = Some x.
Proof.
  induction l as [|y l IH]; simpl; intros H Px; [rewrite Px; reflexivity|].
  destruct (p y); [discriminate|]. apply IH; assumption.
Qed.

Lemma find_app_some {A} (p : A -> bool) (l l' : list A) (x : A) :
  List.find p l = Some x -> List.find p (l ++ l') = Some x.
Proof.
  induction l as [|y l IH]; simpl; [discriminate|].
  destruct (p y); [auto|]. exact IH.
Qed.

Lemma find_app_none {A} (p : A -> bool) (l l' : list A) :
  List.find p l = None -> List.find p (l ++ l') = List.find p l'.
Proof.
  induction l as [|y l IH]; simpl; [reflexivity|].
  destruct (p y); [discriminate|]. exact IH.
Qed.

Lemma map_ID_setResult (now : Z) (r : ScrapeResult.t) (id : Z) (l : list ScrapeResult.t) :
  List.map ScrapeResult.ID
    (List.map (fun row => if ScrapeResult.ID row =? id then setResult now row r else row) l)
  = List.map ScrapeResult.ID l.
Proof.
  rewrite List.map_map. apply List.map_ext. intros row.
  destruct (ScrapeResult.ID row =? id); reflexivity.
Qed.

Lemma UpdateScrapeResult_ids (now : Z) (db : DB) (r : ScrapeResult.t) :
  List.map ScrapeResult.ID (scrape_results (UpdateScrapeResult now db r))
    = List.map ScrapeResult.ID (scrape_results db) /\
  scrape_results_id_seq (UpdateScrapeResult now db r) = scrape_results_id_seq db.
Proof. split; [apply map_ID_setResult|reflexivity]. Qed.

Lemma UpdateScrapeResultStatus_ids (now : Z) (db : DB) (itemID : Z) (status : string) :
  List.map ScrapeResult.ID (scrape_results (UpdateScrapeResultStatus now db itemID status))
    = List.map ScrapeResult.ID (scrape_results db) /\
  scrape_results_id_seq (UpdateScrapeResultStatus now db itemID status)
    = scrape_results_id_seq db.
Proof.
  split; [|reflexivity]. simpl. rewrite List.map_map. apply List.map_ext. intros row.
  destruct (ScrapeResult.WatchlistItemID row =? itemID); reflexivity.
Qed.

Lemma keyed_ids (db db' : DB) :
  List.map ScrapeResult.ID (scrape_results db') = List.map ScrapeResult.ID (scrape_results db) ->
  scrape_results_id_seq db' = scrape_results_id_seq db ->
  keyed db -> keyed db'.
Proof.
  intros Hm Hs [N L]. split; [rewrite Hm; exact N|].
  intros row Hin. rewrite Hs.
  apply (List.in_map ScrapeResult.ID) in Hin. rewrite Hm in Hin.
  apply List.in_map_iff in Hin as (row0 & <- & Hin0). apply L, Hin0.
Qed.

Lemma NoDup_snoc (l : list Z) (x : Z) :
  List.NoDup l -> ~ In x l -> List.NoDup (l ++ [x]).
Proof.
  induction l as [|y l IH]; simpl; intros N H.
  - constructor; [intros []|constructor].
  - apply List.NoDup_cons_iff in N as [N1 N2].
    constructor; [|apply IH; tauto].
    rewrite List.in_app_iff. simpl. intros [?|[?|[]]]; [tauto|]. subst. tauto.
Qed.

Lemma SaveScrapeResult_keyed (now : Z) (db : DB) (result : ScrapeResult.t) :
  keyed db -> keyed (snd (SaveScrapeResult now db result)).
Proof.
  intros K. unfold SaveScrapeResult.
  match goal with |- context [match ?e with Some _ => _ | None => _ end] =>
    destruct e as [row|] end; cbn [snd].
  - eapply keyed_ids; [apply UpdateScrapeResult_ids|apply UpdateScrapeResult_ids|exact K].
  - destruct K as [N L]. split; cbn [scrape_results scrape_results_id_seq withResults].
    + rewrite List.map_app. apply NoDup_snoc; [exact N|].
      intros Hin. apply List.in_map_iff in Hin as (row & E & Hin).
      apply L in Hin. cbn [ScrapeResult.ID withID] in E. lia.
    + intros row Hin. apply List.in_app_iff in Hin as [Hin|[<-|[]]].
      * apply L in Hin. lia.
      * cbn [ScrapeResult.ID withID]. lia.
Qed.

Lemma find_updated (now : Z) (r1 r2 e : ScrapeResult.t) (l : list ScrapeResult.t) :
  NullString.Valid (ScrapeResult.InfoHash r1) = true ->
  ScrapeResult.WatchlistItemID r2 = ScrapeResult.WatchlistItemID r1 ->
  ScrapeResult.InfoHash r2 = ScrapeResult.InfoHash r1 ->
  List.find (sameHash r1) l = Some e ->
  exists e',
    List.find (sameHash r2)
      (List.map (fun row => if ScrapeResult.ID row =? ScrapeResult.ID e
                            then setResult now row (withID r1 (ScrapeResult.ID e) now)
                            else row) l) = Some e' /\
    ScrapeResult.ID e' = ScrapeResult.ID e.
Proof.
  intros V Hi Hh. induction l as [|row l IH]; simpl; [discriminate|].
  assert (S : sameHash r2 = sameHash r1).
  { unfold sameHash. rewrite Hi, Hh. reflexivity. }
  rewrite S.
  destruct (sameHash r1 row) eqn:P.
  - intros [= <-]. rewrite Z.eqb_refl.
    assert (P' : sameHash r1 (setResult now row (withID r1 (ScrapeResult.ID row) now)) = true).
    { unfold sameHash, hashIs in *.
      cbn [ScrapeResult.WatchlistItemID ScrapeResult.InfoHash setResult withID].
      apply andb_prop in P as [P1 _]. rewrite P1, V, String.eqb_refl. reflexivity. }
    rewrite P'. eexists. split; [reflexivity|reflexivity].
  - intros F. destruct (ScrapeResult.ID row =? ScrapeResult.ID e) eqn:E.
    + destruct (sameHash r1 (setResult now row (withID r1 (ScrapeResult.ID e) now))) eqn:P'.
      * eexists. split; [reflexivity|]. cbn [ScrapeResult.ID setResult]. lia.
      * rewrite <- S. apply IH, F.
    + rewrite P. rewrite <- S. apply IH, F.
Qed.

Lemma SaveScrapeResult_find (now : Z) (db : DB) (result : ScrapeResult.t) :
  SaveScrapeResult now db result =
  match (if NullString.Valid (ScrapeResult.InfoHash result)
         then List.find (sameHash result) (scrape_results db) else None) with
  | Some row =>
      (ScrapeResult.ID row,
       UpdateScrapeResult now db (withID result (ScrapeResult.ID row) now))
  | None =>
      (scrape_results_id_seq db + 1,
       withResults db
         (scrape_results db ++ [withID result (scrape_results_id_seq db + 1) now])
         (scrape_results_id_seq db + 1))
  end.
Proof. reflexivity. Qed.

End StoreFacts.

(** X9.  Saving a result for an item and hash that were saved before
    rewrites the row in place: [SaveScrapeResult] returns the id it
    returned the first time, and the table has the same ids and the same
    sequence value. *)
Theorem X9_save_same_hash_in_place (now1 now2 : Z) (db : DB) (r1 r2 : ScrapeResult.t) :
  NullString.Valid (ScrapeResult.InfoHash r1) = true ->
  ScrapeResult.WatchlistItemID r2 = ScrapeResult.WatchlistItemID r1 ->
  ScrapeResult.InfoHash r2 = ScrapeResult.InfoHash r1 ->
  let first := SaveScrapeResult now1 db r1 in
  let again := SaveScrapeResult now2 (snd first) r2 in
  fst again = fst first /\
  List.map ScrapeResult.ID (scrape_results (snd again))
    = List.map ScrapeResult.ID (scrape_results (snd first)) /\
  scrape_results_id_seq (snd again) = scrape_results_id_seq (snd first).
Proof.
  intros V Hi Hh. cbv zeta.
  assert (F : exists e,
    List.find (sameHash r2) (scrape_results (snd (SaveScrapeResult now1 db r1))) = Some e /\
    ScrapeResult.ID e = fst (SaveScrapeResult now1 db r1)).
  { rewrite SaveScrapeResult_find, V.
    destruct (List.find (sameHash r1) (scrape_results db)) as [e|] eqn:E; cbn [fst snd].
    - apply (find_updated now1 r1 r2 e _ V Hi Hh E).
    - eexists. split.
      + cbn [scrape_results withResults]. apply find_last.
        * unfold sameHash. rewrite Hi, Hh. exact E.
        * unfold sameHash, hashIs.
          cbn [ScrapeResult.WatchlistItemID ScrapeResult.InfoHash withID].
          rewrite Hi, Hh, Z.eqb_refl, V, String.eqb_refl. reflexivity.
      + reflexivity. }
  destruct F as (e & F & Eid).
  rewrite (SaveScrapeResult_find now2), Hh, V.
  rewrite F. cbn [fst snd].
  split; [exact Eid|]. apply UpdateScrapeResult_ids.
Qed.

Lemma X9_save_same_hash_in_place_witness :
  let first := SaveScrapeResult 100 Sample.scoredResults Sample.rescrape in
  let again := SaveScrapeResult 200 (snd first) Sample.rescrapeAgain in
  fst again = fst first /\
  List.map ScrapeResult.ID (scrape_results (snd again))
    = List.map ScrapeResult.ID (scrape_results (snd first)) /\
  scrape_results_id_seq (snd again) = scrape_results_id_seq (snd first).
Proof.
  apply (X9_save_same_hash_in_place 100 200 Sample.scoredResults Sample.rescrape
           Sample.rescrapeAgain); reflexivity.
Defined.

(** ** The hashes that are stored *)

Section HashFacts.

Lemma In_hashesOf (rows : list ScrapeResult.t) (i : Z) (h : string) :
  In (i, h) (hashesOf rows) <->
  exists row, In row rows /\
              NullString.Valid (ScrapeResult.InfoHash row) = true /\
              ScrapeResult.WatchlistItemID row = i /\
              NullString.String (ScrapeResult.InfoHash row) = h.
Proof.
  unfold hashesOf. rewrite List.in_map_iff. split.
  - intros (row & E & Hin). apply filter_In in Hin as [Hin V].
    injection E as <- <-. exists row. auto.
  - intros (row & Hin & V & <- & <-). exists row.
    split; [reflexivity|]. apply filter_In. auto.
Qed.

Lemma hashesOf_app (l l' : list ScrapeResult.t) :
  hashesOf (l ++ l') = (hashesOf l ++ hashesOf l')%list.
Proof. unfold hashesOf. now rewrite List.filter_app, List.map_app. Qed.

(** A rewrite of the rows that keeps the item and the hash of each keeps
    the stored hashes, row by row. *)
Lemma hashesOf_map (f : ScrapeResult.t -> ScrapeResult.t) (rows : list ScrapeResult.t) :
  (forall row, In row rows ->
               ScrapeResult.WatchlistItemID (f row) = ScrapeResult.WatchlistItemID row /\
               ScrapeResult.InfoHash (f row) = ScrapeResult.InfoHash row) ->
  hashesOf (List.map f rows) = hashesOf rows.
Proof.
  unfold hashesOf. induction rows as [|row rows IH]; intros H; [reflexivity|].
  destruct (H row (or_introl eq_refl)) as [Hi Hh].
  cbn [List.map List.filter]. rewrite Hh.
  destruct (NullString.Valid (ScrapeResult.InfoHash row)); cbn [List.map];
    rewrite ?Hi, ?Hh, IH; try reflexivity; intros r Hr; apply H; right; exact Hr.
Qed.

Lemma same_row (rows : list ScrapeResult.t) (a b : ScrapeResult.t) :
  List.NoDup (List.map ScrapeResult.ID rows) ->
  In a rows -> In b rows -> ScrapeResult.ID a = ScrapeResult.ID b -> a = b.
Proof.
  induction rows as [|row rows IH]; cbn [List.map]; intros N Ha Hb E; [destruct Ha|].
  apply List.NoDup_cons_iff in N as [N1 N2].
  destruct Ha as [<-|Ha], Hb as [<-|Hb]; [reflexivity| | |now apply IH].
  - exfalso. apply N1. rewrite E. now apply List.in_map.
  - exfalso. apply N1. rewrite <- E. now apply List.in_map.
Qed.

(** The row that [SaveScrapeResult] finds has the item and the hash of the
    result. *)
Lemma sameHash_found (result e : ScrapeResult.t) (rows : list ScrapeResult.t) :
  List.find (sameHash result) rows = Some e ->
  In e rows /\
  ScrapeResult.WatchlistItemID e = ScrapeResult.WatchlistItemID result /\
  NullString.Valid (ScrapeResult.InfoHash e) = true /\
  NullString.String (ScrapeResult.InfoHash e)
  = NullString.String (ScrapeResult.InfoHash result).
Proof.
  intros F. apply List.find_some in F as [Hin P]. unfold sameHash, hashIs in P.
  apply andb_prop in P as [P1 P2]. apply andb_prop in P2 as [P2 P3].
  apply Z.eqb_eq in P1. apply String.eqb_eq in P3. auto.
Qed.

Lemma sameHash_missing (result : ScrapeResult.t) (rows : list ScrapeResult.t) :
  List.find (sameHash result) rows = None ->
  ~ In (ScrapeResult.WatchlistItemID result,
        NullString.String (ScrapeResult.InfoHash result)) (hashesOf rows).
Proof.
  intros F Hin. apply In_hashesOf in Hin as (row & Hrow & V & Hi & Hh).
  pose proof (List.find_none _ _ F row Hrow) as P. unfold sameHash, hashIs in P.
  rewrite Hi, Z.eqb_refl, V, Hh, String.eqb_refl in P. discriminate.
Qed.

(** The stored hashes after [SaveScrapeResult]: as they were when the
    result has no hash or its hash was stored for the item, else with the
    hash of the result at the end. *)
Lemma SaveScrapeResult_hashes (now : Z) (db : DB) (result : ScrapeResult.t) :
  List.NoDup (List.map ScrapeResult.ID (scrape_results db)) ->
  let pair := (ScrapeResult.WatchlistItemID result,
               NullString.String (ScrapeResult.InfoHash result)) in
  (NullString.Valid (ScrapeResult.InfoHash result) = true /\ ~ In pair (hashes db) /\
   hashes (snd (SaveScrapeResult now db result)) = (hashes db ++ [pair])%list)
  \/
  ((NullString.Valid (ScrapeResult.InfoHash result) = true -> In pair (hashes db)) /\
   hashes (snd (SaveScrapeResult now db result)) = hashes db).
Proof.
  intros N pair. rewrite SaveScrapeResult_find. unfold hashes.
  destruct (NullString.Valid (ScrapeResult.InfoHash result)) eqn:V.
  - destruct (List.find (sameHash result) (scrape_results db)) as [e|] eqn:F; cbn [snd].
    + right. apply sameHash_found in F as (Hin & Hi & Ve & Hh).
      split.
      * intros _. apply In_hashesOf. exists e. auto.
      * cbn [scrape_results UpdateScrapeResult withResults ScrapeResult.ID withID].
        apply hashesOf_map. intros row Hrow.
        destruct (Z.eqb_spec (ScrapeResult.ID row) (ScrapeResult.ID e)) as [E|]; [|auto].
        assert (row = e) by (apply (same_row _ _ _ N Hrow Hin E)). subst row.
        cbn [ScrapeResult.WatchlistItemID ScrapeResult.InfoHash setResult withID].
        split; [reflexivity|].
        destruct (ScrapeResult.InfoHash e) as [se ve], (ScrapeResult.InfoHash result) as [sr vr].
        cbn in *. congruence.
    + left. split; [reflexivity|]. split; [apply sameHash_missing, F|].
      cbn [scrape_results withResults]. rewrite hashesOf_app. f_equal.
      unfold hashesOf. cbn [List.filter ScrapeResult.InfoHash withID]. rewrite V. reflexivity.
  - right. split; [discriminate|]. cbn [snd scrape_results withResults].
    rewrite hashesOf_app. unfold hashesOf at 2.
    cbn [List.filter ScrapeResult.InfoHash withID]. rewrite V. apply List.app_nil_r.
Qed.

Lemma UpdateScrapeResultStatus_hashes (now : Z) (db : DB) (itemID : Z) (status : string) :
  hashes (UpdateScrapeResultStatus now db itemID status) = hashes db.
Proof.
  unfold hashes. cbn [scrape_results UpdateScrapeResultStatus withResults].
  apply hashesOf_map. intros row _.
  destruct (ScrapeResult.WatchlistItemID row =? itemID); auto.
Qed.

Lemma NoDup_snoc_pair (l : list (Z * string)) (x : Z * string) :
  List.NoDup l -> ~ In x l -> List.NoDup (l ++ [x]).
Proof.
  induction l as [|y l IH]; simpl; intros N H.
  - constructor; [intros []|constructor].
  - apply List.NoDup_cons_iff in N as [N1 N2].
    constructor; [|apply IH; tauto].
    rewrite List.in_app_iff. simpl. intros [?|[?|[]]]; [tauto|]. subst. tauto.
Qed.

End HashFacts.

Section KeptFacts.
Context {lib : GoLib} (config : Config).

Lemma kept_refl (j : Z) (db : DB) : hashesKept j db db.
Proof. intros K D. auto. Qed.

Lemma kept_trans (j : Z) (db1 db2 db3 : DB) :
  hashesKept j db1 db2 -> hashesKept j db2 db3 -> hashesKept j db1 db3.
Proof.
  intros H12 H23 K D. destruct (H12 K D) as (K2 & D2 & I2 & O2).
  destruct (H23 K2 D2) as (K3 & D3 & I3 & O3).
  split; [exact K3|]. split; [exact D3|]. split; [auto|].
  intros i h H. destruct (O3 i h H) as [H'|H']; auto.
Qed.

Lemma kept_save (now : Z) (db : DB) (r : ScrapeResult.t) :
  hashesKept (ScrapeResult.WatchlistItemID r) db (snd (SaveScrapeResult now db r)).
Proof.
  intros K D. split; [apply SaveScrapeResult_keyed, K|].
  destruct (SaveScrapeResult_hashes now db r (proj1 K)) as [(V & M & E)|(_ & E)];
    unfold distinctHashes; rewrite E.
  - split; [apply NoDup_snoc_pair; assumption|]. split.
    + intros i h H. apply List.in_app_iff. now left.
    + intros i h H. apply List.in_app_iff in H as [H|[H|[]]]; [now left|].
      right. congruence.
  - auto.
Qed.

Lemma kept_status (j : Z) (now : Z) (db : DB) (itemID : Z) (status : string) :
  hashesKept j db (UpdateScrapeResultStatus now db itemID status).
Proof.
  intros K D. unfold distinctHashes. rewrite UpdateScrapeResultStatus_hashes.
  split; [|auto].
  eapply keyed_ids; [apply UpdateScrapeResultStatus_ids|apply UpdateScrapeResultStatus_ids|exact K].
Qed.

Lemma kept_saveForEpisode (now : Z) (item : WatchlistItem.t) (episode : TVEpisode.t)
    (stream : Stream.t) (status : string) (db : DB) :
  hashesKept (WatchlistItem.ID item) db (saveForEpisode now item episode stream status db).
Proof.
  unfold saveForEpisode.
  pose proof (kept_save now db (streamResult now item stream status)) as H.
  destruct (SaveScrapeResult now db (streamResult now item stream status)) as [id db'].
  exact H.
Qed.

Lemma kept_processStreams (now : Z) (streams : list Stream.t) (item : WatchlistItem.t)
    (db : DB) :
  hashesKept (WatchlistItem.ID item) db (snd (processStreams config now streams item db)).
Proof.
  unfold processStreams. destruct streams as [|s l]; [apply kept_refl|].
  destruct (rankedStreams config (s :: l) item) as [|best rest]; [apply kept_refl|].
  pose proof (kept_save now db (bestMatchResult now item best)) as H.
  destruct (SaveScrapeResult now db (bestMatchResult now item best)) as [id db'].
  exact H.
Qed.

Lemma kept_scrapeResponse (now : Z) (streams : list Stream.t) (item : WatchlistItem.t)
    (db : DB) :
  hashesKept (WatchlistItem.ID item) db (snd (scrapeResponse config now streams item db)).
Proof.
  unfold scrapeResponse. cbv zeta.
  generalize (GetExistingHashForItem db (WatchlistItem.ID item)). intros existing.
  assert (F : forall l d,
    hashesKept (WatchlistItem.ID item) d
      (fold_left (fun db stream =>
         if String.eqb (Stream.InfoHash stream) existing
         then UpdateScrapeResultStatus now db (WatchlistItem.ID item) "ignored hash"
         else db) l d)).
  { induction l as [|s l IH]; intros d; [apply kept_refl|]. cbn [fold_left].
    eapply kept_trans; [|apply IH].
    destruct (String.eqb _ _); [apply kept_status|apply kept_refl]. }
  destruct (List.filter _ streams); [apply F|].
  eapply kept_trans; [apply F|apply kept_processStreams].
Qed.

Lemma kept_tryURLs (fetch : Fetch) (now : Z) (urls : list string) (item : WatchlistItem.t)
    (db : DB) :
  hashesKept (WatchlistItem.ID item) db (snd (tryURLs config fetch now urls item db)).
Proof.
  induction urls as [|url rest IH]; [apply kept_refl|]. cbn [tryURLs].
  destruct (fetch url); [apply kept_scrapeResponse|exact IH].
Qed.

Lemma kept_scrapeTVShow (fetch : Fetch) (now : Z) (item : WatchlistItem.t) (db : DB) :
  hashesKept (WatchlistItem.ID item) db (snd (scrapeTVShow config fetch now item db)).
Proof.
  unfold scrapeTVShow. cbv zeta.
  destruct (fetch (showURL config item)) as [streams|]; [|apply kept_refl].
  assert (F : forall episodes st,
    hashesKept (WatchlistItem.ID item) (fst st)
      (fst (fold_left (scrapeEpisode config now now streams item) episodes st))).
  { induction episodes as [|ep episodes IH]; intros st; [apply kept_refl|].
    cbn [fold_left]. eapply kept_trans; [|apply IH].
    destruct st as [d f], ep as [e n]. unfold scrapeEpisode.
    destruct (notYetAired now e); [apply kept_refl|].
    destruct (TVEpisode.Scraped e); [apply kept_refl|].
    destruct (sortSlice higherScore _); [apply kept_refl|].
    apply kept_saveForEpisode. }
  specialize (F (allEpisodes db item) (db, false)).
  destruct (fold_left _ _ _) as [db' found]. destruct found; exact F.
Qed.

End KeptFacts.

(** X10.  [SaveScrapeResult] never stores a hash twice for an item and
    never drops one.  With the result ids distinct and no item holding two
    results of the same hash, both still hold after the save, and the
    stored hashes are those stored before together with the hash of the
    result saved, if it has one.  The statement is about which hashes are
    stored, not about the order of the rows. *)
Theorem X10_save_keeps_hashes (now : Z) (db : DB) (result : ScrapeResult.t) :
  keyed db ->
  distinctHashes db ->
  let db' := snd (SaveScrapeResult now db result) in
  keyed db' /\
  distinctHashes db' /\
  forall i h,
    In (i, h) (hashes db') <->
    In (i, h) (hashes db) \/
    (NullString.Valid (ScrapeResult.InfoHash result) = true /\
     ScrapeResult.WatchlistItemID result = i /\
     NullString.String (ScrapeResult.InfoHash result) = h).
Proof.
  intros K D. cbv zeta. split; [apply SaveScrapeResult_keyed, K|].
  destruct (SaveScrapeResult_hashes now db result (proj1 K)) as [(V & M & E)|(V & E)];
    unfold distinctHashes; rewrite E.
  - split; [apply NoDup_snoc_pair; assumption|].
    intros i h. rewrite List.in_app_iff. split.
    + intros [H|[H|[]]]; [now left|]. right. injection H as <- <-. auto.
    + intros [H|(_ & <- & <-)]; [now left|]. right. now left.
  - split; [exact D|]. intros i h. split; [now left|].
    intros [H|(V' & <- & <-)]; [exact H|]. apply V, V'.
Qed.

Lemma X10_save_keeps_hashes_witness :
  let db' := snd (SaveScrapeResult 100 Sample.scoredResults Sample.rescrape) in
  keyed db' /\
  distinctHashes db' /\
  forall i h,
    In (i, h) (hashes db') <->
    In (i, h) (hashes Sample.scoredResults) \/
    (NullString.Valid (ScrapeResult.InfoHash Sample.rescrape) = true /\
     ScrapeResult.WatchlistItemID Sample.rescrape = i /\
     NullString.String (ScrapeResult.InfoHash Sample.rescrape) = h).
Proof.
  apply (X10_save_keeps_hashes 100 Sample.scoredResults Sample.rescrape).
  - split.
    + simpl. repeat constructor; simpl; intuition discriminate.
    + intros row Hin. simpl in Hin.
      destruct Hin as [<-|[<-|[<-|[]]]]; vm_compute; discriminate.
  - vm_compute. repeat constructor; simpl; intuition discriminate.
Defined.

(** X11.  No run of [Scrape], of a movie or of a series, loses a stored
    hash or stores a hash twice for an item, and it stores new hashes for
    the scraped item only: with the result ids distinct and no item
    holding two results of the same hash before the run, both hold after
    it, every hash stored before is stored after, and every hash stored
    after was stored before or belongs to the item.  The statement is
    about which hashes are stored, not about the order of the rows. *)
Theorem X11_scrape_keeps_hashes `{lib : GoLib} (config : Config) (fetch : Fetch)
    (now : Z) (item : WatchlistItem.t) (db : DB) :
  keyed db ->
  distinctHashes db ->
  let db' := snd (Scrape config fetch now item db) in
  keyed db' /\
  distinctHashes db' /\
  (forall i h, In (i, h) (hashes db) -> In (i, h) (hashes db')) /\
  (forall i h, In (i, h) (hashes db') ->
               In (i, h) (hashes db) \/ i = WatchlistItem.ID item).
Proof.
  intros K D. cbv zeta.
  assert (H : hashesKept (WatchlistItem.ID item) db (snd (Scrape config fetch now item db))).
  { unfold Scrape. destruct (statusIs "tv" _).
    - apply kept_scrapeTVShow.
    - destruct (movieURLs config item) as [|u us] eqn:U; [apply kept_refl|].
      apply kept_tryURLs. }
  exact (H K D).
Qed.

Lemma X11_scrape_keeps_hashes_witness :
  let db' := snd (Scrape Sample.config (Sample.source Sample.threeReleases) 100 Sample.movie
                    Sample.scoredResults) in
  keyed db' /\
  distinctHashes db' /\
  (forall i h, In (i, h) (hashes Sample.scoredResults) -> In (i, h) (hashes db')) /\
  (forall i h, In (i, h) (hashes db') ->
               In (i, h) (hashes Sample.scoredResults) \/ i = WatchlistItem.ID Sample.movie).
Proof.
  apply (X11_scrape_keeps_hashes Sample.config (Sample.source Sample.threeReleases)
           100 Sample.movie Sample.scoredResults).
  - split.
    + simpl. repeat constructor; simpl; intuition discriminate.
    + intros row Hin. simpl in Hin.
      destruct Hin as [<-|[<-|[<-|[]]]]; vm_compute; discriminate.
  - vm_compute. repeat constructor; simpl; intuition discriminate.
Defined.

(** ** Episodes of a series *)

Section EpisodeFacts.
Context {lib : GoLib} (config : Config).

Lemma episodeStreams_nil (streams : list Stream.t) (episodeInfo : TVEpisode.t * Z) :
  sortSlice higherScore
    (List.map (parsed config) (List.filter (namesEpisode episodeInfo) streams)) = []
  <-> existsb (namesEpisode episodeInfo) streams = false.
Proof.
  split.
  - intros H. apply sortSlice_nil in H. apply List.map_eq_nil in H.
    destruct (existsb _ streams) eqn:E; [|reflexivity].
    apply existsb_exists in E as (s & Hin & Hs).
    assert (In s (List.filter (namesEpisode episodeInfo) streams))
      by (apply filter_In; split; assumption).
    rewrite H in *. contradiction.
  - intros H.
    assert (F : List.filter (namesEpisode episodeInfo) streams = []).
    { destruct (List.filter _ streams) as [|s l] eqn:F; [reflexivity|].
      assert (In s (List.filter (namesEpisode episodeInfo) streams))
        by (rewrite F; left; reflexivity).
      apply filter_In in H0 as [Hin Hs].
      assert (existsb (namesEpisode episodeInfo) streams = true)
        by (apply existsb_exists; eauto).
      congruence. }
    rewrite F. reflexivity.
Qed.

Lemma scrapeEpisode_cases (now : Z) (streams : list Stream.t) (item : WatchlistItem.t)
    (db : DB) (foundAny : bool) (episodeInfo : TVEpisode.t * Z) :
  let st := scrapeEpisode config now now streams item (db, foundAny) episodeInfo in
  snd st = foundAny || counted now streams episodeInfo /\
  if due now streams episodeInfo
  then exists best rest,
         sortSlice higherScore
           (List.map (parsed config) (List.filter (namesEpisode episodeInfo) streams))
           = best :: rest /\
         fst st = saveForEpisode now item (fst episodeInfo) best "scraped" db
  else fst st = db.
Proof.
  destruct episodeInfo as [e n]. cbv zeta. unfold scrapeEpisode, due, counted.
  cbn [fst snd].
  destruct (notYetAired now e); cbn [negb andb]; [rewrite orb_false_r; tauto|].
  destruct (TVEpisode.Scraped e); cbn [negb andb orb]; [rewrite orb_true_r; tauto|].
  change (fun stream => GoStrings.Contains (Stream.Title stream)
                          (episodePattern n (TVEpisode.EpisodeNumber e)))
    with (namesEpisode (e, n)).
  pose proof (episodeStreams_nil streams (e, n)) as N.
  destruct (sortSlice higherScore _) as [|best rest].
  - rewrite (proj1 N eq_refl). cbn [fst snd]. rewrite orb_false_r. tauto.
  - destruct (existsb (namesEpisode (e, n)) streams).
    + cbn [fst snd]. rewrite orb_true_r. split; [reflexivity|]. eauto.
    + destruct N as [_ N]. discriminate (N eq_refl).
Qed.

Lemma fold_counted (now : Z) (streams : list Stream.t) (item : WatchlistItem.t)
    (episodes : list (TVEpisode.t * Z)) (st : DB * bool) :
  snd (fold_left (scrapeEpisode config now now streams item) episodes st)
  = snd st || existsb (counted now streams) episodes.
Proof.
  revert st. induction episodes as [|ep episodes IH]; intros [db f]; cbn [fold_left existsb].
  - cbn [snd]. rewrite orb_false_r. reflexivity.
  - rewrite IH.
    destruct (scrapeEpisode_cases now streams item db f ep) as [S _].
    rewrite S. rewrite orb_assoc. reflexivity.
Qed.

Lemma UpdateTVEpisode_scrapedRows (id : Z) (db : DB) (ep : TVEpisode.t) (resultID : Z) :
  scrapedRows id db -> scrapedRows id (UpdateTVEpisode db (markScraped ep resultID)).
Proof.
  intros H row Hin Hid. unfold UpdateTVEpisode in Hin.
  cbn [tv_episodes withEpisodes] in Hin.
  apply in_map_iff in Hin as (row0 & <- & Hin0).
  destruct (TVEpisode.ID row0 =? TVEpisode.ID (markScraped ep resultID)).
  - split; reflexivity.
  - apply (H row0 Hin0 Hid).
Qed.

Lemma UpdateTVEpisode_marks (db : DB) (ep : TVEpisode.t) (resultID : Z) :
  scrapedRows (TVEpisode.ID ep) (UpdateTVEpisode db (markScraped ep resultID)).
Proof.
  intros row Hin Hid. unfold UpdateTVEpisode in Hin.
  cbn [tv_episodes withEpisodes] in Hin.
  apply in_map_iff in Hin as (row0 & <- & Hin0).
  destruct (TVEpisode.ID row0 =? TVEpisode.ID (markScraped ep resultID)) eqn:E.
  - split; reflexivity.
  - cbn [TVEpisode.ID markScraped] in E. apply Z.eqb_neq in E. contradiction.
Qed.

Lemma scrapedRows_episodes (id : Z) (db db' : DB) :
  tv_episodes db' = tv_episodes db -> scrapedRows id db -> scrapedRows id db'.
Proof. intros E H row Hin. rewrite E in Hin. apply H, Hin. Qed.

Lemma saveForEpisode_scrapedRows (id : Z) (now : Z) (item : WatchlistItem.t)
    (ep : TVEpisode.t) (stream : Stream.t) (status : string) (db : DB) :
  scrapedRows id db \/ id = TVEpisode.ID ep ->
  scrapedRows id (saveForEpisode now item ep stream status db).
Proof.
  intros H. unfold saveForEpisode.
  pose proof (SaveScrapeResult_episodes now db (streamResult now item stream status)) as Hs.
  destruct (SaveScrapeResult now db (streamResult now item stream status)) as [rid db'].
  cbn [snd] in Hs. destruct H as [H| ->].
  - apply UpdateTVEpisode_scrapedRows. apply (scrapedRows_episodes id db db' Hs H).
  - apply UpdateTVEpisode_marks.
Qed.

Lemma fold_scrapedRows (id : Z) (now : Z) (streams : list Stream.t) (item : WatchlistItem.t)
    (episodes : list (TVEpisode.t * Z)) (st : DB * bool) :
  scrapedRows id (fst st) \/
  (exists e n, In (e, n) episodes /\ TVEpisode.ID e = id /\ due now streams (e, n) = true) ->
  scrapedRows id (fst (fold_left (scrapeEpisode config now now streams item) episodes st)).
Proof.
  revert st. induction episodes as [|ep episodes IH]; intros [db f] H; cbn [fold_left].
  - destruct H as [H|(e & n & [] & _)]. exact H.
  - apply IH.
    destruct (scrapeEpisode_cases now streams item db f ep) as [_ C].
    destruct (scrapeEpisode config now now streams item (db, f) ep) as [db1 f1].
    cbn [fst] in *.
    destruct H as [H|(e & n & [->|Hin] & Hid & Hdue)].
    + left. destruct (due now streams ep).
      * destruct C as (best & rest & _ & ->). apply saveForEpisode_scrapedRows. left. exact H.
      * rewrite C. exact H.
    + left. rewrite Hdue in C. destruct C as (best & rest & _ & ->).
      apply saveForEpisode_scrapedRows. right. symmetry. exact Hid.
    + right. eauto.
Qed.

Lemma fold_kept (now : Z) (streams : list Stream.t) (item : WatchlistItem.t)
    (e : TVEpisode.t) (db0 : DB) (episodes : list (TVEpisode.t * Z)) (st : DB * bool) :
  (forall ep n, In (ep, n) episodes -> due now streams (ep, n) = true ->
                TVEpisode.ID ep <> TVEpisode.ID e) ->
  kept e db0 (fst st) ->
  kept e db0 (fst (fold_left (scrapeEpisode config now now streams item) episodes st)).
Proof.
  revert st. induction episodes as [|[ep n] episodes IH]; intros [db f] Hdiff Hk; [exact Hk|].
  cbn [fold_left]. apply IH; [intros ep' n' H; apply (Hdiff ep' n'); right; exact H|].
  destruct (scrapeEpisode_cases now streams item db f (ep, n)) as [_ C].
  destruct (scrapeEpisode config now now streams item (db, f) (ep, n)) as [db1 f1].
  cbn [fst] in *. destruct (due now streams (ep, n)) eqn:D.
  - destruct C as (best & rest & _ & ->). apply saveForEpisode_kept; [|exact Hk].
    apply (Hdiff ep n); [left; reflexivity|exact D].
  - rewrite C. exact Hk.
Qed.

End EpisodeFacts.

(** X12.  [scrapeTVShow] fails when the show request fails; otherwise it
    returns no error exactly when some episode that has aired was scraped
    before or is named by a stream of the answer. *)
Theorem X12_scrapeTVShow_result `{lib : GoLib} (config : Config) (fetch : Fetch) (now : Z)
    (item : WatchlistItem.t) (db : DB) :
  fst (scrapeTVShow config fetch now item db)
  = match fetch (showURL config item) with
    | None => Some "failed to get show streams"
    | Some streams =>
        if existsb (counted now streams) (allEpisodes db item)
        then None else Some "failed to scrape any episodes"
    end.
Proof.
  unfold scrapeTVShow. cbv zeta.
  destruct (fetch (showURL config item)) as [streams|]; [|reflexivity].
  pose proof (fold_counted config now streams item (allEpisodes db item) (db, false)) as F.
  destruct (fold_left _ _ _) as [db' found]. cbn [snd orb] in F. rewrite <- F.
  destruct found; reflexivity.
Qed.

(** X13.  After [scrapeTVShow], with distinct episode ids: an episode
    that has aired, was not scraped and is named by some stream is scraped
    and points at a result; an episode for which that does not hold (not
    aired yet, scraped before, or named by no stream) has its row as it
    was. *)
Theorem X13_scrapeTVShow_episode `{lib : GoLib} (config : Config) (fetch : Fetch) (now : Z)
    (item : WatchlistItem.t) (db : DB) (streams : list Stream.t) (e : TVEpisode.t) :
  fetch (showURL config item) = Some streams ->
  In e (tv_episodes db) ->
  List.NoDup (List.map TVEpisode.ID (tv_episodes db)) ->
  let db' := snd (scrapeTVShow config fetch now item db) in
  ((exists n, In (e, n) (allEpisodes db item) /\ due now streams (e, n) = true) ->
   scrapedRows (TVEpisode.ID e) db') /\
  ((forall n, In (e, n) (allEpisodes db item) -> due now streams (e, n) = false) ->
   kept e db db').
Proof.
  intros Hf Hin Hnd. cbv zeta. unfold scrapeTVShow. cbv zeta. rewrite Hf.
  pose proof (fold_scrapedRows config (TVEpisode.ID e) now streams item
                (allEpisodes db item) (db, false)) as S.
  pose proof (fold_kept config now streams item e db (allEpisodes db item) (db, false)) as K.
  destruct (fold_left _ _ _) as [db' found]. cbn [fst] in S, K.
  assert (R : forall d, d = db' ->
    ((exists n, In (e, n) (allEpisodes db item) /\ due now streams (e, n) = true) ->
     scrapedRows (TVEpisode.ID e) d) /\
    ((forall n, In (e, n) (allEpisodes db item) -> due now streams (e, n) = false) ->
     kept e db d)).
  { intros d ->. split.
    - intros (n & Hn & Hd). apply S. right. exists e, n. auto.
    - intros Hnot. apply K; [|split; [exact Hin|reflexivity]].
      intros ep n Hep Hd Hid.
      assert (ep = e).
      { apply (unique_id db ep e Hnd);
          [apply (allEpisodes_rows db item ep n Hep)|exact Hin|exact Hid]. }
      subst ep. rewrite (Hnot n Hep) in Hd. discriminate. }
  apply R. destruct found; reflexivity.
Qed.

Lemma X13_scrapeTVShow_episode_witness :
  let e := Sample.episode 101 1 50 in
  let db' := snd (scrapeTVShow Sample.config (Sample.source Sample.seasonCandidates) 100
                    Sample.series Sample.airingDB) in
  ((exists n, In (e, n) (allEpisodes Sample.airingDB Sample.series) /\
              due 100 Sample.seasonCandidates (e, n) = true) ->
   scrapedRows (TVEpisode.ID e) db') /\
  ((forall n, In (e, n) (allEpisodes Sample.airingDB Sample.series) ->
              due 100 Sample.seasonCandidates (e, n) = false) ->
   kept e Sample.airingDB db').
Proof.
  apply (X13_scrapeTVShow_episode Sample.config (Sample.source Sample.seasonCandidates) 100
           Sample.series Sample.airingDB Sample.seasonCandidates (Sample.episode 101 1 50)).
  - reflexivity.
  - left. reflexivity.
  - simpl. repeat constructor; simpl; intuition discriminate.
Defined.

(** X14.  For an episode that is due, the round of [scrapeTVShow] saves
    the result of a stream whose title names the episode and whose score
    is the highest of all streams that name it. *)
Theorem X14_episode_best_stream `{lib : GoLib} (config : Config) (now : Z)
    (streams : list Stream.t) (item : WatchlistItem.t) (db : DB) (foundAny : bool)
    (episode : TVEpisode.t) (seasonNumber : Z) :
  due now streams (episode, seasonNumber) = true ->
  exists stream,
    In stream streams /\
    namesEpisode (episode, seasonNumber) stream = true /\
    (forall other, In other streams -> namesEpisode (episode, seasonNumber) other = true ->
                   Stream.Score (parsed config other) <= Stream.Score (parsed config stream)) /\
    scrapeEpisode config now now streams item (db, foundAny) (episode, seasonNumber)
    = (saveForEpisode now item episode (parsed config stream) "scraped" db, true).
Proof.
  intros D.
  destruct (scrapeEpisode_cases config now streams item db foundAny (episode, seasonNumber))
    as [F C].
  rewrite D in C. destruct C as (best & rest & Hs & Hdb).
  apply higherScore_head in Hs as [Hin Hmax].
  apply in_map_iff in Hin as (stream & <- & Hin). apply filter_In in Hin as [Hin Hn].
  exists stream. split; [exact Hin|]. split; [exact Hn|]. split.
  - intros other Ho Hno. apply Hmax. apply in_map. apply filter_In. split; assumption.
  - destruct (scrapeEpisode config now now streams item (db, foundAny) (episode, seasonNumber))
      as [db1 f1]. cbn [fst snd] in *. rewrite Hdb, F.
    unfold due in D. apply andb_prop in D as [D1 D3]. apply andb_prop in D1 as [D1 D2].
    unfold counted. cbn [fst snd] in *. rewrite D1, D3, !orb_true_r. reflexivity.
Qed.

Lemma X14_episode_best_stream_witness :
  exists stream,
    In stream Sample.seasonCandidates /\
    namesEpisode (Sample.episode 101 1 50, 1) stream = true /\
    (forall other, In other Sample.seasonCandidates ->
                   namesEpisode (Sample.episode 101 1 50, 1) other = true ->
                   Stream.Score (parsed Sample.config other)
                   <= Stream.Score (parsed Sample.config stream)) /\
    scrapeEpisode Sample.config 100 100 Sample.seasonCandidates Sample.series
      (Sample.seriesDB, false) (Sample.episode 101 1 50, 1)
    = (saveForEpisode 100 Sample.series (Sample.episode 101 1 50)
         (parsed Sample.config stream) "scraped" Sample.seriesDB, true).
Proof.
  apply (X14_episode_best_stream Sample.config 100 Sample.seasonCandidates Sample.series
           Sample.seriesDB false (Sample.episode 101 1 50) 1).
  vm_compute. reflexivity.
Defined.

(** ** What a scrape writes *)

Section FrameScrape.
Context {lib : GoLib} (config : Config).

Lemma scrapeFrame_refl (db : DB) : scrapeFrame db db.
Proof.
  split; [reflexivity|]. split; [reflexivity|]. split; [reflexivity|].
  exists []. rewrite List.app_nil_r. reflexivity.
Qed.

Lemma scrapeFrame_trans (a b c : DB) : scrapeFrame a b -> scrapeFrame b c -> scrapeFrame a c.
Proof.
  intros (A1 & A2 & A3 & x & A4) (B1 & B2 & B3 & y & B4).
  split; [congruence|]. split; [congruence|]. split; [congruence|].
  exists (x ++ y)%list. rewrite B4, A4, List.app_assoc. reflexivity.
Qed.

Lemma scrapeFrame_ids (db db' : DB) :
  watchlistitem db' = watchlistitem db ->
  seasons db' = seasons db ->
  List.map TVEpisode.ID (tv_episodes db') = List.map TVEpisode.ID (tv_episodes db) ->
  List.map ScrapeResult.ID (scrape_results db') = List.map ScrapeResult.ID (scrape_results db) ->
  scrapeFrame db db'.
Proof.
  intros H1 H2 H3 H4. split; [exact H1|]. split; [exact H2|]. split; [exact H3|].
  exists []. rewrite List.app_nil_r. exact H4.
Qed.

Lemma scrapeFrame_save (now : Z) (db : DB) (r : ScrapeResult.t) :
  scrapeFrame db (snd (SaveScrapeResult now db r)) /\
  tv_episodes (snd (SaveScrapeResult now db r)) = tv_episodes db.
Proof.
  rewrite SaveScrapeResult_find.
  destruct (if NullString.Valid (ScrapeResult.InfoHash r) then _ else _) as [row|];
    cbn [snd]; (split; [|reflexivity]).
  - apply scrapeFrame_ids; try reflexivity. apply UpdateScrapeResult_ids.
  - split; [reflexivity|]. split; [reflexivity|]. split; [reflexivity|].
    eexists. cbn [scrape_results withResults]. rewrite List.map_app. reflexivity.
Qed.

Lemma scrapeFrame_status (now : Z) (db : DB) (itemID : Z) (status : string) :
  scrapeFrame db (UpdateScrapeResultStatus now db itemID status) /\
  tv_episodes (UpdateScrapeResultStatus now db itemID status) = tv_episodes db.
Proof.
  split; [|reflexivity]. apply scrapeFrame_ids; try reflexivity.
  apply UpdateScrapeResultStatus_ids.
Qed.

Lemma scrapeFrame_saveForEpisode (now : Z) (item : WatchlistItem.t) (episode : TVEpisode.t)
    (stream : Stream.t) (status : string) (db : DB) :
  scrapeFrame db (saveForEpisode now item episode stream status db).
Proof.
  unfold saveForEpisode.
  pose proof (scrapeFrame_save now db (streamResult now item stream status)) as [F _].
  destruct (SaveScrapeResult now db (streamResult now item stream status)) as [id db1].
  cbn [snd] in F. eapply scrapeFrame_trans; [exact F|].
  apply scrapeFrame_ids; try reflexivity. apply UpdateTVEpisode_ids.
Qed.

Lemma scrapeFrame_processStreams (now : Z) (streams : list Stream.t)
    (item : WatchlistItem.t) (db : DB) :
  scrapeFrame db (snd (processStreams config now streams item db)) /\
  tv_episodes (snd (processStreams config now streams item db)) = tv_episodes db.
Proof.
  unfold processStreams. destruct streams as [|s l]; [split; [apply scrapeFrame_refl|reflexivity]|].
  destruct (rankedStreams config (s :: l) item) as [|best rest];
    [split; [apply scrapeFrame_refl|reflexivity]|].
  pose proof (scrapeFrame_save now db (bestMatchResult now item best)) as F.
  destruct (SaveScrapeResult now db (bestMatchResult now item best)) as [id db1]. exact F.
Qed.

Lemma scrapeFrame_scrapeResponse (now : Z) (streams : list Stream.t)
    (item : WatchlistItem.t) (db : DB) :
  scrapeFrame db (snd (scrapeResponse config now streams item db)) /\
  tv_episodes (snd (scrapeResponse config now streams item db)) = tv_episodes db.
Proof.
  unfold scrapeResponse. cbv zeta.
  generalize (GetExistingHashForItem db (WatchlistItem.ID item)). intros existing.
  assert (F : forall l d,
    let d' := fold_left (fun db stream =>
                if String.eqb (Stream.InfoHash stream) existing
                then UpdateScrapeResultStatus now db (WatchlistItem.ID item) "ignored hash"
                else db) l d in
    scrapeFrame d d' /\ tv_episodes d' = tv_episodes d).
  { induction l as [|s l IH]; intros d; cbv zeta; cbn [fold_left].
    - split; [apply scrapeFrame_refl|reflexivity].
    - destruct (String.eqb _ _); [|apply IH].
      destruct (IH (UpdateScrapeResultStatus now d (WatchlistItem.ID item) "ignored hash"))
        as [A B].
      split; [|rewrite B; reflexivity].
      eapply scrapeFrame_trans; [apply scrapeFrame_status|exact A]. }
  destruct (F streams db) as [A B].
  destruct (List.filter _ streams); [split; assumption|].
  match goal with |- context [processStreams config now ?l item ?d] =>
    destruct (scrapeFrame_processStreams now l item d) as [C D] end.
  split; [eapply scrapeFrame_trans; eassumption|congruence].
Qed.

Lemma scrapeFrame_tryURLs (fetch : Fetch) (now : Z) (urls : list string)
    (item : WatchlistItem.t) (db : DB) :
  scrapeFrame db (snd (tryURLs config fetch now urls item db)) /\
  tv_episodes (snd (tryURLs config fetch now urls item db)) = tv_episodes db.
Proof.
  induction urls as [|url rest IH]; cbn [tryURLs].
  - split; [apply scrapeFrame_refl|reflexivity].
  - destruct (fetch url); [apply scrapeFrame_scrapeResponse|exact IH].
Qed.

Lemma scrapeFrame_scrapeTVShow (fetch : Fetch) (now : Z) (item : WatchlistItem.t) (db : DB) :
  scrapeFrame db (snd (scrapeTVShow config fetch now item db)).
Proof.
  unfold scrapeTVShow. cbv zeta.
  destruct (fetch (showURL config item)) as [streams|]; [|apply scrapeFrame_refl].
  assert (F : forall episodes st,
    scrapeFrame (fst st)
      (fst (fold_left (scrapeEpisode config now now streams item) episodes st))).
  { induction episodes as [|ep episodes IH]; intros st; [apply scrapeFrame_refl|].
    cbn [fold_left]. eapply scrapeFrame_trans; [|apply IH].
    destruct st as [d f].
    destruct (scrapeEpisode_cases config now streams item d f ep) as [_ C].
    destruct (due now streams ep).
    - destruct C as (best & rest & _ & ->). apply scrapeFrame_saveForEpisode.
    - rewrite C. apply scrapeFrame_refl. }
  specialize (F (allEpisodes db item) (db, false)).
  destruct (fold_left _ _ _) as [db' found]. destruct found; exact F.
Qed.

End FrameScrape.

(** X15.  [Scrape] never writes an item or a season and never adds,
    deletes or renumbers an episode; result rows are only added at the end
    or rewritten in place, and for an item that is not a series the
    episodes are untouched. *)
Theorem X15_scrape_frame `{lib : GoLib} (config : Config) (fetch : Fetch) (now : Z)
    (item : WatchlistItem.t) (db : DB) :
  let db' := snd (Scrape config fetch now item db) in
  scrapeFrame db db' /\
  (statusIs "tv" (WatchlistItem.MediaType item) = false -> tv_episodes db' = tv_episodes db).
Proof.
  cbv zeta. unfold Scrape. destruct (statusIs "tv" _).
  - split; [apply scrapeFrame_scrapeTVShow|discriminate].
  - destruct (movieURLs config item) as [|u us].
    + split; [apply scrapeFrame_refl|reflexivity].
    + destruct (scrapeFrame_tryURLs config fetch now (u :: us) item db) as [A B].
      split; [exact A|intros _; exact B].
Qed.

(** X16.  [processSeasonPack] returns no error, saves one result for the
    pack (the hash of the stream, status ready_for_download) and leaves
    every episode of the season scraped and pointing at that result, with
    the episode ids as they were. *)
Theorem X16_season_pack_saved (now : Z) (stream : Stream.t) (item : WatchlistItem.t)
    (season : Season.t) (db : DB) :
  let saved := SaveScrapeResult now db (streamResult now item stream "ready_for_download") in
  let run := processSeasonPack now stream item season db in
  fst run = None /\
  scrape_results (snd run) = scrape_results (snd saved) /\
  (exists row,
     In row (scrape_results (snd run)) /\
     ScrapeResult.ID row = fst saved /\
     ScrapeResult.WatchlistItemID row = WatchlistItem.ID item /\
     ScrapeResult.InfoHash row = NullString.valid (Stream.InfoHash stream) /\
     ScrapeResult.StatusResults row = NullString.valid "ready_for_download") /\
  List.map TVEpisode.ID (tv_episodes (snd run)) = List.map TVEpisode.ID (tv_episodes db) /\
  forall row, In row (tv_episodes (snd run)) ->
              TVEpisode.SeasonID row = Season.ID season ->
              pointsAt (fst saved) row.
Proof.
  cbv zeta.
  pose proof (processSeasonPack_marks_season now stream item season db) as M.
  cbv zeta in M.
  pose proof (SaveScrapeResult_stored now db
                (streamResult now item stream "ready_for_download") eq_refl)
    as (row & R1 & R2 & R3 & R4 & _ & R6).
  assert (E : fst (processSeasonPack now stream item season db) = None /\
              scrape_results (snd (processSeasonPack now stream item season db))
              = scrape_results
                  (snd (SaveScrapeResult now db
                          (streamResult now item stream "ready_for_download")))).
  { unfold processSeasonPack.
    destruct (SaveScrapeResult now db (streamResult now item stream "ready_for_download"))
      as [id db1]. cbn [fst snd]. split; [reflexivity|].
    rewrite mark_fold. reflexivity. }
  destruct E as [E1 E2]. split; [exact E1|]. split; [exact E2|]. split; [|exact M].
  exists row. rewrite E2. repeat split; assumption.
Qed.

(** X17.  When the first URL of a movie answers and some stream has a
    hash other than the stored one, [Scrape] succeeds and stores, with
    status ready_for_download, the result of a best match that is one of
    the answered streams and does not carry the stored hash. *)
Theorem X17_scrape_leaves_out_stored_hash `{lib : GoLib} (config : Config) (fetch : Fetch)
    (now : Z) (item : WatchlistItem.t) (db : DB) (url : string) (urls : list string)
    (streams : list Stream.t) :
  statusIs "tv" (WatchlistItem.MediaType item) = false ->
  movieURLs config item = url :: urls ->
  fetch url = Some streams ->
  let existing := GetExistingHashForItem db (WatchlistItem.ID item) in
  (exists s, In s streams /\ Stream.InfoHash s <> existing) ->
  exists bestMatch s0 row,
    In s0 streams /\ Stream.reset bestMatch = Stream.reset s0 /\
    Stream.InfoHash bestMatch <> existing /\
    fst (Scrape config fetch now item db) = None /\
    In row (scrape_results (snd (Scrape config fetch now item db))) /\
    ScrapeResult.WatchlistItemID row = WatchlistItem.ID item /\
    ScrapeResult.InfoHash row = NullString.valid (Stream.InfoHash bestMatch) /\
    ScrapeResult.StatusResults row = NullString.valid "ready_for_download".
Proof.
  intros TV U F existing H.
  destruct (scrapeResponse_leaves_out_existing config now streams item db H)
    as (bestMatch & rest & s0 & db1 & _ & H1 & H2 & H3 & H4).
  pose proof (SaveScrapeResult_stored now db1 (bestMatchResult now item bestMatch) eq_refl)
    as (row & R1 & _ & R3 & R4 & _ & R6).
  exists bestMatch, s0, row.
  assert (E : Scrape config fetch now item db = scrapeResponse config now streams item db).
  { unfold Scrape. rewrite TV, U. cbn [tryURLs]. rewrite F. reflexivity. }
  rewrite E, H4. cbn [fst snd]. repeat split; assumption.
Qed.

Lemma X17_scrape_leaves_out_stored_hash_witness :
  exists bestMatch s0 row,
    In s0 Sample.threeReleases /\ Stream.reset bestMatch = Stream.reset s0 /\
    Stream.InfoHash bestMatch
      <> GetExistingHashForItem Sample.scoredResults (WatchlistItem.ID Sample.movie) /\
    fst (Scrape Sample.config (Sample.source Sample.threeReleases) 100 Sample.movie
           Sample.scoredResults) = None /\
    In row (scrape_results
              (snd (Scrape Sample.config (Sample.source Sample.threeReleases) 100
                      Sample.movie Sample.scoredResults))) /\
    ScrapeResult.WatchlistItemID row = WatchlistItem.ID Sample.movie /\
    ScrapeResult.InfoHash row = NullString.valid (Stream.InfoHash bestMatch) /\
    ScrapeResult.StatusResults row = NullString.valid "ready_for_download".
Proof.
  apply (X17_scrape_leaves_out_stored_hash Sample.config
           (Sample.source Sample.threeReleases) 100 Sample.movie Sample.scoredResults
           "https://torrentio/stream/movie/tt0120382.json" [] Sample.threeReleases).
  - reflexivity.
  - vm_compute. reflexivity.
  - reflexivity.
  - exists (Sample.stream "Movie 1080p x265" "8.0" "hashB").
    split; [right; left; reflexivity|]. vm_compute. discriminate.
Defined.

(** ** When a movie scrape succeeds *)

Section MovieResult.
Context {lib : GoLib} (config : Config).

Lemma processStreams_error (now : Z) (streams : list Stream.t) (item : WatchlistItem.t)
    (db : DB) :
  fst (processStreams config now streams item db)
  = match streams with [] => Some "no streams found" | _ => None end.
Proof.
  unfold processStreams. destruct streams as [|s l]; [reflexivity|].
  destruct (rankedStreams config (s :: l) item); [reflexivity|].
  destruct (SaveScrapeResult now db _). reflexivity.
Qed.

Lemma filter_other_nil (existing : string) (streams : list Stream.t) :
  List.filter (fun stream => negb (String.eqb (Stream.InfoHash stream) existing)) streams = []
  <-> forallb (fun stream => String.eqb (Stream.InfoHash stream) existing) streams = true.
Proof.
  induction streams as [|s l IH]; cbn [List.filter forallb]; [tauto|].
  destruct (String.eqb (Stream.InfoHash s) existing); cbn [negb andb]; [exact IH|].
  split; discriminate.
Qed.

Lemma scrapeResponse_error (now : Z) (streams : list Stream.t) (item : WatchlistItem.t)
    (db : DB) :
  fst (scrapeResponse config now streams item db)
  = if forallb (fun stream =>
                  String.eqb (Stream.InfoHash stream)
                    (GetExistingHashForItem db (WatchlistItem.ID item))) streams
    then Some "no valid streams found after filtering" else None.
Proof.
  unfold scrapeResponse. cbv zeta.
  pose proof (filter_other_nil (GetExistingHashForItem db (WatchlistItem.ID item)) streams)
    as N.
  destruct (List.filter _ streams) as [|s l].
  - rewrite (proj1 N eq_refl). reflexivity.
  - rewrite processStreams_error.
    destruct (forallb _ streams); [|reflexivity].
    destruct N as [_ N]. discriminate (N eq_refl).
Qed.

Lemma tryURLs_error (fetch : Fetch) (now : Z) (urls : list string) (item : WatchlistItem.t)
    (db : DB) :
  fst (tryURLs config fetch now urls item db)
  = match firstAnswer fetch urls with
    | None => Some "all URLs failed. Last error"
    | Some streams =>
        if forallb (fun stream =>
                      String.eqb (Stream.InfoHash stream)
                        (GetExistingHashForItem db (WatchlistItem.ID item))) streams
        then Some "no valid streams found after filtering" else None
    end.
Proof.
  induction urls as [|url rest IH]; cbn [tryURLs firstAnswer]; [reflexivity|].
  destruct (fetch url); [apply scrapeResponse_error|exact IH].
Qed.

End MovieResult.

(** X18.  [Scrape] of an item that is not a series fails when the item
    has no id to build a URL from, when no URL answers, and when every
    stream of the first answer carries the stored hash; in every other
    case it returns no error.  The first URL that answers decides: no
    later URL is asked. *)
Theorem X18_scrape_movie_result `{lib : GoLib} (config : Config) (fetch : Fetch) (now : Z)
    (item : WatchlistItem.t) (db : DB) :
  statusIs "tv" (WatchlistItem.MediaType item) = false ->
  fst (Scrape config fetch now item db)
  = match movieURLs config item with
    | [] => Some "no valid ID found for item"
    | urls =>
        match firstAnswer fetch urls with
        | None => Some "all URLs failed. Last error"
        | Some streams =>
            if forallb (fun stream =>
                          String.eqb (Stream.InfoHash stream)
                            (GetExistingHashForItem db (WatchlistItem.ID item))) streams
            then Some "no valid streams found after filtering" else None
        end
    end.
Proof.
  intros TV. unfold Scrape. rewrite TV.
  destruct (movieURLs config item) as [|u us]; [reflexivity|]. apply tryURLs_error.
Qed.

Lemma X18_scrape_movie_result_witness :
  fst (Scrape Sample.config (Sample.source Sample.threeReleases) 100 Sample.movie
         Sample.scoredResults)
  = match movieURLs Sample.config Sample.movie with
    | [] => Some "no valid ID found for item"
    | urls =>
        match firstAnswer (Sample.source Sample.threeReleases) urls with
        | None => Some "all URLs failed. Last error"
        | Some streams =>
            if forallb (fun stream =>
                          String.eqb (Stream.InfoHash stream)
                            (GetExistingHashForItem Sample.scoredResults
                               (WatchlistItem.ID Sample.movie))) streams
            then Some "no valid streams found after filtering" else None
        end
    end.
Proof.
  apply (X18_scrape_movie_result Sample.config (Sample.source Sample.threeReleases) 100
           Sample.movie Sample.scoredResults).
  reflexivity.
Defined.


(** ** What a download writes *)

Section Respect.
Context (debrid : Debrid) (now : Z).
Context (R : World.t -> World.t -> Prop).
Hypothesis R_refl : forall w, R w w.
Hypothesis R_trans : forall a b c, R a b -> R b c -> R a c.
Hypothesis R_sent : forall w reqs, R w (sent w reqs).
Hypothesis R_update : forall w t r, R w (stored w (UpdateScrapeResult t (World.db w) r)).

Lemma respects_ret {A} (a : A) : respects R (ret a).
Proof. intros w. apply R_refl. Qed.

Lemma respects_fail {A} (e : error) : respects R (@fail A e).
Proof. intros w. apply R_refl. Qed.

Lemma respects_bind {A B} (c : M A) (k : A -> M B) :
  respects R c -> (forall a, respects R (k a)) -> respects R (bind c k).
Proof.
  intros Hc Hk w. unfold bind. specialize (Hc w).
  destruct (c w) as [[e|a] w']; [exact Hc|].
  eapply R_trans; [exact Hc|apply Hk].
Qed.

Lemma respects_try {A} (c : M A) : respects R c -> respects R (try c).
Proof. intros Hc w. unfold try. specialize (Hc w). destruct (c w). exact Hc. Qed.

Lemma respects_request (req : Request) : respects R (request debrid req).
Proof. intros w. apply (R_sent w [req]). Qed.

Lemma respects_update (t : Z) (r : ScrapeResult.t) :
  respects R (exec (fun db => UpdateScrapeResult t db r)).
Proof. intros w. apply R_update. Qed.

Ltac solve_respects :=
  repeat first
    [ apply respects_ret | apply respects_fail | apply respects_request
    | apply respects_update | apply respects_try
    | apply respects_bind; [|intros ?]
    | match goal with |- respects _ (match ?x with _ => _ end) => destruct x end
    | match goal with |- respects _ (if ?x then _ else _) => destruct x end ].

Lemma respects_updateDownloadStatus (r : ScrapeResult.t) (status : string) :
  respects R (updateDownloadStatus now r status).
Proof. unfold updateDownloadStatus. solve_respects. Qed.

Lemma respects_getDownloadLink (torrentID : string) (r : ScrapeResult.t) :
  respects R (getDownloadLink debrid now torrentID r).
Proof. unfold getDownloadLink, removeTorrent. solve_respects. Qed.

Lemma respects_waitLoop (n : nat) (torrentID : string) (r : ScrapeResult.t) :
  respects R (waitLoop debrid now n torrentID r).
Proof.
  induction n as [|n IH]; cbn [waitLoop]; [apply respects_fail|].
  apply respects_bind.
  - apply respects_try. unfold checkDownloadStatus, updateDownloadStatus. solve_respects.
  - intros [e|r']; [exact IH|apply respects_ret].
Qed.

Lemma respects_downloadEpisode (r : ScrapeResult.t) :
  respects R (downloadEpisode debrid now r).
Proof.
  unfold downloadEpisode, addTorrent, selectFiles.
  destruct (String.eqb _ "scraped"); [|apply respects_ret].
  repeat first
    [ apply respects_updateDownloadStatus | apply respects_getDownloadLink
    | apply respects_waitLoop
    | apply respects_ret | apply respects_fail | apply respects_request
    | apply respects_try
    | apply respects_bind; [|intros ?]
    | match goal with |- respects _ (match ?x with _ => _ end) => destruct x end ].
Qed.

Lemma respects_forEach {A} (f : A -> M unit) (l : list A) :
  (forall x, respects R (f x)) -> respects R (forEach f l).
Proof.
  intros Hf. induction l as [|x l IH]; cbn [forEach]; [apply respects_ret|].
  apply respects_bind; [apply Hf|intros _; exact IH].
Qed.

End Respect.

Section FrameFacts.
Context (debrid : Debrid) (now : Z).

Lemma sameItems_refl (w : World.t) : sameItems w w.
Proof. reflexivity. Qed.

Lemma sameItems_trans (a b c : World.t) : sameItems a b -> sameItems b c -> sameItems a c.
Proof. unfold sameItems. congruence. Qed.

Lemma sameItems_sent (w : World.t) (reqs : list Request) : sameItems w (sent w reqs).
Proof. reflexivity. Qed.

Lemma sameItems_update (w : World.t) (t : Z) (r : ScrapeResult.t) :
  sameItems w (stored w (UpdateScrapeResult t (World.db w) r)).
Proof. reflexivity. Qed.

Lemma sameRows_refl (w : World.t) : sameRows w w.
Proof. repeat split. Qed.

Lemma sameRows_trans (a b c : World.t) : sameRows a b -> sameRows b c -> sameRows a c.
Proof. unfold sameRows. intros (?&?&?&?) (?&?&?&?). repeat split; congruence. Qed.

Lemma sameRows_sent (w : World.t) (reqs : list Request) : sameRows w (sent w reqs).
Proof. repeat split. Qed.

Lemma sameRows_update (w : World.t) (t : Z) (r : ScrapeResult.t) :
  sameRows w (stored w (UpdateScrapeResult t (World.db w) r)).
Proof.
  split; [reflexivity|]. split; [reflexivity|]. apply UpdateScrapeResult_ids.
Qed.

Lemma sameRows_item (w : World.t) (t : Z) (item : WatchlistItem.t) :
  sameRows w (stored w (UpdateWatchlistItem t (World.db w) item)).
Proof. repeat split. Qed.

Lemma clean_respects {A} (c : M A) : respects sameItems c -> cleanFailure c.
Proof. intros H w e _. apply H. Qed.

Lemma clean_bind {A B} (c : M A) (k : A -> M B) :
  respects sameItems c -> (forall a, cleanFailure (k a)) -> cleanFailure (bind c k).
Proof.
  intros Hc Hk w e. unfold bind. specialize (Hc w).
  destruct (c w) as [[e'|a] w'] eqn:E; cbn [fst snd] in *; [intros _; exact Hc|].
  intros F. eapply sameItems_trans; [exact Hc|]. apply (Hk a w' e F).
Qed.

Lemma clean_exec (f : DB -> DB) : cleanFailure (exec f).
Proof. intros w e F. discriminate F. Qed.

Lemma downloadEpisode_ok (r : ScrapeResult.t) (w : World.t) :
  fst (downloadEpisode debrid now r w) = inr tt.
Proof.
  unfold downloadEpisode. destruct (String.eqb _ "scraped"); [|reflexivity].
  unfold updateDownloadStatus, bind, try, ret, exec. cbv beta iota.
  repeat (match goal with
          | |- context [match ?c ?x with _ => _ end] =>
              match type of (c x) with
              | (_ * World.t)%type => destruct (c x) as [[?|?] ?]
              end
          end; cbv beta iota); reflexivity.
Qed.

Lemma forEach_ok {A} (f : A -> M unit) (l : list A) (w : World.t) :
  (forall x w, fst (f x w) = inr tt) -> fst (forEach f l w) = inr tt.
Proof.
  intros Hf. revert w. induction l as [|x l IH]; intros w; cbn [forEach]; [reflexivity|].
  unfold bind. specialize (Hf x w). destruct (f x w) as [[e|[]] w']; [discriminate|].
  apply IH.
Qed.

End FrameFacts.

(** X19.  [Download] never writes a season or an episode and never adds
    or deletes a result: the result ids and the sequence are as they
    were, whatever the service answers. *)
Theorem X19_download_frame (debrid : Debrid) (now : Z) (item : WatchlistItem.t) (w : World.t) :
  sameRows w (snd (Download debrid now item w)).
Proof.
  revert w. change (respects sameRows (Download debrid now item)).
  pose proof sameRows_refl as R1. pose proof sameRows_trans as R2.
  pose proof sameRows_sent as R3. pose proof sameRows_update as R4.
  unfold Download. apply respects_bind; [exact R2|intros w; apply R1|].
  intros results. destruct results as [|r results]; [apply respects_fail, R1|].
  destruct (statusIs "tv" _).
  - apply respects_forEach; [exact R1|exact R2|].
    intros x. apply respects_downloadEpisode; assumption.
  - destruct (bestResult (r :: results)) as [best sc].
    destruct (sc =? 0); [apply respects_fail, R1|].
    destruct best as [best|]; [|apply respects_fail, R1].
    unfold addTorrent, selectFiles, waitForDownload.
    repeat first
      [ apply respects_updateDownloadStatus; assumption
      | apply respects_getDownloadLink; assumption
      | apply respects_waitLoop; assumption
      | apply respects_ret; assumption | apply respects_fail; assumption
      | apply respects_request; assumption
      | apply respects_bind; [assumption| |intros ?]
      | match goal with |- respects _ (match ?x with _ => _ end) => destruct x end
      | (intros w'; apply sameRows_item) ].
Qed.

(** X20.  [Download] leaves every item row as it was when the item is a
    series or when it returns an error: an item is rewritten only by a
    movie download that succeeds. *)
Theorem X20_download_item_row (debrid : Debrid) (now : Z) (item : WatchlistItem.t)
    (w : World.t) :
  statusIs "tv" (WatchlistItem.MediaType item) = true \/
  (exists e, fst (Download debrid now item w) = inl e) ->
  watchlistitem (World.db (snd (Download debrid now item w))) = watchlistitem (World.db w).
Proof.
  pose proof sameItems_refl as R1. pose proof sameItems_trans as R2.
  pose proof sameItems_sent as R3. pose proof sameItems_update as R4.
  intros H. change (sameItems w (snd (Download debrid now item w))).
  destruct (statusIs "tv" (WatchlistItem.MediaType item)) eqn:TV.
  - clear H. revert w. change (respects sameItems (Download debrid now item)).
    unfold Download. rewrite TV.
    apply respects_bind; [exact R2|intros w; apply R1|].
    intros results. destruct results as [|r results]; [apply respects_fail, R1|].
    apply respects_forEach; [exact R1|exact R2|].
    intros x. apply respects_downloadEpisode; assumption.
  - destruct H as [H|[e H]]; [discriminate|].
    revert w e H. change (cleanFailure (Download debrid now item)).
    unfold Download. rewrite TV.
    apply clean_bind; [intros w; apply R1|].
    intros results. destruct results as [|r results];
      [apply clean_respects, respects_fail, R1|].
    destruct (bestResult (r :: results)) as [best sc].
    destruct (sc =? 0); [apply clean_respects, respects_fail, R1|].
    destruct best as [best|]; [|apply clean_respects, respects_fail, R1].
    apply clean_bind.
    { unfold addTorrent. apply respects_bind; [exact R2|apply respects_request, R3|].
      intros []; first [apply respects_ret, R1|apply respects_fail, R1]. }
    intros torrentID. apply clean_bind.
    { unfold selectFiles. apply respects_bind; [exact R2|apply respects_request, R3|].
      intros []; first [apply respects_ret, R1|apply respects_fail, R1]. }
    intros _. apply clean_bind; [apply respects_getDownloadLink; assumption|].
    intros link. apply clean_bind; [apply respects_updateDownloadStatus; assumption|].
    intros best'. apply clean_bind; [apply respects_waitLoop; assumption|].
    intros _. apply clean_exec.
Qed.

Lemma X20_download_item_row_witness :
  watchlistitem
    (World.db (snd (Download Sample.refusing 100 Sample.series
                      (Sample.world Sample.seriesResults))))
  = watchlistitem (World.db (Sample.world Sample.seriesResults)).
Proof.
  apply (X20_download_item_row Sample.refusing 100 Sample.series
           (Sample.world Sample.seriesResults)).
  left. reflexivity.
Defined.

(** X21.  For a series [Download] returns an error only when the item
    has no scrape result at all; every failure of the service is
    swallowed. *)
Theorem X21_download_series_no_error (debrid : Debrid) (now : Z) (item : WatchlistItem.t)
    (w : World.t) :
  statusIs "tv" (WatchlistItem.MediaType item) = true ->
  fst (Download debrid now item w)
  = match GetScrapeResultsForItem (World.db w) (WatchlistItem.ID item) with
    | [] => inl "no scrape results found for item"
    | _ => inr tt
    end.
Proof.
  intros TV. unfold Download. rewrite TV. unfold bind at 1, query. cbn [fst snd].
  destruct (GetScrapeResultsForItem (World.db w) (WatchlistItem.ID item)) as [|r results];
    [reflexivity|].
  apply forEach_ok. apply downloadEpisode_ok.
Qed.

Lemma X21_download_series_no_error_witness :
  fst (Download Sample.refusing 100 Sample.series (Sample.world Sample.seriesResults))
  = match GetScrapeResultsForItem (World.db (Sample.world Sample.seriesResults))
            (WatchlistItem.ID Sample.series) with
    | [] => inl "no scrape results found for item"
    | _ => inr tt
    end.
Proof.
  apply (X21_download_series_no_error Sample.refusing 100 Sample.series
           (Sample.world Sample.seriesResults)).
  reflexivity.
Defined.

(** ** Waiting for a download *)

Section WaitFacts.
Context (debrid : Debrid) (now : Z).

Lemma checkDownloadStatus_run (torrentID : string) (r : ScrapeResult.t) (w : World.t) :
  checkDownloadStatus debrid now torrentID r w
  = match debrid (World.calls w) (TorrentInfo torrentID) with
    | Info _ _ progress =>
        if fle 100 progress
        then (inr (setStatus now "downloaded" r),
              stored (sent w [TorrentInfo torrentID])
                (UpdateScrapeResult now (World.db w) (setStatus now "downloaded" r)))
        else (inl "download not complete", sent w [TorrentInfo torrentID])
    | _ => (inl "failed to get torrent info", sent w [TorrentInfo torrentID])
    end.
Proof.
  unfold checkDownloadStatus, bind, request. cbv beta iota.
  destruct (debrid (World.calls w) (TorrentInfo torrentID)); try reflexivity.
  destruct (fle 100 progress); reflexivity.
Qed.

Lemma waitLoop_polls (n : nat) (torrentID : string) (r : ScrapeResult.t) (w : World.t) :
  exists k,
    (k <= n)%nat /\ (n <> 0%nat -> 1 <= k)%nat /\
    World.calls (snd (waitLoop debrid now n torrentID r w))
      = (World.calls w ++ polls torrentID k)%list /\
    match fst (waitLoop debrid now n torrentID r w) with
    | inl _ => k = n /\ World.db (snd (waitLoop debrid now n torrentID r w)) = World.db w
    | inr r' =>
        r' = setStatus now "downloaded" r /\
        World.db (snd (waitLoop debrid now n torrentID r w))
          = UpdateScrapeResult now (World.db w) r'
    end.
Proof.
  revert w. induction n as [|n IH]; intros w.
  - exists 0%nat. cbn. rewrite List.app_nil_r. repeat split; try lia.
  - cbn [waitLoop]. unfold bind, try. rewrite checkDownloadStatus_run.
    assert (F : forall e : error,
      exists k,
        (k <= S n)%nat /\ (S n <> 0%nat -> 1 <= k)%nat /\
        World.calls (snd (waitLoop debrid now n torrentID r (sent w [TorrentInfo torrentID])))
          = (World.calls w ++ polls torrentID k)%list /\
        match fst (waitLoop debrid now n torrentID r (sent w [TorrentInfo torrentID])) with
        | inl _ => k = S n /\
                   World.db (snd (waitLoop debrid now n torrentID r
                                    (sent w [TorrentInfo torrentID]))) = World.db w
        | inr r' =>
            r' = setStatus now "downloaded" r /\
            World.db (snd (waitLoop debrid now n torrentID r
                             (sent w [TorrentInfo torrentID])))
              = UpdateScrapeResult now (World.db w) r'
        end).
    { intros _. destruct (IH (sent w [TorrentInfo torrentID])) as (k & L & _ & C & D).
      exists (S k). split; [lia|]. split; [lia|]. split.
      - rewrite C. cbn [World.calls sent polls List.repeat].
        rewrite <- List.app_assoc. reflexivity.
      - destruct (fst (waitLoop debrid now n torrentID r (sent w [TorrentInfo torrentID])));
          cbn [World.db sent] in D; [split; [lia|tauto]|exact D]. }
    destruct (debrid (World.calls w) (TorrentInfo torrentID)); try apply (F "").
    destruct (fle 100 progress); [|apply (F "")].
    exists 1%nat. cbn. repeat split; lia.
Qed.

End WaitFacts.

(** X22.  [waitForDownload] asks for the state of the torrent between 1
    and 30 times and sends nothing else; it fails only after 30 requests,
    with the store as it was, and on success the result is stored with
    status downloaded. *)
Theorem X22_waitForDownload_polls (debrid : Debrid) (now : Z) (torrentID : string)
    (result : ScrapeResult.t) (w : World.t) :
  let run := waitForDownload debrid now torrentID result w in
  exists k,
    (1 <= k <= 30)%nat /\
    World.calls (snd run) = (World.calls w ++ polls torrentID k)%list /\
    match fst run with
    | inl _ => k = 30%nat /\ World.db (snd run) = World.db w
    | inr result' =>
        result' = setStatus now "downloaded" result /\
        World.db (snd run) = UpdateScrapeResult now (World.db w) result'
    end.
Proof.
  cbv zeta. unfold waitForDownload.
  destruct (waitLoop_polls debrid now 30 torrentID result w) as (k & L & P & C & D).
  exists k. split; [split; [apply P; discriminate|exact L]|]. split; [exact C|exact D].
Qed.

(** ** A download that succeeds *)

Section OutcomeFacts.
Context (debrid : Debrid) (now : Z).

Lemma UpdateScrapeResult_sets (status : string) (db : DB) (r : ScrapeResult.t) :
  resultStatus status (ScrapeResult.ID r) (UpdateScrapeResult now db (setStatus now status r)).
Proof.
  intros row Hin Hid. cbn [scrape_results UpdateScrapeResult withResults] in Hin.
  apply in_map_iff in Hin as (row0 & <- & Hin0).
  cbn [ScrapeResult.ID setStatus] in *.
  destruct (ScrapeResult.ID row0 =? ScrapeResult.ID r) eqn:E; [reflexivity|].
  apply Z.eqb_neq in E. contradiction.
Qed.

Lemma UpdateScrapeResult_keeps (status : string) (id : Z) (db : DB) (r : ScrapeResult.t) :
  resultStatus status id db ->
  resultStatus status id (UpdateScrapeResult now db (setStatus now status r)).
Proof.
  intros H row Hin Hid. cbn [scrape_results UpdateScrapeResult withResults] in Hin.
  apply in_map_iff in Hin as (row0 & <- & Hin0).
  destruct (ScrapeResult.ID row0 =? ScrapeResult.ID (setStatus now status r));
    [reflexivity|]. apply (H row0 Hin0 Hid).
Qed.

Lemma UpdateWatchlistItem_stage (db : DB) (item : WatchlistItem.t) (row : WatchlistItem.t) :
  In row (watchlistitem (UpdateWatchlistItem now db item)) ->
  WatchlistItem.ID row = WatchlistItem.ID item ->
  stage row = stage item.
Proof.
  intros Hin Hid. cbn [watchlistitem UpdateWatchlistItem withItems] in Hin.
  apply in_map_iff in Hin as (row0 & <- & Hin0).
  destruct (WatchlistItem.ID row0 =? WatchlistItem.ID item) eqn:E; [reflexivity|].
  apply Z.eqb_neq in E. contradiction.
Qed.

Lemma eligible_best (results : list ScrapeResult.t) :
  (exists r, In r results /\ eligible r = true) ->
  exists best sc,
    bestResult results = (Some best, sc) /\ (sc =? 0) = false /\
    In best results /\ eligible best = true /\
    forall r, In r results -> eligible r = true -> score r <= score best.
Proof.
  intros (r & Hin & He).
  pose proof (bestResult_picked results) as (P0 & P1 & P2).
  destruct (bestResult results) as [best sc]. cbn [fst snd] in *.
  assert (0 < sc).
  { specialize (P2 r Hin He). unfold eligible in He.
    apply andb_prop in He as [_ He]. unfold score in P2. lia. }
  destruct best as [best|]; [|lia].
  destruct P1 as (B1 & B2 & B3).
  exists best, sc. split; [reflexivity|]. split; [apply Z.eqb_neq; lia|].
  split; [exact B1|]. split; [exact B2|]. intros x Hx Ex. rewrite B3. apply P2; assumption.
Qed.

End OutcomeFacts.

(** X23.  When the service accepts the magnet and the file selection
    and reports the torrent downloaded, [Download] of a movie with an
    eligible result returns no error after four requests (add magnet,
    select files, two state requests), leaves the chosen result with
    status downloaded and the item at (downloaded, symlink_pending). *)
Theorem X23_download_movie_success (debrid : Debrid) (now : Z) (item : WatchlistItem.t)
    (w : World.t) (torrentID link : string) (links : list string) (progress : Q) :
  statusIs "tv" (WatchlistItem.MediaType item) = false ->
  (exists r, In r (GetScrapeResultsForItem (World.db w) (WatchlistItem.ID item)) /\
             eligible r = true) ->
  (forall calls infoHash, debrid calls (AddMagnet infoHash) = TorrentID torrentID) ->
  (forall calls, debrid calls (SelectFiles torrentID) = Accepted) ->
  (forall calls, debrid calls (TorrentInfo torrentID) = Info "downloaded" (link :: links) progress) ->
  fle 100 progress = true ->
  exists best,
    fst (bestResult (GetScrapeResultsForItem (World.db w) (WatchlistItem.ID item))) = Some best /\
    let downloading := setStatus now "downloading" best in
    let done := setStatus now "downloaded" downloading in
    let w' := snd (Download debrid now item w) in
    Download debrid now item w
    = (inr tt,
       stored
         (sent w [AddMagnet (NullString.String (ScrapeResult.InfoHash best));
                  SelectFiles torrentID; TorrentInfo torrentID; TorrentInfo torrentID])
         (UpdateWatchlistItem now
            (UpdateScrapeResult now (UpdateScrapeResult now (World.db w) downloading) done)
            (downloaded item))) /\
    resultStatus "downloaded" (ScrapeResult.ID best) (World.db w') /\
    forall row, In row (watchlistitem (World.db w')) ->
                WatchlistItem.ID row = WatchlistItem.ID item ->
                stage row = ("downloaded", "symlink_pending").
Proof.
  intros TV He Hadd Hsel Hinfo Hp.
  destruct (eligible_best _ He) as (best & sc & Hb & Hsc & _).
  exists best. rewrite Hb. split; [reflexivity|]. cbv zeta.
  assert (Run : Download debrid now item w
    = (inr tt,
       stored
         (sent w [AddMagnet (NullString.String (ScrapeResult.InfoHash best));
                  SelectFiles torrentID; TorrentInfo torrentID; TorrentInfo torrentID])
         (UpdateWatchlistItem now
            (UpdateScrapeResult now
               (UpdateScrapeResult now (World.db w) (setStatus now "downloading" best))
               (setStatus now "downloaded" (setStatus now "downloading" best)))
            (downloaded item)))).
  { unfold Download. rewrite TV. unfold bind at 1, query. cbv beta iota.
    destruct (GetScrapeResultsForItem (World.db w) (WatchlistItem.ID item)) as [|r0 rs] eqn:G.
    { destruct He as (r & [] & _). }
    rewrite Hb, Hsc.
    unfold addTorrent, bind at 1 2, request. cbv beta iota. rewrite Hadd. unfold ret at 1.
    cbv beta iota.
    unfold selectFiles, bind at 1 2, request. cbv beta iota. rewrite Hsel. unfold ret at 1.
    cbv beta iota.
    unfold getDownloadLink, bind at 1 2, request. cbv beta iota. rewrite Hinfo.
    cbn [String.eqb Ascii.eqb Bool.eqb]. unfold ret at 1. cbv beta iota.
    unfold updateDownloadStatus at 1, bind at 1 2, exec at 1, ret at 1. cbv beta iota.
    unfold waitForDownload. cbn [waitLoop]. unfold bind at 1 2, try.
    rewrite checkDownloadStatus_run. cbn [World.calls World.db]. rewrite Hinfo, Hp.
    unfold ret, exec. cbv beta iota. unfold stored, sent. cbn [World.calls World.db].
    rewrite <- !List.app_assoc. reflexivity. }
  split; [exact Run|]. rewrite Run. cbn [snd World.db stored]. split.
  - intros row Hin. cbn [scrape_results UpdateWatchlistItem withItems] in Hin. revert row Hin.
    change (resultStatus "downloaded" (ScrapeResult.ID best)
              (UpdateScrapeResult now
                 (UpdateScrapeResult now (World.db w) (setStatus now "downloading" best))
                 (setStatus now "downloaded" (setStatus now "downloading" best)))).
    apply (UpdateScrapeResult_sets now "downloaded" _ (setStatus now "downloading" best)).
  - intros row Hin Hid.
    apply (UpdateWatchlistItem_stage now _ (downloaded item) row Hin Hid).
Qed.

Lemma X23_download_movie_success_witness :
  let w := Sample.world Sample.scoredResults in
  exists best,
    fst (bestResult (GetScrapeResultsForItem (World.db w) (WatchlistItem.ID Sample.movie)))
    = Some best /\
    let downloading := setStatus 100 "downloading" best in
    let done := setStatus 100 "downloaded" downloading in
    let w' := snd (Download Sample.completing 100 Sample.movie w) in
    Download Sample.completing 100 Sample.movie w
    = (inr tt,
       stored
         (sent w [AddMagnet (NullString.String (ScrapeResult.InfoHash best));
                  SelectFiles "T1"; TorrentInfo "T1"; TorrentInfo "T1"])
         (UpdateWatchlistItem 100
            (UpdateScrapeResult 100 (UpdateScrapeResult 100 (World.db w) downloading) done)
            (downloaded Sample.movie))) /\
    resultStatus "downloaded" (ScrapeResult.ID best) (World.db w') /\
    forall row, In row (watchlistitem (World.db w')) ->
                WatchlistItem.ID row = WatchlistItem.ID Sample.movie ->
                stage row = ("downloaded", "symlink_pending").
Proof.
  apply (X23_download_movie_success Sample.completing 100 Sample.movie
           (Sample.world Sample.scoredResults) "T1" "https://debrid/T1" [] 100).
  - reflexivity.
  - exists (Sample.result 2 900 "hashB" "scraped").
    split; [vm_compute; right; left; reflexivity|reflexivity].
  - intros calls infoHash. reflexivity.
  - intros calls. reflexivity.
  - intros calls. reflexivity.
  - reflexivity.
Defined.

(** ** A series whose magnets are refused *)

Section RefusedFacts.
Context (debrid : Debrid) (now : Z).
Hypothesis refused : forall calls infoHash id, debrid calls (AddMagnet infoHash) <> TorrentID id.

Lemma downloadEpisode_refused (r : ScrapeResult.t) (w : World.t) :
  downloadEpisode debrid now r w
  = (inr tt,
     if isScraped r
     then stored (sent w [AddMagnet (NullString.String (ScrapeResult.InfoHash r))])
            (UpdateScrapeResult now (World.db w) (setStatus now "downloader_ignored_hash" r))
     else w).
Proof.
  unfold downloadEpisode, isScraped.
  destruct (String.eqb _ "scraped"); [|reflexivity].
  unfold bind at 1, try at 1, addTorrent, bind at 1, request. cbv beta iota.
  pose proof (refused (World.calls w) (NullString.String (ScrapeResult.InfoHash r))) as N.
  destruct (debrid (World.calls w) (AddMagnet (NullString.String (ScrapeResult.InfoHash r))));
    try reflexivity.
  destruct (N id eq_refl).
Qed.

Lemma forEach_refused (l : list ScrapeResult.t) (w : World.t) :
  let run := forEach (downloadEpisode debrid now) l w in
  fst run = inr tt /\
  World.calls (snd run)
    = (World.calls w ++
       List.map (fun r => AddMagnet (NullString.String (ScrapeResult.InfoHash r)))
         (List.filter isScraped l))%list /\
  forall id,
    resultStatus "downloader_ignored_hash" id (World.db w) \/
    (exists r, In r l /\ isScraped r = true /\ ScrapeResult.ID r = id) ->
    resultStatus "downloader_ignored_hash" id (World.db (snd run)).
Proof.
  cbv zeta. revert w. induction l as [|r l IH]; intros w; cbn [forEach].
  - cbn. rewrite List.app_nil_r. split; [reflexivity|]. split; [reflexivity|].
    intros id [H|(r & [] & _)]. exact H.
  - unfold bind. rewrite downloadEpisode_refused. cbv beta iota.
    match goal with |- context [forEach _ l ?w1] => destruct (IH w1) as (F & C & S) end.
    split; [exact F|]. split.
    + rewrite C. cbn [List.filter]. destruct (isScraped r); [|reflexivity].
      cbn [World.calls stored sent List.map]. rewrite <- List.app_assoc. reflexivity.
    + intros id H. apply S. destruct (isScraped r) eqn:E.
      * cbn [World.db stored].
        destruct H as [H|(x & [->|Hin] & Hx & Hid)].
        -- left. apply UpdateScrapeResult_keeps, H.
        -- left. rewrite <- Hid. apply UpdateScrapeResult_sets.
        -- right. eauto.
      * destruct H as [H|(x & [->|Hin] & Hx & Hid)]; [left; exact H|congruence|right; eauto].
Qed.

End RefusedFacts.

(** X24.  When the service refuses every magnet, [Download] of a series
    sends one add-magnet request per result in status scraped, in order,
    and nothing else, and leaves each of these results with status
    downloader_ignored_hash. *)
Theorem X24_download_series_refused (debrid : Debrid) (now : Z) (item : WatchlistItem.t)
    (w : World.t) :
  statusIs "tv" (WatchlistItem.MediaType item) = true ->
  (forall calls infoHash id, debrid calls (AddMagnet infoHash) <> TorrentID id) ->
  let results := GetScrapeResultsForItem (World.db w) (WatchlistItem.ID item) in
  let w' := snd (Download debrid now item w) in
  World.calls w'
    = (World.calls w ++
       List.map (fun r => AddMagnet (NullString.String (ScrapeResult.InfoHash r)))
         (List.filter isScraped results))%list /\
  forall r, In r results -> isScraped r = true ->
            resultStatus "downloader_ignored_hash" (ScrapeResult.ID r) (World.db w').
Proof.
  intros TV Hr. cbv zeta.
  assert (E : Download debrid now item w
    = match GetScrapeResultsForItem (World.db w) (WatchlistItem.ID item) with
      | [] => (inl "no scrape results found for item", w)
      | l => forEach (downloadEpisode debrid now) l w
      end).
  { unfold Download. rewrite TV. unfold bind at 1, query. cbv beta iota.
    destruct (GetScrapeResultsForItem _ _); reflexivity. }
  rewrite E. clear E.
  destruct (GetScrapeResultsForItem (World.db w) (WatchlistItem.ID item)) as [|r0 rs] eqn:G.
  - cbn. rewrite List.app_nil_r. split; [reflexivity|]. intros r [].
  - destruct (forEach_refused debrid now Hr (r0 :: rs) w) as (_ & C & S).
    split; [exact C|]. intros r Hin Hs. apply S. right. eauto.
Qed.

Lemma X24_download_series_refused_witness :
  let w := Sample.world Sample.seriesResults in
  let results := GetScrapeResultsForItem (World.db w) (WatchlistItem.ID Sample.series) in
  let w' := snd (Download Sample.refusing 100 Sample.series w) in
  World.calls w'
    = (World.calls w ++
       List.map (fun r => AddMagnet (NullString.String (ScrapeResult.InfoHash r)))
         (List.filter isScraped results))%list /\
  forall r, In r results -> isScraped r = true ->
            resultStatus "downloader_ignored_hash" (ScrapeResult.ID r) (World.db w').
Proof.
  apply (X24_download_series_refused Sample.refusing 100 Sample.series
           (Sample.world Sample.seriesResults)).
  - reflexivity.
  - intros calls infoHash id H. vm_compute in H. discriminate H.
Defined.

(** ** The retry budget *)

Section BudgetFacts.
Context (config : Config) (now : Z).

Lemma getMaxRetries_positive : 1 <= getMaxRetries config.
Proof.
  unfold getMaxRetries.
  destruct (Z.gtb_spec (DefaultMaxRetries (ProcessManagement config)) 0); lia.
Qed.

Lemma handleRetry_count (bp : BaseProcessor.t) (i : Z) :
  retries (snd (handleRetry config now bp i)) i = addInt (retries bp i) 1 /\
  fst (handleRetry config now bp i) = (addInt (retries bp i) 1 <? getMaxRetries config).
Proof.
  unfold handleRetry. cbv zeta.
  destruct (Z.geb_spec (addInt (retries bp i) 1) (getMaxRetries config)) as [G|G];
    cbn [fst snd]; unfold retries at 1; cbn [BaseProcessor.retryCount];
    rewrite retries_insert, Z.eqb_refl; (split; [reflexivity|]); symmetry.
  - apply Z.ltb_ge. lia.
  - apply Z.ltb_lt. lia.
Qed.

Lemma handleRetry_store (bp : BaseProcessor.t) (i j : Z) :
  let bp' := snd (handleRetry config now bp i) in
  itemStatus (BaseProcessor.db bp') j
  = (if (addInt (retries bp i) 1 >=? getMaxRetries config) && (j =? i)
     then option_map (fun _ => "failed") (itemStatus (BaseProcessor.db bp) j)
     else itemStatus (BaseProcessor.db bp) j) /\
  length (BaseProcessor.pending bp')
  = (length (BaseProcessor.pending bp)
     + if addInt (retries bp i) 1 >=? getMaxRetries config then 1 else 0)%nat.
Proof.
  unfold handleRetry. cbv zeta.
  destruct (addInt (retries bp i) 1 >=? getMaxRetries config);
    cbn [fst snd BaseProcessor.db BaseProcessor.pending andb].
  - rewrite itemStatus_updateStatus, List.length_app. cbn [length]. split; reflexivity.
  - split; [reflexivity|lia].
Qed.

End BudgetFacts.

(** X25.  [getMaxRetries] is at least 1.  After [n] failures in a row
    of an item that had no retry count, the count is [n] and the next
    failure is retried exactly when [n + 1] is below the maximum; the
    status of the item is as it was while [n] is below the maximum and
    failed from then on, and every failure from the maximum on has left
    one more reset asleep. *)
Theorem X25_retry_budget (config : Config) (now : Z) (bp : BaseProcessor.t) (itemID : Z)
    (n : nat) :
  retries bp itemID = 0 ->
  Z.of_nat n < 2 ^ 63 - 1 ->
  let bp' := failures config now n bp itemID in
  1 <= getMaxRetries config /\
  retries bp' itemID = Z.of_nat n /\
  fst (handleRetry config now bp' itemID) = (Z.of_nat n + 1 <? getMaxRetries config) /\
  itemStatus (BaseProcessor.db bp') itemID
  = (if Z.of_nat n >=? getMaxRetries config
     then option_map (fun _ => "failed") (itemStatus (BaseProcessor.db bp) itemID)
     else itemStatus (BaseProcessor.db bp) itemID) /\
  Z.of_nat (length (BaseProcessor.pending bp'))
  = Z.of_nat (length (BaseProcessor.pending bp))
    + Z.max 0 (Z.of_nat n - getMaxRetries config + 1).
Proof.
  intros H0 Hn. cbv zeta. pose proof (getMaxRetries_positive config) as M.
  split; [exact M|].
  assert (I : retries (failures config now n bp itemID) itemID = Z.of_nat n /\
    itemStatus (BaseProcessor.db (failures config now n bp itemID)) itemID
    = (if Z.of_nat n >=? getMaxRetries config
       then option_map (fun _ => "failed") (itemStatus (BaseProcessor.db bp) itemID)
       else itemStatus (BaseProcessor.db bp) itemID) /\
    Z.of_nat (length (BaseProcessor.pending (failures config now n bp itemID)))
    = Z.of_nat (length (BaseProcessor.pending bp))
      + Z.max 0 (Z.of_nat n - getMaxRetries config + 1)).
  { induction n as [|n IH].
    - cbn [failures]. split; [exact H0|]. split.
      + destruct (Z.geb_spec (Z.of_nat 0) (getMaxRetries config)); [lia|reflexivity].
      + lia.
    - destruct IH as (R & St0 & P); [lia|]. cbn [failures].
      destruct (handleRetry_count config now (failures config now n bp itemID) itemID)
        as [C _].
      destruct (handleRetry_store config now (failures config now n bp itemID) itemID itemID)
        as [St Pe].
      cbv zeta in St, Pe. rewrite R in C, St, Pe.
      rewrite addInt_succ in C, St, Pe by lia.
      rewrite Z.eqb_refl, andb_true_r in St.
      replace (Z.of_nat (Datatypes.S n)) with (Z.of_nat n + 1) by lia.
      split; [exact C|]. split.
      + rewrite St, St0.
        destruct (Z.geb_spec (Z.of_nat n + 1) (getMaxRetries config)),
                 (Z.geb_spec (Z.of_nat n) (getMaxRetries config)); try reflexivity; try lia.
        destruct (itemStatus (BaseProcessor.db bp) itemID); reflexivity.
      + rewrite Pe, Nat2Z.inj_add, P.
        destruct (Z.geb_spec (Z.of_nat n + 1) (getMaxRetries config)); cbn [Z.of_nat]; lia. }
  destruct I as (R & S & P). split; [exact R|]. split; [|split; [exact S|exact P]].
  destruct (handleRetry_count config now (failures config now n bp itemID) itemID) as [_ F].
  rewrite F, R, addInt_succ by lia. reflexivity.
Qed.

Lemma X25_retry_budget_witness :
  let bp' := failures Sample.config 100 2 Sample.idle 1 in
  1 <= getMaxRetries Sample.config /\
  retries bp' 1 = Z.of_nat 2 /\
  fst (handleRetry Sample.config 100 bp' 1) = (Z.of_nat 2 + 1 <? getMaxRetries Sample.config) /\
  itemStatus (BaseProcessor.db bp') 1
  = (if Z.of_nat 2 >=? getMaxRetries Sample.config
     then option_map (fun _ => "failed") (itemStatus (BaseProcessor.db Sample.idle) 1)
     else itemStatus (BaseProcessor.db Sample.idle) 1) /\
  Z.of_nat (length (BaseProcessor.pending bp'))
  = Z.of_nat (length (BaseProcessor.pending Sample.idle))
    + Z.max 0 (Z.of_nat 2 - getMaxRetries Sample.config + 1).
Proof.
  apply (X25_retry_budget Sample.config 100 Sample.idle 1 2).
  - vm_compute. reflexivity.
  - vm_compute. reflexivity.
Defined.

(** ** The rescan, day after day *)

Section RescanAgain.
Context (now today : Z).

Lemma NoDup_map_filter {A} (f : A -> Z) (p : A -> bool) (l : list A) :
  List.NoDup (List.map f l) -> List.NoDup (List.map f (List.filter p l)).
Proof.
  induction l as [|x l IH]; cbn [List.map List.filter]; intros N; [constructor|].
  apply List.NoDup_cons_iff in N as [N1 N2].
  destruct (p x); [|apply IH, N2]. cbn [List.map]. constructor; [|apply IH, N2].
  intros Hin. apply N1. apply in_map_iff in Hin as (y & E & Hy).
  apply filter_In in Hy as [Hy _]. rewrite <- E. apply in_map, Hy.
Qed.

Lemma same_id {A} (f : A -> Z) (l : list A) (a b : A) :
  List.NoDup (List.map f l) -> In a l -> In b l -> f a = f b -> a = b.
Proof.
  induction l as [|x l IH]; cbn [List.map]; intros N Ha Hb E; [destruct Ha|].
  apply List.NoDup_cons_iff in N as [N1 N2].
  destruct Ha as [->|Ha], Hb as [->|Hb]; auto.
  - exfalso. apply N1. rewrite E. apply in_map, Hb.
  - exfalso. apply N1. rewrite <- E. apply in_map, Ha.
Qed.

Lemma returning_items (db : DB) (it : WatchlistItem.t) :
  In it (GetReturningSeriesWithUnscrapedEpisodes db today) <->
  exists row, In row (watchlistitem db) /\ picks db today row = true /\ it = asTV row.
Proof.
  unfold GetReturningSeriesWithUnscrapedEpisodes. rewrite in_map_iff.
  split.
  - intros (row & <- & Hin). apply sortSlice_In, filter_In in Hin as [Hin Hp].
    exists row. auto.
  - intros (row & Hin & Hp & ->). exists row. split; [reflexivity|].
    apply sortSlice_In, filter_In. auto.
Qed.

Lemma returning_NoDup (db : DB) :
  List.NoDup (List.map WatchlistItem.ID (watchlistitem db)) ->
  List.NoDup (List.map WatchlistItem.ID (GetReturningSeriesWithUnscrapedEpisodes db today)).
Proof.
  intros N. unfold GetReturningSeriesWithUnscrapedEpisodes.
  rewrite List.map_map. cbn [WatchlistItem.ID asTV].
  eapply Permutation_NoDup.
  - symmetry. apply Permutation_map. apply sortSlice_perm.
  - apply (NoDup_map_filter WatchlistItem.ID), N.
Qed.

Lemma rewritten_none (items : list WatchlistItem.t) (row : WatchlistItem.t) :
  (forall it, In it items -> WatchlistItem.ID it <> WatchlistItem.ID row) ->
  rewritten now items row = row.
Proof.
  revert row. induction items as [|item items IH]; intros row H; [reflexivity|].
  unfold rewritten in *. cbn [fold_left].
  destruct (Z.eqb_spec (WatchlistItem.ID row) (WatchlistItem.ID item)) as [E|E].
  - exfalso. apply (H item); [left; reflexivity|auto].
  - apply IH. intros it Hit. apply H. right. exact Hit.
Qed.

Lemma rewritten_one (items : list WatchlistItem.t) (row it : WatchlistItem.t) :
  List.NoDup (List.map WatchlistItem.ID items) ->
  In it items -> WatchlistItem.ID it = WatchlistItem.ID row ->
  rewritten now items row = setItem now row (rescanned now it).
Proof.
  revert row. induction items as [|item items IH]; intros row N Hin E; [destruct Hin|].
  cbn [List.map] in N. apply List.NoDup_cons_iff in N as [N1 N2].
  unfold rewritten in *. cbn [fold_left].
  destruct Hin as [->|Hin].
  - rewrite E, Z.eqb_refl. apply rewritten_none.
    intros x Hx Ex. apply N1. cbn [WatchlistItem.ID setItem] in Ex.
    rewrite E, <- Ex. apply in_map, Hx.
  - destruct (Z.eqb_spec (WatchlistItem.ID row) (WatchlistItem.ID item)) as [E'|E'].
    + exfalso. apply N1. rewrite <- E', <- E. apply in_map, Hin.
    + apply IH; assumption.
Qed.

Lemma rescan_rows (db : DB) :
  List.NoDup (List.map WatchlistItem.ID (watchlistitem db)) ->
  checkForNewEpisodes now today db
  = withItems db
      (List.map (fun row => if picks db today row then rescanRow now row else row)
         (watchlistitem db)).
Proof.
  intros N. unfold checkForNewEpisodes. rewrite rescan_fold. f_equal.
  apply List.map_ext_in. intros row Hrow.
  destruct (picks db today row) eqn:P.
  - apply rewritten_one; [apply returning_NoDup, N| |reflexivity].
    apply returning_items. exists row. auto.
  - apply rewritten_none. intros it Hit E.
    apply returning_items in Hit as (row' & Hin' & P' & ->).
    cbn [WatchlistItem.ID asTV] in E.
    assert (row' = row) by (apply (same_id WatchlistItem.ID _ _ _ N Hin' Hrow E)).
    subst. congruence.
Qed.

Lemma nullIfEmpty_again (s : string) :
  nullIfEmpty (NullString.String (nullIfEmpty s)) = nullIfEmpty s.
Proof.
  unfold nullIfEmpty. destruct (String.eqb s "") eqn:E; [reflexivity|].
  cbn [NullString.String NullString.valid]. rewrite E. reflexivity.
Qed.

Lemma picks_items (db : DB) (rows : list WatchlistItem.t) (row : WatchlistItem.t) :
  picks (withItems db rows) today row = picks db today row.
Proof. reflexivity. Qed.

Lemma picks_rescanRow (db : DB) (t : Z) (row : WatchlistItem.t) :
  picks db today row = true -> picks db today (rescanRow t row) = true.
Proof.
  unfold picks, statusIs. intros H. apply andb_prop in H as [H1 H2].
  apply andb_prop in H1 as [_ H1]. apply andb_true_intro. split; [exact H1|exact H2].
Qed.

Lemma rescanRow_again (t1 t2 : Z) (row : WatchlistItem.t) :
  rescanRow t2 (rescanRow t1 row) = rescanRow t2 row.
Proof.
  unfold rescanRow, setItem.
  cbn [WatchlistItem.ID WatchlistItem.Title WatchlistItem.ImdbID WatchlistItem.TmdbID
       WatchlistItem.Status WatchlistItem.CurrentStep WatchlistItem.LastScrapedDate
       WatchlistItem.MediaType WatchlistItem.ShowStatus rescanned asTV
       NullString.String NullString.valid].
  rewrite !nullIfEmpty_again. reflexivity.
Qed.

End RescanAgain.

(** X26.  With distinct item ids, a rescan leaves the series it picked
    picked: the next rescan selects the same items, a second rescan gives
    the store that one rescan at the later instant gives, and no rescan
    writes a last-scraped date. *)
Theorem X26_rescan_again (now1 now2 today : Z) (db : DB) :
  List.NoDup (List.map WatchlistItem.ID (watchlistitem db)) ->
  let db1 := checkForNewEpisodes now1 today db in
  (forall id, rescans db1 today id = rescans db today id) /\
  List.map WatchlistItem.LastScrapedDate (watchlistitem db1)
  = List.map WatchlistItem.LastScrapedDate (watchlistitem db) /\
  checkForNewEpisodes now2 today db1 = checkForNewEpisodes now2 today db.
Proof.
  intros N. cbv zeta.
  assert (N1 : List.NoDup (List.map WatchlistItem.ID
                             (watchlistitem (checkForNewEpisodes now1 today db)))).
  { rewrite rescan_rows by exact N. cbn [watchlistitem withItems].
    rewrite List.map_map.
    rewrite (List.map_ext _ WatchlistItem.ID); [exact N|].
    intros row. destruct (picks db today row); reflexivity. }
  assert (P : forall row,
    picks (checkForNewEpisodes now1 today db) today
      (if picks db today row then rescanRow now1 row else row) = picks db today row).
  { intros row. rewrite rescan_rows by exact N. rewrite picks_items.
    destruct (picks db today row) eqn:E; [apply picks_rescanRow, E|exact E]. }
  split; [|split].
  - intros id. unfold rescans.
    apply eq_true_iff_eq. rewrite !existsb_exists. split.
    + intros (it & Hit & E). apply returning_items in Hit as (r1 & Hin & Hp & ->).
      rewrite rescan_rows in Hin by exact N. cbn [watchlistitem withItems] in Hin.
      apply in_map_iff in Hin as (row & <- & Hrow).
      rewrite P in Hp. exists (asTV row). split.
      * apply returning_items. exists row. auto.
      * rewrite Hp in E. exact E.
    + intros (it & Hit & E). apply returning_items in Hit as (row & Hrow & Hp & ->).
      exists (asTV (rescanRow now1 row)). split; [|exact E].
      apply returning_items. exists (rescanRow now1 row). split; [|split; [|reflexivity]].
      * rewrite rescan_rows by exact N. cbn [watchlistitem withItems].
        apply in_map_iff. exists row. rewrite Hp. auto.
      * specialize (P row). rewrite Hp in P. exact P.
  - rewrite rescan_rows by exact N. cbn [watchlistitem withItems].
    rewrite List.map_map. apply List.map_ext. intros row.
    destruct (picks db today row); reflexivity.
  - rewrite (rescan_rows now2 today _ N1), (rescan_rows now2 today db N).
    rewrite (rescan_rows now1 today db N) at 2. cbn [watchlistitem withItems].
    rewrite List.map_map.
    assert (M : List.map (fun row =>
                   if picks (checkForNewEpisodes now1 today db) today
                        (if picks db today row then rescanRow now1 row else row)
                   then rescanRow now2 (if picks db today row then rescanRow now1 row else row)
                   else if picks db today row then rescanRow now1 row else row)
                  (watchlistitem db)
                = List.map (fun row => if picks db today row then rescanRow now2 row else row)
                    (watchlistitem db)).
    { apply List.map_ext. intros row. rewrite P.
      destruct (picks db today row); [apply rescanRow_again|reflexivity]. }
    rewrite M. rewrite (rescan_rows now1 today db N). reflexivity.
Qed.

Lemma X26_rescan_again_witness :
  let db1 := checkForNewEpisodes 100 100 Sample.returningDB in
  (forall id, rescans db1 100 id = rescans Sample.returningDB 100 id) /\
  List.map WatchlistItem.LastScrapedDate (watchlistitem db1)
  = List.map WatchlistItem.LastScrapedDate (watchlistitem Sample.returningDB) /\
  checkForNewEpisodes 200 100 db1 = checkForNewEpisodes 200 100 Sample.returningDB.
Proof.
  apply (X26_rescan_again 100 200 100 Sample.returningDB).
  simpl. repeat constructor; simpl; intuition discriminate.
Defined.

(** ** Searching episode by episode *)

Section SearchFacts.
Context {lib : GoLib} (config : Config).

Lemma searchTorrentio_streams (fetch : Fetch) (item : WatchlistItem.t) (query : string)
    (l : list Stream.t) :
  searchTorrentio config fetch item query = inr l ->
  exists streams,
    fetch (TorrentioURL (Scraping config) +:+ "/stream/series/" +:+
           NullString.String (WatchlistItem.ImdbID item) +:+ ":" +:+ query +:+ ".json")
    = Some streams /\
    l = sortSlice higherScore streams /\ l <> [].
Proof.
  unfold searchTorrentio. cbv zeta.
  destruct (_ && _); [|discriminate].
  destruct (fetch _) as [streams|]; [|discriminate].
  destruct (sortSlice higherScore streams) as [|s r] eqn:E; [discriminate|].
  intros [= <-]. exists streams. split; [reflexivity|]. split; [symmetry; exact E|discriminate].
Qed.

Lemma scrapeOneEpisode_flags (fetch : Fetch) (now : Z) (item : WatchlistItem.t)
    (season : Season.t) (db : DB) (foundAny lastErr : bool) (episode : TVEpisode.t) :
  let st := scrapeOneEpisode config fetch now now item season (db, foundAny, lastErr) episode in
  snd (fst st) = foundAny || episodeFound config fetch now item season episode /\
  snd st = lastErr || episodeMissed config fetch now item season episode.
Proof.
  cbv zeta. unfold scrapeOneEpisode, episodeFound, episodeMissed, answered.
  destruct (notYetAired now episode); cbn [negb andb fst snd];
    [rewrite !orb_false_r; tauto|].
  destruct (TVEpisode.Scraped episode); cbn [negb andb orb fst snd];
    [rewrite orb_true_r, orb_false_r; tauto|].
  destruct (searchTorrentio config fetch item _) as [e|l] eqn:E; cbn [negb fst snd].
  - rewrite orb_false_r, orb_true_r. tauto.
  - apply searchTorrentio_streams in E as (streams & _ & _ & N).
    destruct (sortSlice higherScore l) as [|s r] eqn:S.
    + apply sortSlice_nil in S. contradiction.
    + cbn [fst snd]. rewrite orb_true_r, orb_false_r. tauto.
Qed.

Lemma fold_flags (fetch : Fetch) (now : Z) (item : WatchlistItem.t) (season : Season.t)
    (episodes : list TVEpisode.t) (st : DB * bool * bool) :
  let st' := fold_left (scrapeOneEpisode config fetch now now item season) episodes st in
  snd (fst st') = snd (fst st) || existsb (episodeFound config fetch now item season) episodes /\
  snd st' = snd st || existsb (episodeMissed config fetch now item season) episodes.
Proof.
  cbv zeta. revert st.
  induction episodes as [|ep episodes IH]; intros [[db f] e]; cbn [fold_left existsb].
  - cbn [fst snd]. rewrite !orb_false_r. tauto.
  - destruct (IH (scrapeOneEpisode config fetch now now item season (db, f, e) ep)) as [A B].
    destruct (scrapeOneEpisode_flags fetch now item season db f e ep) as [C D].
    cbv zeta in C, D. rewrite A, B, C, D. cbn [fst snd]. rewrite !orb_assoc. tauto.
Qed.

Lemma higherScore_ordered (l : list Stream.t) :
  StronglySorted (fun a b => Stream.Score b <= Stream.Score a) l ->
  sortSlice higherScore l = l.
Proof.
  apply (sortSlice_ordered higherScore (fun a b => Stream.Score b <= Stream.Score a)).
  intros y x H. unfold higherScore. rewrite Z.gtb_ltb. apply Z.ltb_ge. exact H.
Qed.

End SearchFacts.

(** X27.  [scrapeIndividualEpisodes] returns an error exactly when some
    episode that has aired and was not scraped got no stream from its
    search, and no episode that has aired was scraped before or got one:
    a season whose episodes have all not aired yet gives no error. *)
Theorem X27_individual_episodes_result `{lib : GoLib} (config : Config) (fetch : Fetch)
    (now : Z) (item : WatchlistItem.t) (season : Season.t) (episodes : list TVEpisode.t)
    (db : DB) :
  fst (scrapeIndividualEpisodes config fetch now item season episodes db)
  = if negb (existsb (episodeFound config fetch now item season) episodes)
       && existsb (episodeMissed config fetch now item season) episodes
    then Some "failed to scrape any episodes" else None.
Proof.
  unfold scrapeIndividualEpisodes.
  destruct (fold_flags config fetch now item season episodes (db, false, false)) as [A B].
  destruct (fold_left _ episodes _) as [[db' f] e]. cbn [fst snd orb] in A, B.
  rewrite <- A, <- B. destruct (negb f && e); reflexivity.
Qed.

(** X28.  For an episode that has aired and was not scraped, when the
    series URL of [searchTorrentio] answers with streams in non-increasing
    order of the score they carry, the round of [scrapeIndividualEpisodes]
    saves the first stream of the answer as it came, with status
    pending_download: the streams are neither parsed nor scored on this
    path. *)
Theorem X28_individual_episode_first_stream `{lib : GoLib} (config : Config) (fetch : Fetch)
    (now : Z) (item : WatchlistItem.t) (season : Season.t) (db : DB)
    (foundAny lastErr : bool) (episode : TVEpisode.t) (stream : Stream.t)
    (rest : list Stream.t) :
  NullString.Valid (WatchlistItem.ImdbID item)
  && negb (String.eqb (NullString.String (WatchlistItem.ImdbID item)) "") = true ->
  fetch (TorrentioURL (Scraping config) +:+ "/stream/series/" +:+
         NullString.String (WatchlistItem.ImdbID item) +:+ ":" +:+
         episodePattern (Season.SeasonNumber season) (TVEpisode.EpisodeNumber episode) +:+
         ".json") = Some (stream :: rest) ->
  StronglySorted (fun a b => Stream.Score b <= Stream.Score a) (stream :: rest) ->
  notYetAired now episode = false ->
  TVEpisode.Scraped episode = false ->
  scrapeOneEpisode config fetch now now item season (db, foundAny, lastErr) episode
  = (saveForEpisode now item episode stream "pending_download" db, true, lastErr).
Proof.
  intros Hid Hf Hs Ha Hu.
  unfold scrapeOneEpisode. rewrite Ha, Hu.
  unfold searchTorrentio. cbv zeta. rewrite Hid, Hf.
  rewrite (higherScore_ordered _ Hs), (higherScore_ordered _ Hs). reflexivity.
Qed.

Lemma X28_individual_episode_first_stream_witness :
  scrapeOneEpisode Sample.config (Sample.source Sample.seasonCandidates) 100 100 Sample.series
    Sample.season1 (Sample.seriesDB, false, false) (Sample.episode 101 1 50)
  = (saveForEpisode 100 Sample.series (Sample.episode 101 1 50)
       (Sample.stream "Severance season1 complete3 2160p x265" "4.0" "pack")
       "pending_download" Sample.seriesDB, true, false).
Proof.
  apply (X28_individual_episode_first_stream Sample.config
           (Sample.source Sample.seasonCandidates) 100 Sample.series Sample.season1
           Sample.seriesDB false false (Sample.episode 101 1 50)
           (Sample.stream "Severance season1 complete3 2160p x265" "4.0" "pack")
           [Sample.stream "Severance S01E01 1080p" "1.0" "e1";
            Sample.stream "Severance S01E02 1080p" "1.0" "e2";
            Sample.stream "Severance S01E03 1080p" "1.0" "e3"]).
  - reflexivity.
  - reflexivity.
  - repeat constructor; vm_compute; discriminate.
  - reflexivity.
  - reflexivity.
Defined.

(** ** A size that does not parse and the size filter *)

(** X29.  Under a configuration that [validateFilesizeConfig] accepts, a
    scored stream whose file-size string cannot be parsed has size 0 GB
    and passes the size filter of [filterStreams] exactly when the minimum
    for the kind of the item is NaN and the maximum is not below 0.  When
    the minimum is a number, the stream is rejected whenever the size
    filter is on, and it is among the ranked streams only when the size
    filter kept nothing, that is on the unfiltered fallback path. *)
Theorem X29_unparsable_size_and_filter `{lib : GoLib} (config : Config)
    (item : WatchlistItem.t) (raw : list Stream.t) (stream : Stream.t) :
  validateFilesizeConfig config = None ->
  In stream (scoredStreams config raw) ->
  unparsable (ParsedInfo.FileSize (Stream.ParsedInfo stream)) = true ->
  sizeGB stream = 0%Q /\
  (In stream (filterStreams config (scoredStreams config raw) item true false) <->
   Float64.isNaN (Min (limitsFor config item)) = true /\
   Float64.lt (Max (limitsFor config item)) (Float64.Finite 0) = false) /\
  (Float64.isNaN (Min (limitsFor config item)) = false ->
   (forall useUploader,
       ~ In stream (filterStreams config (scoredStreams config raw) item true useUploader)) /\
   (In stream (rankedStreams config raw item) ->
    filterStreams config (scoredStreams config raw) item true false = [])).
Proof.
  intros Hvalid Hin Hun.
  assert (Hzero : sizeGB stream = 0%Q) by now apply unparsable_zero.
  pose proof (above_zero_or_NaN _ (validated_limits config item Hvalid)) as Hmin.
  split; [exact Hzero|]. split.
  - rewrite (filterStreams_zero config _ item false stream Hzero), Hmin.
    destruct (Float64.isNaN (Min (limitsFor config item))); cbn [negb];
      intuition congruence.
  - intros Hnumber. rewrite Hnumber in Hmin. cbn [negb] in Hmin.
    assert (Hrej : forall useUploader,
               ~ In stream (filterStreams config (scoredStreams config raw) item true
                              useUploader)).
    { intros useUploader H.
      apply (filterStreams_zero config _ item useUploader stream Hzero) in H.
      destruct H as (_ & H & _). congruence. }
    split; [exact Hrej|].
    unfold rankedStreams.
    destruct (filterStreams config (scoredStreams config raw) item true false) eqn:E;
      [reflexivity|].
    intros H. apply sortSlice_In in H. rewrite <- E in H. now apply Hrej in H.
Qed.

Lemma X29_unparsable_size_and_filter_witness :
  sizeGB Sample.unsizedScored = 0%Q /\
  (In Sample.unsizedScored
     (filterStreams Sample.config (scoredStreams Sample.config Sample.unsized)
        Sample.movie true false) <->
   Float64.isNaN (Min (limitsFor Sample.config Sample.movie)) = true /\
   Float64.lt (Max (limitsFor Sample.config Sample.movie)) (Float64.Finite 0) = false) /\
  (Float64.isNaN (Min (limitsFor Sample.config Sample.movie)) = false ->
   (forall useUploader,
       ~ In Sample.unsizedScored
           (filterStreams Sample.config (scoredStreams Sample.config Sample.unsized)
              Sample.movie true useUploader)) /\
   (In Sample.unsizedScored (rankedStreams Sample.config Sample.unsized Sample.movie) ->
    filterStreams Sample.config (scoredStreams Sample.config Sample.unsized)
      Sample.movie true false = [])).
Proof.
  apply (X29_unparsable_size_and_filter Sample.config Sample.movie Sample.unsized
           Sample.unsizedScored).
  - vm_compute. reflexivity.
  - vm_compute. right. left. reflexivity.
  - vm_compute. reflexivity.
Defined.
